(** * feed-master, package [youtube]: the poll / dedup / retain / publish loop

    A shallow embedding of [app/youtube/service.go] and the properties of
    its control loop.  Collaborators (channel listing, downloader, store,
    feed file store, file system, clock) are interfaces in the source; here
    they are functions over an abstract world state, and every call the
    service makes is recorded, in order, in a trace of events. *)

From Stdlib Require Import ZArith List String Ascii Bool Lia.
Import ListNotations.

Local Open Scope string_scope.
Local Open Scope list_scope.
Local Open Scope Z_scope.

(** ** Machine integers

    Go's [int] on the 64-bit targets the service is built for: a value in
    [min_int, max_int]; [+] and [++] wrap around. *)

Definition min_int : Z := - 2 ^ 63.
Definition max_int : Z := 2 ^ 63 - 1.

Definition wrap (z : Z) : Z := (z + 2 ^ 63) mod 2 ^ 64 - 2 ^ 63.

Definition int_add (a b : Z) : Z := wrap (a + b).

Definition in_int (z : Z) : Prop := min_int <= z <= max_int.

(** ** Strings and bytes

    A Go string is a sequence of bytes; so is a Rocq [string].  A byte is a
    [Z] in [0, 255]. *)

Definition bytes_of_string (s : string) : list Z :=
  map (fun c => Z.of_N (N_of_ascii c)) (list_ascii_of_string s).

Definition hex_digit (d : Z) : ascii :=
  if d <? 10 then ascii_of_N (Z.to_N (48 + d)) else ascii_of_N (Z.to_N (87 + d)).

(** [fmt.Sprintf("%x", b)] for a byte slice: two lower-case digits a byte. *)
Fixpoint hex_of_bytes (b : list Z) : string :=
  match b with
  | [] => EmptyString
  | x :: r => String (hex_digit (x / 16)) (String (hex_digit (x mod 16)) (hex_of_bytes r))
  end.

(** [strings.Contains(s, sub)]. *)
Fixpoint Contains (s sub : string) : bool :=
  prefix sub s ||
  match s with
  | EmptyString => false
  | String _ r => Contains r sub
  end.

(** ** Data model *)

(** Modelled from the spec: [ytfeed.Type] is declared in app/youtube/feed;
    the kind of a feed is a string, [FTPlaylist] the playlist kind. *)
Definition FeedType : Type := string.
Definition FTPlaylist : FeedType := "playlist".

(** [FeedInfo] contains channel or feed ID, readable name and other
    per-feed info. *)
Record FeedInfo : Type := {
  Name : string;
  ID : string;
  Type_ : FeedType;
  Keep : Z;
  Language : string
}.

(** Modelled from the spec: [ytfeed.Entry] is declared in
    app/youtube/feed; these are the fields the service reads or writes.
    [Published] is an instant, in nanoseconds. *)
Record Entry : Type := {
  ChannelID : string;
  VideoID : string;
  Title : string;
  Link_Href : string;
  Published : Z;
  Media_Description : string;
  Author_Name : string;
  Author_URI : string;
  File : string
}.

Definition set_File (e : Entry) (f : string) : Entry :=
  {| ChannelID := ChannelID e; VideoID := VideoID e; Title := Title e;
     Link_Href := Link_Href e; Published := Published e;
     Media_Description := Media_Description e; Author_Name := Author_Name e;
     Author_URI := Author_URI e; File := f |}.

Definition set_Published (e : Entry) (t : Z) : Entry :=
  {| ChannelID := ChannelID e; VideoID := VideoID e; Title := Title e;
     Link_Href := Link_Href e; Published := t;
     Media_Description := Media_Description e; Author_Name := Author_Name e;
     Author_URI := Author_URI e; File := File e |}.

Definition set_Title (e : Entry) (t : string) : Entry :=
  {| ChannelID := ChannelID e; VideoID := VideoID e; Title := t;
     Link_Href := Link_Href e; Published := Published e;
     Media_Description := Media_Description e; Author_Name := Author_Name e;
     Author_URI := Author_URI e; File := File e |}.

(** Modelled from the spec: [rssfeed.Enclosure], [rssfeed.Item] and
    [rssfeed.Rss2] are declared in app/feed; these are the fields the
    service fills. *)
Record Enclosure : Type := {
  URL : string;
  Type__ : string;
  Length : Z
}.

Record Item : Type := {
  Item_Title : string;
  Item_Description : string;
  Item_Link : string;
  Item_PubDate : string;
  GUID : string;
  Author : string;
  Item_Enclosure : Enclosure;
  DT : Z
}.

Record Rss2 : Type := {
  Version : string;
  ItemList : list Item;
  Rss_Title : string;
  Rss_Description : string;
  Rss_Link : string;
  Rss_PubDate : string;
  LastBuildDate : string;
  Rss_Language : string
}.

Definition set_Rss_Link (r : Rss2) (l : string) : Rss2 :=
  {| Version := Version r; ItemList := ItemList r; Rss_Title := Rss_Title r;
     Rss_Description := Rss_Description r; Rss_Link := l;
     Rss_PubDate := Rss_PubDate r; LastBuildDate := LastBuildDate r;
     Rss_Language := Rss_Language r |}.

(** The run statistics of one pass over all feeds. *)
Record stats : Type := {
  entries : Z;
  processed : Z;
  added : Z;
  removed : Z;
  ignored : Z;
  skipped : Z
}.

Definition stats_zero : stats :=
  {| entries := 0; processed := 0; added := 0; removed := 0; ignored := 0;
     skipped := 0 |}.

(** A value given to a format string ([log.Printf], [errors.Wrapf],
    [fmt.Sprintf]); formatting itself is not interpreted: a formatted
    string is the format with its arguments. *)
#[warnings="-register-all"]
Inductive value : Type :=
| VStr (s : string)
| VInt (z : Z)
| VEntry (e : Entry)
| VFeed (fi : FeedInfo)
| VFmt (format : string) (args : list value).

(** Errors: those of the collaborators, and those wrapped by
    [errors.Wrap] and [errors.Wrapf]. *)
Inductive error : Type :=
| Err (msg : string)
| Wrapf (cause : error) (format : string) (args : list value).

(** [errors.Wrapf] returns nil if its error is nil. *)
Definition errors_Wrapf (err : option error) (format : string)
    (args : list value) : option error :=
  match err with
  | None => None
  | Some e => Some (Wrapf e format args)
  end.

Definition errors_Wrap (err : option error) (message : string) : option error :=
  errors_Wrapf err message [].

(** An argument of [log.Printf]: a value or an error. *)
Inductive arg : Type :=
| V (v : value)
| E (e : error).

(** [stats.String]. *)
Definition stats_String (st : stats) : value :=
  VFmt "entries: %d, processed: %d, updated: %d, removed: %d, ignored: %d, skipped: %d"
    [VInt (entries st); VInt (processed st); VInt (added st);
     VInt (removed st); VInt (ignored st); VInt (skipped st)].

(** ** Time

    Instants and durations are counted in nanoseconds.  A [time.Duration]
    is an int64: the difference of two instants saturates. *)

Definition Hour : Z := 3600 * 1000000000.

Definition Sub (t u : Z) : Z := Z.max min_int (Z.min max_int (t - u)).

(** ** crypto/sha1

    The digest of the standard library (FIPS 180-1), on 32-bit words held
    in [Z]. *)

Module sha1.

Definition mask32 (x : Z) : Z := Z.land x 4294967295.

Definition rotl (n x : Z) : Z :=
  mask32 (Z.lor (Z.shiftl x n) (Z.shiftr x (32 - n))).

Definition add32 (a b : Z) : Z := mask32 (a + b).

(** Big-endian encoding of [x] on [n] bytes. *)
Fixpoint be_bytes (n : nat) (x : Z) : list Z :=
  match n with
  | O => []
  | S k => Z.land (Z.shiftr x (8 * Z.of_nat k)) 255 :: be_bytes k x
  end.

Definition pad (msg : list Z) : list Z :=
  let l := Z.of_nat (List.length msg) in
  let zeros := Z.to_nat ((55 - l) mod 64) in
  msg ++ 128 :: repeat 0 zeros ++ be_bytes 8 (8 * l).

Fixpoint words_of (fuel : nat) (b : list Z) : list Z :=
  match fuel, b with
  | S k, b0 :: b1 :: b2 :: b3 :: r =>
      (b0 * 16777216 + b1 * 65536 + b2 * 256 + b3) :: words_of k r
  | _, _ => []
  end.

(** The message schedule, most recent word first: [rev_w] holds
    [w(i-1), w(i-2), ...] and is extended by [n] words. *)
Fixpoint schedule (n : nat) (rev_w : list Z) : list Z :=
  match n with
  | O => rev_w
  | S k =>
      let x := Z.lxor (Z.lxor (nth 2 rev_w 0) (nth 7 rev_w 0))
                      (Z.lxor (nth 13 rev_w 0) (nth 15 rev_w 0)) in
      schedule k (rotl 1 x :: rev_w)
  end.

Definition state : Type := Z * Z * Z * Z * Z.

Definition init : state :=
  (1732584193, 4023233417, 2562383102, 271733878, 3285377520).

Definition round (i : nat) (st : state) (w : Z) : state :=
  let '(a, b, c, d, e) := st in
  let '(f, k) :=
    if (i <? 20)%nat then
      (Z.lor (Z.land b c) (Z.land (Z.lxor b 4294967295) d), 1518500249)
    else if (i <? 40)%nat then
      (Z.lxor (Z.lxor b c) d, 1859775393)
    else if (i <? 60)%nat then
      (Z.lor (Z.lor (Z.land b c) (Z.land b d)) (Z.land c d), 2400959708)
    else
      (Z.lxor (Z.lxor b c) d, 3395469782) in
  let t := add32 (add32 (add32 (add32 (rotl 5 a) f) e) w) k in
  (t, a, rotl 30 b, c, d).

Fixpoint rounds (i : nat) (ws : list Z) (st : state) : state :=
  match ws with
  | [] => st
  | w :: r => rounds (S i) r (round i st w)
  end.

Definition block (h : state) (blk : list Z) : state :=
  let ws := rev (schedule 64 (rev (words_of 16 blk))) in
  let '(a, b, c, d, e) := rounds 0 ws h in
  let '(h0, h1, h2, h3, h4) := h in
  (add32 h0 a, add32 h1 b, add32 h2 c, add32 h3 d, add32 h4 e).

Fixpoint blocks (fuel : nat) (h : state) (b : list Z) : state :=
  match fuel, b with
  | S k, _ :: _ => blocks k (block h (firstn 64 b)) (skipn 64 b)
  | _, _ => h
  end.

Definition sum (msg : list Z) : list Z :=
  let p := pad msg in
  let '(h0, h1, h2, h3, h4) := blocks (List.length p) init p in
  be_bytes 4 h0 ++ be_bytes 4 h1 ++ be_bytes 4 h2 ++ be_bytes 4 h3 ++ be_bytes 4 h4.

(** The [hash.Hash] returned by [sha1.New()]: what has been written so far.
    [Write] appends and, as [hash.Hash] documents, never returns an error. *)
Record digest : Type := { written : list Z }.

Definition New : digest := {| written := [] |}.

Definition Write (h : digest) (p : list Z) : digest * (Z * option error) :=
  ({| written := written h ++ p |}, (Z.of_nat (List.length p), None)).

Definition Sum (h : digest) (b : list Z) : list Z := b ++ sum (written h).

End sha1.

(** ** Collaborators, events and the monad of the service *)

(** Every call to a collaborator, with its arguments and what it returned,
    and every line logged. *)
Inductive Event : Type :=
| EvChannelGet (chanID : string) (feedType : FeedType)
    (res : list Entry * option error)
| EvDownloaderGet (id fname : string) (res : string * option error)
| EvStoreSave (entry : Entry) (res : bool * option error)
| EvStoreLoad (channelID : string) (max : Z) (res : list Entry * option error)
| EvStoreExist (entry : Entry) (res : bool * option error)
| EvStoreRemoveOld (channelID : string) (keep : Z)
    (res : list string * option error)
| EvStoreSetProcessed (entry : Entry) (res : option error)
| EvStoreCheckProcessed (entry : Entry) (res : bool * Z * option error)
| EvStoreCountProcessed (res : Z)
| EvStoreLast (res : Entry * option error)
| EvRSSFileStoreSave (id doc : string) (res : option error)
| EvRemove (name : string) (res : option error)
| EvStat (name : string) (res : Z * option error)
| EvNow (t : Z)
| EvUUID (res : string)
| EvLog (format : string) (args : list arg).

Section Service.

(** The state of everything outside the service: the store, the file
    system, the remote site, the clock. *)
Context {W : Type}.

(** A computation of the service: from a world to a result, the next
    world and the events it caused, in order. *)
Definition M (A : Type) : Type := W -> A * W * list Event.

Definition ret {A : Type} (a : A) : M A := fun w => (a, w, []).

Definition bind {A B : Type} (c : M A) (k : A -> M B) : M B :=
  fun w =>
    let '(a, w1, t1) := c w in
    let '(b, w2, t2) := k a w1 in
    (b, w2, t1 ++ t2).

(** A call to a collaborator, recorded by [ev]. *)
Definition call {A : Type} (f : W -> A * W) (ev : A -> Event) : M A :=
  fun w => let '(a, w1) := f w in (a, w1, [ev a]).

(** [log.Printf]. *)
Definition log_Printf (format : string) (args : list arg) : M unit :=
  fun w => (tt, w, [EvLog format args]).

(** [DownloaderService] is an interface for downloading audio from
    youtube. *)
Record DownloaderService : Type := {
  Downloader_Get : string -> string -> W -> (string * option error) * W
}.

(** [ChannelService] is an interface for getting channel entries, i.e. the
    list of videos. *)
Record ChannelService : Type := {
  Channel_Get : string -> FeedType -> W -> (list Entry * option error) * W
}.

(** [StoreService] is an interface for storing and loading metadata about
    downloaded audio. *)
Record StoreService : Type := {
  Store_Save : Entry -> W -> (bool * option error) * W;
  Store_Load : string -> Z -> W -> (list Entry * option error) * W;
  Store_Exist : Entry -> W -> (bool * option error) * W;
  Store_RemoveOld : string -> Z -> W -> (list string * option error) * W;
  Store_SetProcessed : Entry -> W -> option error * W;
  Store_CheckProcessed : Entry -> W -> (bool * Z * option error) * W;
  Store_CountProcessed : W -> Z * W;
  Store_Last : W -> (Entry * option error) * W
}.

(** Modelled from the spec: [RSSFileStore] is declared elsewhere in the
    package; the service uses its [Save], which persists a rendered feed
    document keyed by feed identifier. *)
Record RSSFileStore : Type := {
  RSSFileStore_Save : string -> string -> W -> option error * W
}.

(** What the service uses of the Go runtime and standard library besides
    hashing: the file system, the clock, random identifiers, and the pure
    formatting functions. *)
Record Runtime : Type := {
  os_Remove : string -> W -> option error * W;
  os_Stat : string -> W -> (Z * option error) * W;
  time_Now : W -> Z * W;
  uuid_New : W -> string * W;
  time_Format : Z -> string -> string;
  path_Base : string -> string;
  xml_MarshalIndent : Rss2 -> string -> string -> string * option error
}.

(** [Service] loads audio from youtube channels. *)
Record Service : Type := {
  Feeds : list FeedInfo;
  Downloader : DownloaderService;
  ChannelService_ : ChannelService;
  Store : StoreService;
  CheckDuration : Z;
  RSSFileStore_ : RSSFileStore;
  KeepPerChannel : Z;
  RootURL : string
}.

End Service.

Arguments M : clear implicits.
Arguments DownloaderService : clear implicits.
Arguments ChannelService : clear implicits.
Arguments StoreService : clear implicits.
Arguments RSSFileStore : clear implicits.
Arguments Runtime : clear implicits.
Arguments Service : clear implicits.

Declare Scope go_scope.
Delimit Scope go_scope with go.

Notation "x <- c ;; k" := (bind c (fun x => k))
  (at level 61, c at next level, right associativity) : go_scope.
Notation "' pat <- c ;; k" := (bind c (fun x => match x with pat => k end))
  (at level 61, pat pattern, c at next level, right associativity) : go_scope.
Notation "c ;; k" := (bind c (fun _ => k))
  (at level 61, right associativity) : go_scope.

(** ** The service *)

(** The variables of one feed's loop in [procChannels]. *)
Record locals : Type := {
  allStats : stats;
  changed : bool;
  processed_ : Z
}.

(** How a loop body ends: it falls through or continues, it breaks, or the
    enclosing function returns. *)
Inductive ctl : Type :=
| Next
| Break
| Return (err : option error).

Definition inc_entries (st : stats) : stats :=
  {| entries := int_add (entries st) 1; processed := processed st;
     added := added st; removed := removed st; ignored := ignored st;
     skipped := skipped st |}.

Definition inc_skipped (st : stats) : stats :=
  {| entries := entries st; processed := processed st; added := added st;
     removed := removed st; ignored := ignored st;
     skipped := int_add (skipped st) 1 |}.

Definition inc_ignored (st : stats) : stats :=
  {| entries := entries st; processed := processed st; added := added st;
     removed := removed st; ignored := int_add (ignored st) 1;
     skipped := skipped st |}.

Definition inc_added (st : stats) : stats :=
  {| entries := entries st; processed := processed st;
     added := int_add (added st) 1; removed := removed st;
     ignored := ignored st; skipped := skipped st |}.

Definition add_processed (st : stats) (n : Z) : stats :=
  {| entries := entries st; processed := int_add (processed st) n;
     added := added st; removed := removed st; ignored := ignored st;
     skipped := skipped st |}.

Definition add_removed (st : stats) (n : Z) : stats :=
  {| entries := entries st; processed := processed st; added := added st;
     removed := int_add (removed st) n; ignored := ignored st;
     skipped := skipped st |}.

Definition on_stats (f : stats -> stats) (l : locals) : locals :=
  {| allStats := f (allStats l); changed := changed l;
     processed_ := processed_ l |}.

Definition inc_processed (l : locals) : locals :=
  {| allStats := allStats l; changed := changed l;
     processed_ := int_add (processed_ l) 1 |}.

Definition set_changed (l : locals) : locals :=
  {| allStats := allStats l; changed := true; processed_ := processed_ l |}.

(** [time.RFC822Z]. *)
Definition RFC822Z : string := "02 Jan 06 15:04 -0700".

Inductive Signal : Type :=
| Done (err : error)
| Tick.

(** What [Do] has come to when the signals observed so far are used up. *)
Inductive outcome : Type :=
| Blocked
| Panicked
| Returned (err : option error).

Section Methods.

Context {W : Type}.
Variable rt : Runtime W.
Variable s : Service W.

Local Open Scope go_scope.

Definition keep (fi : FeedInfo) : Z :=
  let keep := KeepPerChannel s in
  if Keep fi >? 0 then Keep fi else keep.

Definition makeFileName (entry : Entry) : M W string :=
  let h := sha1.New in
  let '(h, (_, err)) :=
    sha1.Write h (bytes_of_string (ChannelID entry ++ "::" ++ VideoID entry)) in
  match err with
  | Some _ => call (uuid_New rt) EvUUID
  | None => ret (hex_of_bytes (sha1.Sum h []))
  end.

(** The loop of [removeOld] over the files the store returned. *)
Fixpoint removeOld_files (fi : FeedInfo) (files : list string) (removed : Z)
    : M W Z :=
  match files with
  | [] => ret removed
  | f :: files =>
      e <- call (os_Remove rt f) (EvRemove f) ;;
      match e with
      | Some e =>
          log_Printf "[WARN] failed to remove file %s: %v" [V (VStr f); E e] ;;
          removeOld_files fi files removed
      | None =>
          let removed := int_add removed 1 in
          log_Printf "[INFO] removed %s for %s (%s)"
            [V (VStr f); V (VStr (ID fi)); V (VStr (Name fi))] ;;
          removeOld_files fi files removed
      end
  end.

(** [removeOld] deletes old entries from store and corresponding files. *)
Definition removeOld (fi : FeedInfo) : M W Z :=
  let removed := 0 in
  let keep := keep fi in
  '(files, err) <- call (Store_RemoveOld (Store s) (ID fi) (int_add keep 1))
                        (EvStoreRemoveOld (ID fi) (int_add keep 1)) ;;
  match err with
  | Some e => (* even with error we get a list of files to remove *)
      log_Printf "[WARN] failed to remove some old meta data for %s, %v"
        [V (VStr (ID fi)); E e]
  | None => ret tt
  end ;;
  removeOld_files fi files removed.

(** The loop of [RSSFeed] over the loaded entries. *)
Fixpoint RSSFeed_items (entries : list Entry) (items : list Item)
    : M W (list Item) :=
  match entries with
  | [] => ret items
  | entry :: entries =>
      let fileURL := (RootURL s ++ "/" ++ path_Base rt (File entry))%string in
      '(size, fiErr) <- call (os_Stat rt (File entry)) (EvStat (File entry)) ;;
      fileSize <-
        match fiErr with
        | Some e =>
            log_Printf "[WARN] failed to get file size for %s (%s %s): %v"
              [V (VStr (File entry)); V (VStr (VideoID entry));
               V (VStr (Title entry)); E e] ;;
            ret 0
        | None => ret size
        end ;;
      now <- call (time_Now rt) EvNow ;;
      RSSFeed_items entries
        (items ++
         [{| Item_Title := Title entry;
             Item_Description := Media_Description entry;
             Item_Link := Link_Href entry;
             Item_PubDate := time_Format rt (Published entry) RFC822Z;
             GUID := (ChannelID entry ++ "::" ++ VideoID entry)%string;
             Author := Author_Name entry;
             Item_Enclosure :=
               {| URL := fileURL; Type__ := "audio/mpeg"; Length := fileSize |};
             DT := now |}])
  end.

(** [RSSFeed] generates RSS feed for given channel. *)
Definition RSSFeed (fi : FeedInfo) : M W (string * option error) :=
  '(entries, err) <- call (Store_Load (Store s) (ID fi) (keep fi))
                          (EvStoreLoad (ID fi) (keep fi)) ;;
  match err with
  | Some _ => ret (EmptyString, errors_Wrap err "failed to get channel entries")
  | None =>
  match entries with
  | [] => ret (EmptyString, None)
  | entry0 :: _ =>
      items <- RSSFeed_items entries [] ;;
      now <- call (time_Now rt) EvNow ;;
      let rss :=
        {| Version := "2.0";
           ItemList := items;
           Rss_Title := Name fi;
           Rss_Description := "generated by feed-master";
           Rss_Link := Author_URI entry0;
           (* one item was built per entry: items[0] exists *)
           Rss_PubDate := match items with
                          | item0 :: _ => Item_PubDate item0
                          | [] => EmptyString
                          end;
           LastBuildDate := time_Format rt now RFC822Z;
           Rss_Language := Language fi |} in
      let rss :=
        if String.eqb (Type_ fi) FTPlaylist
        then set_Rss_Link rss ("https://www.youtube.com/playlist?list=" ++ ID fi)%string
        else rss in
      let '(b, err) := xml_MarshalIndent rt rss "" "  " in
      match err with
      | Some _ => ret (EmptyString, errors_Wrap err "failed to marshal rss")
      | None => ret (b, None)
      end
  end
  end.

(** [procChannels], lines 213-223: the fields of a downloaded entry. *)
Definition procChannels_updated (feedInfo : FeedInfo) (entry : Entry)
    (file : string) : M W Entry :=
  let entry := set_File entry file in
  (* only reset time if published not too while ago *)
  now <- call (time_Now rt) EvNow ;;
  entry <-
    (if Sub now (Published entry) <? Hour * 24
     then now <- call (time_Now rt) EvNow ;; ret (set_Published entry now)
     else ret entry) ;;
  ret (if negb (Contains (Title entry) (Name feedInfo))
       then set_Title entry (Name feedInfo ++ ": " ++ Title entry)%string
       else entry).

(** [procChannels], lines 172-236: the body of the loop over the entries
    of one feed.  [err] is the variable of the enclosing scope, set by
    [ChannelService.Get]. *)
Definition procChannels_entry (feedInfo : FeedInfo) (err : option error)
    (i : Z) (entry : Entry) (l : locals) : M W (ctl * locals) :=
  let l := on_stats inc_entries l in
  if processed_ l >=? keep feedInfo then ret (Break, l) else
  '(exists_, exErr) <- call (Store_Exist (Store s) entry) (EvStoreExist entry) ;;
  match err with
  | Some _ =>
      ret (Return (errors_Wrapf exErr "failed to check if entry %s exists"
                     [VStr (VideoID entry)]), l)
  | None =>
  if exists_ : bool then ret (Next, inc_processed (on_stats inc_skipped l)) else
  '(found, _, procErr) <- call (Store_CheckProcessed (Store s) entry)
                               (EvStoreCheckProcessed entry) ;;
  match procErr with
  | Some _ =>
      log_Printf "[WARN] can't get processed status for %s, %+v"
        [V (VStr (VideoID entry)); V (VFeed feedInfo)]
  | None => ret tt
  end ;;
  if match procErr with None => found | Some _ => false end
  then ret (Next, inc_processed (on_stats inc_skipped l)) else
  log_Printf "[INFO] new entry [%d] %s, %s, %s"
    [V (VInt (int_add i 1)); V (VStr (VideoID entry)); V (VStr (Title entry));
     V (VStr (Name feedInfo))] ;;
  fname <- makeFileName entry ;;
  '(file, downErr) <- call (Downloader_Get (Downloader s) (VideoID entry) fname)
                           (EvDownloaderGet (VideoID entry) fname) ;;
  match downErr with
  | Some e =>
      let l := on_stats inc_ignored l in
      log_Printf "[WARN] failed to download %s: %s" [V (VStr (VideoID entry)); E e] ;;
      ret (Next, l)
  | None =>
  let l := inc_processed l in
  log_Printf "[INFO] downloaded %s (%s) to %s, channel: %+v"
    [V (VStr (VideoID entry)); V (VStr (Title entry)); V (VStr file);
     V (VFeed feedInfo)] ;;
  entry <- procChannels_updated feedInfo entry file ;;
  '(ok, saveErr) <- call (Store_Save (Store s) entry) (EvStoreSave entry) ;;
  match saveErr with
  | Some _ =>
      ret (Return (errors_Wrapf saveErr "failed to save entry %+v" [VEntry entry]), l)
  | None =>
  (if negb ok
   then log_Printf "[WARN] attempt to save dup entry %+v" [V (VEntry entry)]
   else ret tt) ;;
  let l := set_changed l in
  procErr <- call (Store_SetProcessed (Store s) entry) (EvStoreSetProcessed entry) ;;
  match procErr with
  | Some e =>
      log_Printf "[WARN] failed to set processed status for %s: %v"
        [V (VStr (VideoID entry)); E e]
  | None => ret tt
  end ;;
  let l := on_stats inc_added l in
  log_Printf "[INFO] saved %s (%s) to %s, channel: %+v"
    [V (VStr (VideoID entry)); V (VStr (Title entry)); V (VStr file);
     V (VFeed feedInfo)] ;;
  ret (Next, l)
  end
  end
  end.

(** [procChannels], lines 171-237: the loop over the entries of one feed. *)
Fixpoint procChannels_entries (feedInfo : FeedInfo) (err : option error)
    (i : Z) (entries : list Entry) (l : locals) : M W (ctl * locals) :=
  match entries with
  | [] => ret (Next, l)
  | entry :: entries =>
      '(c, l) <- procChannels_entry feedInfo err i entry l ;;
      match c with
      | Next => procChannels_entries feedInfo err (i + 1) entries l
      | Break => ret (Break, l)
      | Return e => ret (Return e, l)
      end
  end.

(** [procChannels], lines 241-251: what is done for a changed feed. *)
Definition procChannels_changed (feedInfo : FeedInfo) (allStats : stats)
    : M W stats :=
  removed <- removeOld feedInfo ;;
  let allStats := add_removed allStats removed in
  '(rss, rssErr) <- RSSFeed feedInfo ;;
  match rssErr with
  | Some e =>
      log_Printf "[WARN] failed to generate rss for %s: %s"
        [V (VStr (Name feedInfo)); E e]
  | None =>
      err <- call (RSSFileStore_Save (RSSFileStore_ s) (ID feedInfo) rss)
                  (EvRSSFileStoreSave (ID feedInfo) rss) ;;
      match err with
      | Some e =>
          log_Printf "[WARN] failed to save rss for %s: %s"
            [V (VStr (Name feedInfo)); E e]
      | None => ret tt
      end
  end ;;
  ret allStats.

(** [procChannels], lines 164-252: the body of the loop over the feeds. *)
Definition procChannels_feed (feedInfo : FeedInfo) (allStats0 : stats)
    : M W (ctl * stats) :=
  '(entries, err) <- call (Channel_Get (ChannelService_ s) (ID feedInfo) (Type_ feedInfo))
                          (EvChannelGet (ID feedInfo) (Type_ feedInfo)) ;;
  match err with
  | Some e =>
      log_Printf "[WARN] failed to get channel entries for %s: %s"
        [V (VStr (ID feedInfo)); E e] ;;
      ret (Next, allStats0)
  | None =>
  log_Printf "[INFO] got %d entries for %s, limit to %d"
    [V (VInt (Z.of_nat (List.length entries))); V (VStr (Name feedInfo));
     V (VInt (keep feedInfo))] ;;
  '(c, l) <- procChannels_entries feedInfo err 0 entries
               {| allStats := allStats0; changed := false; processed_ := 0 |} ;;
  match c with
  | Return e => ret (Return e, allStats l)
  | _ =>
  let allStats1 := add_processed (allStats l) (processed_ l) in
  if changed l (* save rss feed to fs if there are new entries *)
  then allStats2 <- procChannels_changed feedInfo allStats1 ;; ret (Next, allStats2)
  else ret (Next, allStats1)
  end
  end.

(** [procChannels], lines 163-253: the loop over the feeds. *)
Fixpoint procChannels_feeds (feeds : list FeedInfo) (allStats : stats)
    : M W (ctl * stats) :=
  match feeds with
  | [] => ret (Next, allStats)
  | feedInfo :: feeds =>
      '(c, allStats) <- procChannels_feed feedInfo allStats ;;
      match c with
      | Next => procChannels_feeds feeds allStats
      | Break => ret (Break, allStats)
      | Return e => ret (Return e, allStats)
      end
  end.

Definition procChannels : M W (option error) :=
  '(c, allStats) <- procChannels_feeds (Feeds s) stats_zero ;;
  match c with
  | Return e => ret e
  | _ =>
  lifetime <- call (Store_CountProcessed (Store s)) EvStoreCountProcessed ;;
  log_Printf "[INFO] all channels processed - channels: %d, %s, lifetime: %d"
    [V (VInt (Z.of_nat (List.length (Feeds s)))); V (stats_String allStats);
     V (VInt lifetime)] ;;
  '(last, err) <- call (Store_Last (Store s)) EvStoreLast ;;
  match err with
  | None => log_Printf "[INFO] last entry: %s" [V (VEntry last)]
  | Some _ => ret tt
  end ;;
  ret None
  end.

(** The loop of [Do]: [select] takes the next signal, the context's
    cancellation or the ticker's tick. *)
Fixpoint Do_loop (sigs : list Signal) : M W outcome :=
  match sigs with
  | [] => ret Blocked
  | Done e :: _ => ret (Returned (Some e))
  | Tick :: sigs =>
      err <- procChannels ;;
      match err with
      | Some _ => ret (Returned (errors_Wrap err "failed to process channels"))
      | None => Do_loop sigs
      end
  end.

Fixpoint Do_feeds (feeds : list FeedInfo) : M W unit :=
  match feeds with
  | [] => ret tt
  | f :: feeds => log_Printf "[INFO] youtube feed %+v" [V (VFeed f)] ;; Do_feeds feeds
  end.

(** [Do] is a blocking function that downloads audio from youtube channels
    and updates metadata.  [time.NewTicker] panics on a duration that is
    not positive. *)
Definition Do (sigs : list Signal) : M W outcome :=
  log_Printf "[INFO] starting youtube service" [] ;;
  Do_feeds (Feeds s) ;;
  if CheckDuration s <=? 0 then ret Panicked else
  err <- procChannels ;;
  match err with
  | Some _ => ret (Returned (errors_Wrap err "failed to process channels"))
  | None => Do_loop sigs
  end.

End Methods.

(** ** Test doubles

    Collaborators that answer from a script, in the manner of the
    generated mocks of the package.  The world is the clock, which moves
    on by a nanosecond each time it is read. *)

Module Mock.

Record script : Type := {
  on_Get : string -> list Entry * option error;
  on_Exist : Entry -> bool * option error;
  on_CheckProcessed : Entry -> bool * Z * option error;
  on_Download : string -> string -> string * option error;
  on_Save : Entry -> bool * option error;
  on_Load : string -> Z -> list Entry * option error;
  on_RemoveOld : string -> Z -> list string * option error;
  on_SetProcessed : Entry -> option error;
  on_RSSSave : string -> string -> option error;
  on_Remove : string -> option error
}.

Definition answer {A : Type} (a : A) : Z -> A * Z := fun w => (a, w).

Definition runtime (sc : script) : Runtime Z :=
  {| os_Remove := fun f => answer (on_Remove sc f);
     os_Stat := fun _ => answer (1024, None);
     time_Now := fun w => (w, w + 1);
     uuid_New := answer "00000000-0000-4000-8000-000000000000";
     time_Format := fun _ _ => "01 Jan 24 00:00 +0000";
     path_Base := fun p => p;
     xml_MarshalIndent := fun _ _ _ => ("<rss></rss>", None) |}.

Definition service (sc : script) (feeds : list FeedInfo) (keepPerChannel : Z)
    : Service Z :=
  {| Feeds := feeds;
     Downloader := {| Downloader_Get := fun id f => answer (on_Download sc id f) |};
     ChannelService_ := {| Channel_Get := fun id _ => answer (on_Get sc id) |};
     Store :=
       {| Store_Save := fun e => answer (on_Save sc e);
          Store_Load := fun id n => answer (on_Load sc id n);
          Store_Exist := fun e => answer (on_Exist sc e);
          Store_RemoveOld := fun id n => answer (on_RemoveOld sc id n);
          Store_SetProcessed := fun e => answer (on_SetProcessed sc e);
          Store_CheckProcessed := fun e => answer (on_CheckProcessed sc e);
          Store_CountProcessed := answer 7;
          Store_Last := answer
            ({| ChannelID := ""; VideoID := ""; Title := ""; Link_Href := "";
                Published := 0; Media_Description := ""; Author_Name := "";
                Author_URI := ""; File := "" |}, Some (Err "no entries")) |};
     CheckDuration := 60 * 1000000000;
     RSSFileStore_ := {| RSSFileStore_Save := fun id doc => answer (on_RSSSave sc id doc) |};
     KeepPerChannel := keepPerChannel;
     RootURL := "http://example.com/yt" |}.

(** The instant the runs below start at. *)
Definition now0 : Z := 1700000000 * 1000000000.

Definition day : Z := 24 * Hour.

Definition feed : FeedInfo :=
  {| Name := "My Show"; ID := "C1"; Type_ := "channel"; Keep := 0;
     Language := "en" |}.

Definition video (id title : string) (published : Z) : Entry :=
  {| ChannelID := "C1"; VideoID := id; Title := title;
     Link_Href := "https://www.youtube.com/watch?v=" ++ id;
     Published := published; Media_Description := "";
     Author_Name := "author"; Author_URI := "https://www.youtube.com/channel/C1";
     File := "" |}.

Definition V1 : Entry := video "V1" "Episode 5" (now0 - 10 * day).
Definition V2 : Entry := video "V2" "Episode 6" (now0 - 2 * Hour).
Definition V3 : Entry := video "V3" "Episode 7" (now0 + 10 * day).

Definition l0 : locals :=
  {| allStats := stats_zero; changed := false; processed_ := 0 |}.

(** One feed lists [V1], new to the store; everything succeeds. *)
Definition fresh : script :=
  {| on_Get := fun _ => ([V1], None);
     on_Exist := fun _ => (false, None);
     on_CheckProcessed := fun _ => (false, 0, None);
     on_Download := fun id _ => ("/srv/yt/" ++ id ++ ".mp3", None)%string;
     on_Save := fun _ => (true, None);
     on_Load := fun _ _ => ([V1], None);
     on_RemoveOld := fun _ _ => ([], None);
     on_SetProcessed := fun _ => None;
     on_RSSSave := fun _ _ => None;
     on_Remove := fun _ => None |}.

Definition with_Get (sc : script) (f : string -> list Entry * option error) : script :=
  {| on_Get := f; on_Exist := on_Exist sc;
     on_CheckProcessed := on_CheckProcessed sc; on_Download := on_Download sc;
     on_Save := on_Save sc; on_Load := on_Load sc;
     on_RemoveOld := on_RemoveOld sc; on_SetProcessed := on_SetProcessed sc;
     on_RSSSave := on_RSSSave sc; on_Remove := on_Remove sc |}.

Definition with_Exist (sc : script) (f : Entry -> bool * option error) : script :=
  {| on_Get := on_Get sc; on_Exist := f;
     on_CheckProcessed := on_CheckProcessed sc; on_Download := on_Download sc;
     on_Save := on_Save sc; on_Load := on_Load sc;
     on_RemoveOld := on_RemoveOld sc; on_SetProcessed := on_SetProcessed sc;
     on_RSSSave := on_RSSSave sc; on_Remove := on_Remove sc |}.

Definition with_CheckProcessed (sc : script)
    (f : Entry -> bool * Z * option error) : script :=
  {| on_Get := on_Get sc; on_Exist := on_Exist sc;
     on_CheckProcessed := f; on_Download := on_Download sc;
     on_Save := on_Save sc; on_Load := on_Load sc;
     on_RemoveOld := on_RemoveOld sc; on_SetProcessed := on_SetProcessed sc;
     on_RSSSave := on_RSSSave sc; on_Remove := on_Remove sc |}.

Definition with_Download (sc : script)
    (f : string -> string -> string * option error) : script :=
  {| on_Get := on_Get sc; on_Exist := on_Exist sc;
     on_CheckProcessed := on_CheckProcessed sc; on_Download := f;
     on_Save := on_Save sc; on_Load := on_Load sc;
     on_RemoveOld := on_RemoveOld sc; on_SetProcessed := on_SetProcessed sc;
     on_RSSSave := on_RSSSave sc; on_Remove := on_Remove sc |}.

Definition with_Save (sc : script) (f : Entry -> bool * option error) : script :=
  {| on_Get := on_Get sc; on_Exist := on_Exist sc;
     on_CheckProcessed := on_CheckProcessed sc; on_Download := on_Download sc;
     on_Save := f; on_Load := on_Load sc;
     on_RemoveOld := on_RemoveOld sc; on_SetProcessed := on_SetProcessed sc;
     on_RSSSave := on_RSSSave sc; on_Remove := on_Remove sc |}.

Definition with_Load (sc : script)
    (f : string -> Z -> list Entry * option error) : script :=
  {| on_Get := on_Get sc; on_Exist := on_Exist sc;
     on_CheckProcessed := on_CheckProcessed sc; on_Download := on_Download sc;
     on_Save := on_Save sc; on_Load := f;
     on_RemoveOld := on_RemoveOld sc; on_SetProcessed := on_SetProcessed sc;
     on_RSSSave := on_RSSSave sc; on_Remove := on_Remove sc |}.

Definition with_RemoveOld (sc : script)
    (f : string -> Z -> list string * option error) : script :=
  {| on_Get := on_Get sc; on_Exist := on_Exist sc;
     on_CheckProcessed := on_CheckProcessed sc; on_Download := on_Download sc;
     on_Save := on_Save sc; on_Load := on_Load sc;
     on_RemoveOld := f; on_SetProcessed := on_SetProcessed sc;
     on_RSSSave := on_RSSSave sc; on_Remove := on_Remove sc |}.

Definition with_Remove (sc : script) (f : string -> option error) : script :=
  {| on_Get := on_Get sc; on_Exist := on_Exist sc;
     on_CheckProcessed := on_CheckProcessed sc; on_Download := on_Download sc;
     on_Save := on_Save sc; on_Load := on_Load sc;
     on_RemoveOld := on_RemoveOld sc; on_SetProcessed := on_SetProcessed sc;
     on_RSSSave := on_RSSSave sc; on_Remove := f |}.

(** The store loads nothing for the feed after the entry was saved. *)
Definition empty_load : script := with_Load fresh (fun _ _ => ([], None)).

(** The store fails to load the entries of the feed. *)
Definition failing_load : script :=
  with_Load fresh (fun _ _ => ([], Some (Err "bucket not found"))).

(** The existence lookup fails: for [V1] with "not found", for any other
    entry with "found". *)
Definition failing_exist : script :=
  with_Get
    (with_Exist fresh
       (fun e => (negb (String.eqb (VideoID e) "V1"), Some (Err "db closed"))))
    (fun _ => ([V1; V2], None)).

(** The processed lookup answers "found" together with an error. *)
Definition found_with_error : script :=
  with_CheckProcessed fresh (fun _ => (true, 0, Some (Err "db closed"))).

(** The feed lists an entry dated ten days ahead of the clock. *)
Definition ahead : script := with_Get fresh (fun _ => ([V3], None)).

(** Three entries: the first is stored already, the download of the
    second fails, the third cannot be saved. *)
Definition failing_save : script :=
  with_Get
    (with_Exist
       (with_Download
          (with_Save fresh (fun _ => (false, Some (Err "disk full"))))
          (fun id _ => if String.eqb id "V2"
                       then ("", Some (Err "network"))
                       else ("/srv/yt/" ++ id ++ ".mp3", None)%string))
       (fun e => (String.eqb (VideoID e) "V1", None)))
    (fun _ => ([V1; V2; V3], None)).

(** Trimming returns three files, with an error; the second file cannot
    be deleted. *)
Definition trimming : script :=
  with_Remove
    (with_RemoveOld fresh
       (fun _ _ => (["/srv/yt/a.mp3"; "/srv/yt/b.mp3"; "/srv/yt/c.mp3"],
                    Some (Err "partial"))))
    (fun f => if String.eqb f "/srv/yt/b.mp3" then Some (Err "busy") else None).

End Mock.

(** ** Observations on traces *)

(** The files [os.Remove] was called on, in order. *)
Fixpoint removals (tr : list Event) : list string :=
  match tr with
  | [] => []
  | EvRemove f _ :: r => f :: removals r
  | _ :: r => removals r
  end.

(** The format strings of the lines logged, in order. *)
Fixpoint logged (tr : list Event) : list string :=
  match tr with
  | [] => []
  | EvLog format _ :: r => format :: logged r
  | _ :: r => logged r
  end.

(** The kinds of event the processing of an entry causes
    (lines 172-236). *)
Definition entry_event (ev : Event) : bool :=
  match ev with
  | EvStoreExist _ _ | EvStoreCheckProcessed _ _ | EvDownloaderGet _ _ _
  | EvStoreSave _ _ | EvStoreSetProcessed _ _ | EvNow _ | EvUUID _
  | EvLog _ _ => true
  | _ => false
  end.

(** The kinds of event trimming and rendering cause (lines 241-251). *)
Definition changed_event (ev : Event) : bool :=
  match ev with
  | EvStoreRemoveOld _ _ _ | EvRemove _ _ | EvStoreLoad _ _ _ | EvStat _ _
  | EvNow _ | EvRSSFileStoreSave _ _ _ | EvLog _ _ => true
  | _ => false
  end.

(** The kinds of event [removeOld] causes. *)
Definition trim_event (ev : Event) : bool :=
  match ev with
  | EvStoreRemoveOld _ _ _ | EvRemove _ _ | EvLog _ _ => true
  | _ => false
  end.

(** The kinds of event [RSSFeed] causes once the entries are loaded. *)
Definition item_event (ev : Event) : bool :=
  match ev with
  | EvStat _ _ | EvNow _ | EvLog _ _ => true
  | _ => false
  end.

(** A [Store.Save] that returned no error. *)
Definition saved_event (ev : Event) : bool :=
  match ev with
  | EvStoreSave _ (_, None) => true
  | _ => false
  end.

(** A [Store.Save] that returned an error. *)
Definition save_failed_event (ev : Event) : bool :=
  match ev with
  | EvStoreSave _ (_, Some _) => true
  | _ => false
  end.

(** The number of events of a kind in a trace. *)
Definition count (p : Event -> bool) (tr : list Event) : nat :=
  List.length (filter p tr).

(** A [Downloader.Get] that returned an error. *)
Definition download_failed_event (ev : Event) : bool :=
  match ev with
  | EvDownloaderGet _ _ (_, Some _) => true
  | _ => false
  end.

(** A lookup that found the entry: [Store.Exist] returning [true], or
    [Store.CheckProcessed] returning [true] and no error. *)
Definition duplicate_event (ev : Event) : bool :=
  match ev with
  | EvStoreExist _ (true, _) => true
  | EvStoreCheckProcessed _ (true, _, None) => true
  | _ => false
  end.

(** A [Downloader.Get] that returned no error. *)
Definition downloaded_event (ev : Event) : bool :=
  match ev with
  | EvDownloaderGet _ _ (_, None) => true
  | _ => false
  end.

(** An [os.Remove] that returned no error. *)
Definition removed_event (ev : Event) : bool :=
  match ev with
  | EvRemove _ None => true
  | _ => false
  end.

(** What the calls of [os.Stat] give for the length of an enclosure: the
    size of the file, or 0 where the call failed. *)
Fixpoint stat_sizes (tr : list Event) : list Z :=
  match tr with
  | [] => []
  | EvStat _ (size, None) :: r => size :: stat_sizes r
  | EvStat _ (_, Some _) :: r => 0 :: stat_sizes r
  | _ :: r => stat_sizes r
  end.

(** * Properties *)

(** ** The digest on the test vectors of FIPS 180 *)

Example sha1_abc :
  hex_of_bytes (sha1.sum (bytes_of_string "abc"))
  = "a9993e364706816aba3e25717850c26c9cd0d89d".
Proof. vm_compute. reflexivity. Qed.

Example sha1_empty :
  hex_of_bytes (sha1.sum [])
  = "da39a3ee5e6b4b0d3255bfef95601890afd80709".
Proof. vm_compute. reflexivity. Qed.

Example sha1_two_blocks :
  hex_of_bytes (sha1.sum (bytes_of_string
    "abcdbcdecdefdefgefghfghighijhijkijkljklmklmnlmnomnopnopq"))
  = "84983e441c3bd26ebaae4aa1f95129e5e54670f1".
Proof. vm_compute. reflexivity. Qed.

(** ** Machine arithmetic *)

Lemma wrap_in_int (z : Z) : in_int (wrap z).
Proof.
  unfold in_int, wrap, min_int, max_int.
  pose proof (Z.mod_pos_bound (z + 2 ^ 63) (2 ^ 64) ltac:(lia)). lia.
Qed.

Lemma wrap_small (z : Z) : in_int z -> wrap z = z.
Proof.
  unfold in_int, wrap, min_int, max_int. intros H.
  rewrite Z.mod_small; lia.
Qed.

Lemma wrap_wrap (z : Z) : wrap (wrap z) = wrap z.
Proof. apply wrap_small, wrap_in_int. Qed.

Lemma wrap_add_l (a b : Z) : wrap (wrap a + b) = wrap (a + b).
Proof.
  unfold wrap.
  replace (((a + 2 ^ 63) mod 2 ^ 64 - 2 ^ 63) + b + 2 ^ 63)
    with ((a + 2 ^ 63) mod 2 ^ 64 + b) by lia.
  rewrite Zplus_mod_idemp_l. f_equal. f_equal. lia.
Qed.

Lemma wrap_add_r (a b : Z) : wrap (a + wrap b) = wrap (a + b).
Proof. rewrite Z.add_comm, wrap_add_l. f_equal. lia. Qed.

Lemma wrap_congr (x y k : Z) : wrap x = wrap y -> wrap (x + k) = wrap (y + k).
Proof.
  intros H. rewrite <- (wrap_add_l x), <- (wrap_add_l y), H. reflexivity.
Qed.

(** Where the sum fits, [+] on [int] is the sum. *)
Lemma int_add_small (a b : Z) : in_int (a + b) -> int_add a b = a + b.
Proof. apply wrap_small. Qed.

Lemma max_int_wraps : int_add max_int 1 = min_int.
Proof. reflexivity. Qed.

(** The saturation of a [time.Duration] does not show against a bound
    that is itself a duration. *)
Lemma Sub_ltb (t u d : Z) :
  min_int < d <= max_int -> (Sub t u <? d) = (t - u <? d).
Proof.
  intros H. unfold Sub.
  destruct (Z.ltb_spec (t - u) d); destruct (Z.ltb_spec (Z.max min_int (Z.min max_int (t - u))) d);
    try reflexivity; lia.
Qed.

Lemma day_is_duration : min_int < Hour * 24 <= max_int.
Proof. unfold min_int, max_int, Hour. lia. Qed.

(** ** Running a computation *)

Ltac inv H := inversion H; subst; clear H.

Ltac unfold_run H :=
  cbv beta iota zeta delta
    [bind call log_Printf ret makeFileName procChannels_updated
     sha1.Write sha1.New] in H.

(** Takes the computation in [H] apart, one call at a time, innermost
    first. *)
Ltac step_on x :=
  lazymatch x with
  | context [match _ with _ => _ end] => fail
  | _ => (is_var x; destruct x) || destruct x eqn:?
  end.

Ltac run H :=
  repeat (unfold_run H;
          match type of H with
          | context [match ?x with _ => _ end] => step_on x
          | context [if ?x then _ else _] => step_on x
          end);
  unfold_run H.

(** ** The file name of a download *)

Section FileName.

Context {W : Type}.
Variable rt : Runtime W.

Lemma makeFileName_eq (entry : Entry) (w : W) :
  makeFileName rt entry w
  = (hex_of_bytes (sha1.sum (bytes_of_string (ChannelID entry ++ "::" ++ VideoID entry))),
     w, []).
Proof. reflexivity. Qed.

End FileName.

(** C9.  Two invocations of [makeFileName] on the same identity, in
    whatever worlds and on whatever other fields of the entry, give the
    same file name: the hexadecimal SHA-1 digest of
    [channelID ++ "::" ++ itemID]; they read no random identifier and
    cause no event.  For channel "C1" and item "V1" the name is
    bc57a4f3d66f4f0f6f35d80001a5801ea5bdef2c in both runs. *)
Theorem makeFileName_deterministic :
  forall (W1 W2 : Type) (rt1 : Runtime W1) (rt2 : Runtime W2)
         (e1 e2 : Entry) (w1 : W1) (w2 : W2),
    ChannelID e1 = ChannelID e2 ->
    VideoID e1 = VideoID e2 ->
    let name :=
      hex_of_bytes (sha1.sum (bytes_of_string (ChannelID e1 ++ "::" ++ VideoID e1))) in
    makeFileName rt1 e1 w1 = (name, w1, []) /\
    makeFileName rt2 e2 w2 = (name, w2, []) /\
    (ChannelID e1 = "C1" -> VideoID e1 = "V1" ->
     name = "bc57a4f3d66f4f0f6f35d80001a5801ea5bdef2c").
Proof.
  intros W1 W2 rt1 rt2 e1 e2 w1 w2 Hc Hv name. subst name.
  rewrite !makeFileName_eq, <- Hc, <- Hv.
  repeat split. intros -> ->. vm_compute. reflexivity.
Qed.

Lemma makeFileName_deterministic_witness :
  ChannelID Mock.V1 = ChannelID (set_Title Mock.V1 "other") /\
  VideoID Mock.V1 = VideoID (set_Title Mock.V1 "other") /\
  makeFileName (Mock.runtime Mock.fresh) Mock.V1 Mock.now0
  = ("bc57a4f3d66f4f0f6f35d80001a5801ea5bdef2c", Mock.now0, []) /\
  makeFileName (Mock.runtime Mock.trimming) (set_Title Mock.V1 "other") 5
  = ("bc57a4f3d66f4f0f6f35d80001a5801ea5bdef2c", 5, []).
Proof.
  split; [reflexivity | split; [reflexivity |]].
  destruct (makeFileName_deterministic Z Z (Mock.runtime Mock.fresh)
              (Mock.runtime Mock.trimming) Mock.V1 (set_Title Mock.V1 "other")
              Mock.now0 5 eq_refl eq_refl) as (H1 & H2 & H3).
  rewrite (H3 eq_refl eq_refl) in H1, H2. split; assumption.
Defined.

(** ** One entry *)

Ltac wrap_lia :=
  unfold in_int, min_int, max_int, int_add, wrap in *;
  change (2 ^ 64) with 18446744073709551616 in *;
  change (2 ^ 63) with 9223372036854775808 in *;
  Z.to_euclidean_division_equations; lia.

Ltac fields :=
  cbn [allStats changed processed_ entries processed added removed ignored
       skipped inc_entries inc_skipped inc_ignored inc_added add_processed
       add_removed on_stats inc_processed set_changed] in *.

Lemma geb_false (a b : Z) : (a >=? b) = false -> a < b.
Proof. rewrite Z.geb_leb. apply Z.leb_gt. Qed.

Lemma existsb_saved_In (tr : list Event) :
  existsb saved_event tr = true <->
  exists e ok, In (EvStoreSave e (ok, None)) tr.
Proof.
  rewrite existsb_exists. split.
  - intros (ev & Hin & Hev). destruct ev; try discriminate.
    destruct res as [ok [x|]]; try discriminate. eauto.
  - intros (e & ok & Hin). eexists; split; [exact Hin | reflexivity].
Qed.

Lemma existsb_save_failed_In (tr : list Event) :
  existsb save_failed_event tr = true <->
  exists e ok serr, In (EvStoreSave e (ok, Some serr)) tr.
Proof.
  rewrite existsb_exists. split.
  - intros (ev & Hin & Hev). destruct ev; try discriminate.
    destruct res as [ok [x|]]; try discriminate. eauto.
  - intros (e & ok & serr & Hin). eexists; split; [exact Hin | reflexivity].
Qed.

Lemma forallb_existsb_false {A : Type} (p q : A -> bool) (l : list A) :
  (forall a, p a = true -> q a = false) ->
  forallb p l = true -> existsb q l = false.
Proof.
  intros Hpq. induction l as [|a l IH]; simpl; [reflexivity |].
  intros H. apply andb_true_iff in H as [Ha Hl].
  rewrite (Hpq a Ha), (IH Hl). reflexivity.
Qed.

Section Entry.

Context {W : Type}.
Variable rt : Runtime W.
Variable s : Service W.

Variables (fi : FeedInfo) (err : option error) (i : Z) (entry : Entry).
Variables (l : locals) (w : W) (c : ctl) (l' : locals) (w' : W).
Variable tr : list Event.
Hypothesis Hrun : procChannels_entry rt s fi err i entry l w = (c, l', w', tr).

Ltac cases := generalize Hrun; intros H; unfold procChannels_entry in H; run H; inv H.

Lemma entry_events : forallb entry_event tr = true.
Proof. cases; reflexivity. Qed.

(** The flag [changed] is raised by a [Store.Save] that returned no error,
    and by nothing else. *)
Lemma entry_changed : changed l' = changed l || existsb saved_event tr.
Proof. cases; fields; simpl; rewrite ?orb_false_r, ?orb_true_r; reflexivity. Qed.

(** The local counter stays within the bound it is tested against. *)
Lemma entry_bound :
  in_int (processed_ l) -> processed_ l <= Z.max 0 (keep s fi) ->
  in_int (processed_ l') /\ processed_ l' <= Z.max 0 (keep s fi).
Proof.
  cases; fields; intros Hi Hb;
    try (apply geb_false in Heqb; fields);
    (split; [try apply wrap_in_int; try assumption | try assumption; wrap_lia]).
Qed.

(** Unless the function returns, what is counted as handled is counted as
    skipped or as added, and the total of the run is not touched. *)
Lemma entry_balance :
  (forall e, c <> Return e) ->
  wrap (added (allStats l') + skipped (allStats l') - processed_ l')
  = wrap (added (allStats l) + skipped (allStats l) - processed_ l) /\
  processed (allStats l') = processed (allStats l).
Proof.
  cases; fields; intros Hc; try (exfalso; eapply Hc; reflexivity);
    (split; [wrap_lia | reflexivity]).
Qed.

(** Only a failed [Store.Save] makes the function return from here, with
    that error wrapped; it is then the last event. *)
Lemma entry_return :
  err = None ->
  match c with
  | Return r =>
      exists e ok serr pre,
        r = Some (Wrapf serr "failed to save entry %+v" [VEntry e]) /\
        tr = pre ++ [EvStoreSave e (ok, Some serr)] /\
        existsb save_failed_event pre = false
  | _ => existsb save_failed_event tr = false
  end.
Proof.
  intros ->. cases; try reflexivity.
  all: do 3 eexists;
    match goal with
    | |- exists pre, _ /\ ?t = _ /\ _ => exists (removelast t)
    end; simpl; repeat split; reflexivity.
Qed.

End Entry.

(** ** The entries of one feed *)

Section Entries.

Context {W : Type}.
Variable rt : Runtime W.
Variable s : Service W.
Variable fi : FeedInfo.

(** One turn of the loop: the body, then the rest unless the body left
    the loop. *)
Lemma entries_cons err i entry es l w c l' w' tr :
  procChannels_entries rt s fi err i (entry :: es) l w = (c, l', w', tr) ->
  exists c1 l1 w1 t1,
    procChannels_entry rt s fi err i entry l w = (c1, l1, w1, t1) /\
    match c1 with
    | Next =>
        exists t2,
          procChannels_entries rt s fi err (i + 1) es l1 w1 = (c, l', w', t2) /\
          tr = t1 ++ t2
    | _ => c = c1 /\ l' = l1 /\ w' = w1 /\ tr = t1 ++ []
    end.
Proof.
  intros H. cbn [procChannels_entries] in H. unfold bind in H.
  destruct (procChannels_entry rt s fi err i entry l w) as [[[c1 l1] w1] t1].
  exists c1, l1, w1, t1. split; [reflexivity |].
  destruct c1.
  - destruct (procChannels_entries rt s fi err (i + 1) es l1 w1)
      as [[[c2 l2] w2] t2].
    inv H. eauto.
  - inv H. auto.
  - inv H. auto.
Qed.

Ltac turn H :=
  apply entries_cons in H;
  destruct H as (c1 & l1 & w1 & t1 & He & H);
  destruct c1;
  [ destruct H as (t2 & Hr & ->) | destruct H as (-> & -> & -> & ->)
  | destruct H as (-> & -> & -> & ->) ].

Lemma entries_events err es :
  forall i l w c l' w' tr,
    procChannels_entries rt s fi err i es l w = (c, l', w', tr) ->
    forallb entry_event tr = true.
Proof.
  induction es as [|entry es IH]; intros i l w c l' w' tr H.
  - inv H. reflexivity.
  - turn H; rewrite forallb_app, (entry_events rt s _ _ _ _ _ _ _ _ _ _ He);
      [rewrite (IH _ _ _ _ _ _ _ Hr) | |]; reflexivity.
Qed.

Lemma entries_changed err es :
  forall i l w c l' w' tr,
    procChannels_entries rt s fi err i es l w = (c, l', w', tr) ->
    changed l' = changed l || existsb saved_event tr.
Proof.
  induction es as [|entry es IH]; intros i l w c l' w' tr H.
  - inv H. simpl. rewrite orb_false_r. reflexivity.
  - turn H; rewrite existsb_app.
    + rewrite (IH _ _ _ _ _ _ _ Hr), (entry_changed rt s _ _ _ _ _ _ _ _ _ _ He).
      rewrite orb_assoc. reflexivity.
    + rewrite (entry_changed rt s _ _ _ _ _ _ _ _ _ _ He). simpl.
      rewrite orb_false_r. reflexivity.
    + rewrite (entry_changed rt s _ _ _ _ _ _ _ _ _ _ He). simpl.
      rewrite orb_false_r. reflexivity.
Qed.

Lemma entries_bound err es :
  forall i l w c l' w' tr,
    procChannels_entries rt s fi err i es l w = (c, l', w', tr) ->
    in_int (processed_ l) -> processed_ l <= Z.max 0 (keep s fi) ->
    in_int (processed_ l') /\ processed_ l' <= Z.max 0 (keep s fi).
Proof.
  induction es as [|entry es IH]; intros i l w c l' w' tr H Hi Hb.
  - inv H. auto.
  - turn H;
      destruct (entry_bound rt s _ _ _ _ _ _ _ _ _ _ He Hi Hb) as [Hi1 Hb1];
      eauto.
Qed.

Lemma entries_balance err es :
  forall i l w c l' w' tr,
    procChannels_entries rt s fi err i es l w = (c, l', w', tr) ->
    (forall e, c <> Return e) ->
    wrap (added (allStats l') + skipped (allStats l') - processed_ l')
    = wrap (added (allStats l) + skipped (allStats l) - processed_ l) /\
    processed (allStats l') = processed (allStats l).
Proof.
  induction es as [|entry es IH]; intros i l w c l' w' tr H Hc.
  - inv H. auto.
  - turn H.
    + destruct (IH _ _ _ _ _ _ _ Hr Hc) as [E1 E2].
      destruct (entry_balance rt s _ _ _ _ _ _ _ _ _ _ He) as [E3 E4];
        [discriminate |].
      split; congruence.
    + apply (entry_balance rt s _ _ _ _ _ _ _ _ _ _ He). discriminate.
    + exfalso. eapply Hc. reflexivity.
Qed.

Lemma entries_return es :
  forall i l w c l' w' tr,
    procChannels_entries rt s fi None i es l w = (c, l', w', tr) ->
    match c with
    | Return r =>
        exists e ok serr pre,
          r = Some (Wrapf serr "failed to save entry %+v" [VEntry e]) /\
          tr = pre ++ [EvStoreSave e (ok, Some serr)] /\
          existsb save_failed_event pre = false
    | _ => existsb save_failed_event tr = false
    end.
Proof.
  induction es as [|entry es IH]; intros i l w c l' w' tr H.
  - inv H. reflexivity.
  - turn H;
      pose proof (entry_return rt s _ _ _ _ _ _ _ _ _ _ He eq_refl) as H1;
      cbn beta iota in H1.
    + specialize (IH _ _ _ _ _ _ _ Hr). destruct c.
      * rewrite existsb_app, H1, IH. reflexivity.
      * rewrite existsb_app, H1, IH. reflexivity.
      * destruct IH as (e & ok & serr & pre & -> & -> & Hpre).
        exists e, ok, serr, (t1 ++ pre). rewrite app_assoc, existsb_app, H1, Hpre.
        auto.
    + rewrite app_nil_r. exact H1.
    + rewrite app_nil_r. exact H1.
Qed.

End Entries.

(** ** Trimming and rendering *)

Lemma removals_app (a b : list Event) : removals (a ++ b) = removals a ++ removals b.
Proof.
  induction a as [|ev a IH]; simpl; [reflexivity |].
  destruct ev; simpl; rewrite IH; reflexivity.
Qed.

Lemma removals_none (p : Event -> bool) (tr : list Event) :
  (forall f res, p (EvRemove f res) = false) ->
  forallb p tr = true -> removals tr = [].
Proof.
  intros Hp. induction tr as [|ev tr IH]; simpl; [reflexivity |].
  intros H. apply andb_true_iff in H as [Hev Htr].
  destruct ev; auto. rewrite Hp in Hev. discriminate.
Qed.

Lemma forallb_weaken {A : Type} (p q : A -> bool) (l : list A) :
  (forall a, p a = true -> q a = true) -> forallb p l = true -> forallb q l = true.
Proof.
  intros Hpq. rewrite !forallb_forall. auto.
Qed.

Lemma trim_changed_event (ev : Event) :
  trim_event ev = true -> changed_event ev = true.
Proof. destruct ev; simpl; congruence. Qed.

Lemma item_changed_event (ev : Event) :
  item_event ev = true -> changed_event ev = true.
Proof. destruct ev; simpl; congruence. Qed.

Section Changed.

Context {W : Type}.
Variable rt : Runtime W.
Variable s : Service W.
Variable fi : FeedInfo.

Lemma removeOld_files_trace files :
  forall n w n' w' tr,
    removeOld_files rt fi files n w = (n', w', tr) ->
    removals tr = files /\ forallb trim_event tr = true.
Proof.
  induction files as [|f files IH]; intros n w n' w' tr H.
  - inv H. auto.
  - cbn [removeOld_files] in H. unfold bind, call, log_Printf in H.
    destruct (os_Remove rt f w) as [[e|] w1].
    + destruct (removeOld_files rt fi files n w1) as [[n2 w2] t2] eqn:Hr.
      inv H. simpl. destruct (IH _ _ _ _ _ Hr) as [-> ->]. auto.
    + destruct (removeOld_files rt fi files (int_add n 1) w1) as [[n2 w2] t2] eqn:Hr.
      inv H. simpl. destruct (IH _ _ _ _ _ Hr) as [-> ->]. auto.
Qed.

(** [removeOld] asks the store once, for [keep+1], and then calls
    [os.Remove] on each file the store returned, in order, whatever the
    store's error and whatever each removal returns. *)
Lemma removeOld_trace w n w' tr :
  removeOld rt s fi w = (n, w', tr) ->
  exists files rerr rest,
    tr = EvStoreRemoveOld (ID fi) (int_add (keep s fi) 1) (files, rerr) :: rest /\
    removals rest = files /\
    forallb trim_event rest = true.
Proof.
  intros H. unfold removeOld, bind, call, log_Printf, ret in H.
  destruct (Store_RemoveOld (Store s) (ID fi) (int_add (keep s fi) 1) w)
    as [[files rerr] w1].
  destruct rerr as [e|];
    destruct (removeOld_files rt fi files 0 w1) as [[n2 w2] t2] eqn:Hr;
    inv H; destruct (removeOld_files_trace _ _ _ _ _ _ Hr) as [Hf Hev];
    do 3 eexists; (split; [reflexivity |]); simpl; auto.
Qed.

Lemma RSSFeed_items_events entries :
  forall items w items' w' tr,
    RSSFeed_items rt s entries items w = (items', w', tr) ->
    forallb item_event tr = true.
Proof.
  induction entries as [|entry entries IH]; intros items w items' w' tr H.
  - inv H. reflexivity.
  - cbn [RSSFeed_items] in H. unfold bind, call, log_Printf, ret in H.
    destruct (os_Stat rt (File entry) w) as [[size [e|]] w1];
      destruct (time_Now rt w1) as [now w2];
      match type of H with
      | context [RSSFeed_items rt s entries ?it w2] =>
          destruct (RSSFeed_items rt s entries it w2) as [[it2 w3] t3] eqn:Hr
      end;
      inv H; simpl; apply (IH _ _ _ _ _ Hr).
Qed.

(** [RSSFeed] starts by loading the entries of the feed, up to [keep]. *)
Lemma RSSFeed_trace w doc rssErr w' tr :
  RSSFeed rt s fi w = (doc, rssErr, w', tr) ->
  exists res rest,
    tr = EvStoreLoad (ID fi) (keep s fi) res :: rest /\
    forallb item_event rest = true /\
    (fst res = [] -> snd res = None -> doc = EmptyString /\ rssErr = None).
Proof.
  intros H. unfold RSSFeed, bind, call, ret in H.
  destruct (Store_Load (Store s) (ID fi) (keep s fi) w) as [[entries lerr] w1].
  destruct lerr as [e|].
  - inv H. do 2 eexists. split; [reflexivity |]. split; [reflexivity |].
    simpl. discriminate.
  - destruct entries as [|entry0 entries].
    + inv H. do 2 eexists. split; [reflexivity |]. split; [reflexivity |]. auto.
    + destruct (RSSFeed_items rt s (entry0 :: entries) [] w1)
        as [[items w2] t2] eqn:Hi.
      destruct (time_Now rt w2) as [now w3].
      match type of H with
      | context [xml_MarshalIndent rt ?r ?a ?b] =>
          destruct (xml_MarshalIndent rt r a b) as [b0 [e|]]
      end;
        inv H; do 2 eexists; (split; [reflexivity |]); simpl;
        (split; [| discriminate]);
        rewrite forallb_app, (RSSFeed_items_events _ _ _ _ _ _ Hi); reflexivity.
Qed.

Lemma RSSFeed_empty w w1 :
  Store_Load (Store s) (ID fi) (keep s fi) w = (([], None), w1) ->
  RSSFeed rt s fi w
  = ((EmptyString, None), w1, [EvStoreLoad (ID fi) (keep s fi) ([], None)]).
Proof.
  intros H. unfold RSSFeed, bind, call, ret. rewrite H. reflexivity.
Qed.

(** What is done for a changed feed: trimming, rendering, and publishing
    unless rendering failed. *)
Lemma changed_inv st w st' w' tr :
  procChannels_changed rt s fi st w = (st', w', tr) ->
  exists n w1 t_trim doc rssErr w2 t_rss t_pub,
    removeOld rt s fi w = (n, w1, t_trim) /\
    RSSFeed rt s fi w1 = ((doc, rssErr), w2, t_rss) /\
    tr = t_trim ++ t_rss ++ t_pub /\
    st' = add_removed st n /\
    match rssErr with
    | Some e =>
        w' = w2 /\
        t_pub = [EvLog "[WARN] failed to generate rss for %s: %s"
                   [V (VStr (Name fi)); E e]]
    | None =>
        exists res,
          RSSFileStore_Save (RSSFileStore_ s) (ID fi) doc w2 = (res, w') /\
          t_pub = EvRSSFileStoreSave (ID fi) doc res ::
                  match res with
                  | Some e => [EvLog "[WARN] failed to save rss for %s: %s"
                                 [V (VStr (Name fi)); E e]]
                  | None => []
                  end
    end.
Proof.
  intros H. unfold procChannels_changed, bind, call, log_Printf, ret in H.
  destruct (removeOld rt s fi w) as [[n w1] t1] eqn:Ht.
  destruct (RSSFeed rt s fi w1) as [[[doc rssErr] w2] t2] eqn:Hr.
  exists n, w1, t1, doc, rssErr, w2, t2.
  destruct rssErr as [e|].
  - inv H. eexists. repeat (split; try reflexivity; try assumption).
  - destruct (RSSFileStore_Save (RSSFileStore_ s) (ID fi) doc w2) as [[e|] w3] eqn:Hs;
      inv H; eexists; repeat (split; try reflexivity; try assumption);
      eexists; split; try eassumption; reflexivity.
Qed.

Lemma changed_events st w st' w' tr :
  procChannels_changed rt s fi st w = (st', w', tr) ->
  forallb changed_event tr = true.
Proof.
  intros H. apply changed_inv in H.
  destruct H as (n & w1 & t1 & doc & rssErr & w2 & t2 & t3 & Ht & Hr & -> & _ & H).
  apply removeOld_trace in Ht as (files & rerr & rest & -> & _ & Hrest).
  apply RSSFeed_trace in Hr as (res & rest2 & -> & Hrest2 & _).
  rewrite !forallb_app. simpl.
  rewrite (forallb_weaken _ _ _ trim_changed_event Hrest).
  rewrite (forallb_weaken _ _ _ item_changed_event Hrest2).
  destruct rssErr as [e|].
  - destruct H as [_ ->]. reflexivity.
  - destruct H as (res0 & _ & ->). destruct res0; reflexivity.
Qed.

End Changed.

(** ** One feed, and all of them *)

(** The run statistics are balanced when what was counted as processed is
    what was counted as added or skipped. *)
Lemma balanced_step (st : stats) (l : locals) :
  processed st = int_add (added st) (skipped st) ->
  wrap (added (allStats l) + skipped (allStats l) - processed_ l)
  = wrap (added st + skipped st - 0) ->
  processed (allStats l) = processed st ->
  int_add (processed (allStats l)) (processed_ l)
  = int_add (added (allStats l)) (skipped (allStats l)).
Proof. intros H1 H2 H3. rewrite H3, H1. wrap_lia. Qed.

Section Feed.

Context {W : Type}.
Variable rt : Runtime W.
Variable s : Service W.

Lemma feed_inv fi st w c st' w' tr :
  procChannels_feed rt s fi st w = ((c, st'), w', tr) ->
  exists entries gerr w0,
    Channel_Get (ChannelService_ s) (ID fi) (Type_ fi) w = ((entries, gerr), w0) /\
    match gerr with
    | Some e =>
        c = Next /\ st' = st /\ w' = w0 /\
        tr = [EvChannelGet (ID fi) (Type_ fi) (entries, gerr);
              EvLog "[WARN] failed to get channel entries for %s: %s"
                [V (VStr (ID fi)); E e]]
    | None =>
        exists cl l w1 t_loop t_rest,
          procChannels_entries rt s fi None 0 entries
            {| allStats := st; changed := false; processed_ := 0 |} w0
          = ((cl, l), w1, t_loop) /\
          tr = EvChannelGet (ID fi) (Type_ fi) (entries, gerr) ::
               EvLog "[INFO] got %d entries for %s, limit to %d"
                 [V (VInt (Z.of_nat (List.length entries))); V (VStr (Name fi));
                  V (VInt (keep s fi))] ::
               t_loop ++ t_rest /\
          match cl with
          | Return e => c = Return e /\ st' = allStats l /\ w' = w1 /\ t_rest = []
          | _ =>
              c = Next /\
              if changed l
              then procChannels_changed rt s fi
                     (add_processed (allStats l) (processed_ l)) w1
                   = (st', w', t_rest)
              else st' = add_processed (allStats l) (processed_ l) /\
                   w' = w1 /\ t_rest = []
          end
    end.
Proof.
  intros H. unfold procChannels_feed, bind, call, log_Printf, ret in H.
  destruct (Channel_Get (ChannelService_ s) (ID fi) (Type_ fi) w)
    as [[entries gerr] w0].
  exists entries, gerr, w0. split; [reflexivity |].
  destruct gerr as [e|].
  - inv H. auto.
  - match type of H with
    | context [procChannels_entries rt s fi None 0 entries ?l0 w0] =>
        destruct (procChannels_entries rt s fi None 0 entries l0 w0)
          as [[[cl l] w1] t_loop]
    end.
    exists cl, l, w1, t_loop.
    destruct cl.
    3: { inv H. exists []. repeat split. }
    all: destruct (changed l);
      [ destruct (procChannels_changed rt s fi
                    (add_processed (allStats l) (processed_ l)) w1)
          as [[st2 w2] t2];
        inv H; exists t2; rewrite app_nil_r; repeat split
      | inv H; exists []; repeat split ].
Qed.

(** A feed's turn ends normally or makes [procChannels] return; only a
    failed [Store.Save] does the latter, and is then the last event. *)
Lemma feed_return fi st w c st' w' tr :
  procChannels_feed rt s fi st w = ((c, st'), w', tr) ->
  match c with
  | Return r =>
      exists e ok serr pre,
        r = Some (Wrapf serr "failed to save entry %+v" [VEntry e]) /\
        tr = pre ++ [EvStoreSave e (ok, Some serr)] /\
        existsb save_failed_event pre = false
  | Next => existsb save_failed_event tr = false
  | Break => False
  end.
Proof.
  intros H. apply feed_inv in H.
  destruct H as (entries & gerr & w0 & _ & H). destruct gerr as [e|].
  - destruct H as (-> & _ & _ & ->). reflexivity.
  - destruct H as (cl & l & w1 & t_loop & t_rest & Hl & -> & H).
    pose proof (entries_return rt s fi _ _ _ _ _ _ _ _ Hl) as Hr.
    assert (Hnext : existsb save_failed_event t_loop = false ->
            (if changed l
             then procChannels_changed rt s fi
                    (add_processed (allStats l) (processed_ l)) w1
                  = (st', w', t_rest)
             else st' = add_processed (allStats l) (processed_ l) /\
                  w' = w1 /\ t_rest = []) ->
            existsb save_failed_event
              (EvChannelGet (ID fi) (Type_ fi) (entries, None) ::
               EvLog "[INFO] got %d entries for %s, limit to %d"
                 [V (VInt (Z.of_nat (List.length entries))); V (VStr (Name fi));
                  V (VInt (keep s fi))] :: t_loop ++ t_rest) = false).
    { intros Hloop Hrest. simpl. rewrite existsb_app, Hloop. simpl.
      destruct (changed l).
      - apply changed_events in Hrest.
        apply (forallb_existsb_false changed_event); [| exact Hrest].
        intros [] ; simpl; congruence.
      - destruct Hrest as (_ & _ & ->). reflexivity. }
    destruct cl.
    + destruct H as [-> H]. apply Hnext; auto.
    + destruct H as [-> H]. apply Hnext; auto.
    + destruct H as (-> & _ & _ & ->).
      destruct Hr as (e & ok & serr & pre & -> & -> & Hpre).
      exists e, ok, serr.
      eexists (_ :: _ :: pre). rewrite app_nil_r. simpl. auto.
Qed.

Lemma feed_balanced fi st w c st' w' tr :
  procChannels_feed rt s fi st w = ((c, st'), w', tr) ->
  (forall e, c <> Return e) ->
  processed st = int_add (added st) (skipped st) ->
  processed st' = int_add (added st') (skipped st').
Proof.
  intros H Hc Hb. apply feed_inv in H.
  destruct H as (entries & gerr & w0 & _ & H). destruct gerr as [e|].
  - destruct H as (_ & -> & _). exact Hb.
  - destruct H as (cl & l & w1 & t_loop & t_rest & Hl & -> & H).
    assert (Hcl : forall e, cl <> Return e).
    { intros e ->. destruct H as [-> _]. eapply Hc. reflexivity. }
    destruct (entries_balance rt s fi _ _ _ _ _ _ _ _ _ Hl Hcl) as [E1 E2].
    cbn [allStats processed_] in E1, E2.
    pose proof (balanced_step st l Hb E1 E2) as Hstep.
    assert (Hrest : (if changed l
             then procChannels_changed rt s fi
                    (add_processed (allStats l) (processed_ l)) w1
                  = (st', w', t_rest)
             else st' = add_processed (allStats l) (processed_ l) /\
                  w' = w1 /\ t_rest = [])).
    { destruct cl; [apply H | apply H | exfalso; eapply Hcl; reflexivity]. }
    destruct (changed l).
    + apply changed_inv in Hrest.
      destruct Hrest as (n & _ & _ & _ & _ & _ & _ & _ & _ & _ & _ & -> & _).
      fields. exact Hstep.
    + destruct Hrest as (-> & _). fields. exact Hstep.
Qed.

End Feed.

Lemma forallb_In {A : Type} (p : A -> bool) (l : list A) (a : A) :
  forallb p l = true -> In a l -> p a = true.
Proof. intros H Hin. rewrite forallb_forall in H. auto. Qed.

Section Feeds.

Context {W : Type}.
Variable rt : Runtime W.
Variable s : Service W.

(** The document of a feed that loads no entries is the empty one, and is
    handed to the feed store all the same. *)
Lemma feed_empty_published fi st w c st' w' tr :
  procChannels_feed rt s fi st w = ((c, st'), w', tr) ->
  forall id k,
    In (EvStoreLoad id k ([], None)) tr ->
    exists res, In (EvRSSFileStoreSave id EmptyString res) tr.
Proof.
  intros H id k Hin. apply feed_inv in H.
  destruct H as (entries & gerr & w0 & _ & H). destruct gerr as [e|].
  - destruct H as (_ & _ & _ & ->). simpl in Hin.
    destruct Hin as [Hin | [Hin | []]]; discriminate.
  - destruct H as (cl & l & w1 & t_loop & t_rest & Hl & -> & H).
    simpl in Hin. destruct Hin as [Hin | [Hin | Hin]]; try discriminate.
    apply in_app_iff in Hin as [Hin | Hin].
    { apply (forallb_In _ _ _ (entries_events rt s fi _ _ _ _ _ _ _ _ _ Hl)) in Hin.
      discriminate. }
    assert (Hrest : procChannels_changed rt s fi
                      (add_processed (allStats l) (processed_ l)) w1
                    = (st', w', t_rest)).
    { destruct cl.
      - destruct H as [_ H]. destruct (changed l); [exact H |].
        destruct H as (_ & _ & ->). destruct Hin.
      - destruct H as [_ H]. destruct (changed l); [exact H |].
        destruct H as (_ & _ & ->). destruct Hin.
      - destruct H as (_ & _ & _ & ->). destruct Hin. }
    apply changed_inv in Hrest.
    destruct Hrest as (n & w2 & t1 & doc & rssErr & w3 & t2 & t3 & Ht & Hr & -> & _ & Hp).
    apply removeOld_trace in Ht as (files & rerr & rest & -> & _ & Hrest).
    apply RSSFeed_trace in Hr as (res & rest2 & -> & Hrest2 & Hempty).
    apply in_app_iff in Hin as [Hin | Hin].
    { destruct Hin as [Hin | Hin]; [discriminate |].
      apply (forallb_In _ _ _ Hrest) in Hin. discriminate. }
    apply in_app_iff in Hin as [Hin | Hin].
    + destruct Hin as [Hin | Hin].
      * inv Hin. destruct (Hempty eq_refl eq_refl) as [-> ->].
        destruct Hp as (res & _ & ->). exists res.
        right. right. do 3 (apply in_app_iff; right). left. reflexivity.
      * apply (forallb_In _ _ _ Hrest2) in Hin. discriminate.
    + destruct rssErr as [e|].
      * destruct Hp as [_ ->]. destruct Hin as [Hin | []]. discriminate.
      * destruct Hp as (res0 & _ & ->).
        destruct res0; simpl in Hin; intuition discriminate.
Qed.

(** One turn of the loop over the feeds. *)
Lemma feeds_cons fi fs st w c st' w' tr :
  procChannels_feeds rt s (fi :: fs) st w = ((c, st'), w', tr) ->
  exists c1 st1 w1 t1,
    procChannels_feed rt s fi st w = ((c1, st1), w1, t1) /\
    match c1 with
    | Next =>
        exists t2,
          procChannels_feeds rt s fs st1 w1 = ((c, st'), w', t2) /\
          tr = t1 ++ t2
    | _ => c = c1 /\ st' = st1 /\ w' = w1 /\ tr = t1 ++ []
    end.
Proof.
  intros H. cbn [procChannels_feeds] in H. unfold bind in H.
  destruct (procChannels_feed rt s fi st w) as [[[c1 st1] w1] t1].
  exists c1, st1, w1, t1. split; [reflexivity |].
  destruct c1.
  - destruct (procChannels_feeds rt s fs st1 w1) as [[[c2 st2] w2] t2].
    inv H. eauto.
  - inv H. auto.
  - inv H. auto.
Qed.

Ltac turn H :=
  apply feeds_cons in H;
  destruct H as (c1 & st1 & w1 & t1 & He & H);
  destruct c1;
  [ destruct H as (t2 & Hr & ->) | destruct H as (-> & -> & -> & ->)
  | destruct H as (-> & -> & -> & ->) ].

Lemma feeds_empty_published fs :
  forall st w c st' w' tr,
    procChannels_feeds rt s fs st w = ((c, st'), w', tr) ->
    forall id k,
      In (EvStoreLoad id k ([], None)) tr ->
      exists res, In (EvRSSFileStoreSave id EmptyString res) tr.
Proof.
  induction fs as [|fi fs IH]; intros st w c st' w' tr H id k Hin.
  - inv H. destruct Hin.
  - turn H; apply in_app_iff in Hin as [Hin | Hin];
      try (destruct (feed_empty_published _ _ _ _ _ _ _ He _ _ Hin) as [res Hres];
           exists res; apply in_app_iff; auto);
      try (destruct Hin).
    destruct (IH _ _ _ _ _ _ Hr _ _ Hin) as [res Hres].
    exists res. apply in_app_iff. auto.
Qed.

Lemma feeds_return fs :
  forall st w c st' w' tr,
    procChannels_feeds rt s fs st w = ((c, st'), w', tr) ->
    match c with
    | Return r =>
        exists e ok serr pre,
          r = Some (Wrapf serr "failed to save entry %+v" [VEntry e]) /\
          tr = pre ++ [EvStoreSave e (ok, Some serr)] /\
          existsb save_failed_event pre = false
    | Next => existsb save_failed_event tr = false
    | Break => False
    end.
Proof.
  induction fs as [|fi fs IH]; intros st w c st' w' tr H.
  - inv H. reflexivity.
  - turn H; pose proof (feed_return rt s _ _ _ _ _ _ _ He) as H1;
      cbn beta iota in H1.
    + specialize (IH _ _ _ _ _ _ Hr). destruct c.
      * rewrite existsb_app, H1, IH. reflexivity.
      * exact IH.
      * destruct IH as (e & ok & serr & pre & -> & -> & Hpre).
        exists e, ok, serr, (t1 ++ pre).
        rewrite app_assoc, existsb_app, H1, Hpre. auto.
    + destruct H1.
    + rewrite app_nil_r. exact H1.
Qed.

Lemma feeds_balanced fs :
  forall st w c st' w' tr,
    procChannels_feeds rt s fs st w = ((c, st'), w', tr) ->
    (forall e, c <> Return e) ->
    processed st = int_add (added st) (skipped st) ->
    processed st' = int_add (added st') (skipped st').
Proof.
  induction fs as [|fi fs IH]; intros st w c st' w' tr H Hc Hb.
  - inv H. exact Hb.
  - turn H.
    + apply (IH _ _ _ _ _ _ Hr Hc).
      apply (feed_balanced rt s _ _ _ _ _ _ _ He); [discriminate | exact Hb].
    + apply (feed_balanced rt s _ _ _ _ _ _ _ He); [discriminate | exact Hb].
    + exfalso. eapply Hc. reflexivity.
Qed.

(** A pass over the feeds returns the error of the loop, or logs the run
    statistics and returns nil. *)
Lemma procChannels_inv w r w' tr :
  procChannels rt s w = (r, w', tr) ->
  exists c st w1 t1,
    procChannels_feeds rt s (Feeds s) stats_zero w = ((c, st), w1, t1) /\
    match c with
    | Return e => r = e /\ w' = w1 /\ tr = t1
    | _ =>
        r = None /\
        exists lifetime t2,
          tr = t1 ++
               EvStoreCountProcessed lifetime ::
               EvLog "[INFO] all channels processed - channels: %d, %s, lifetime: %d"
                 [V (VInt (Z.of_nat (List.length (Feeds s))));
                  V (stats_String st); V (VInt lifetime)] :: t2 /\
          existsb save_failed_event t2 = false /\
          forall id k res, ~ In (EvStoreLoad id k res) t2
    end.
Proof.
  intros H. unfold procChannels, bind, call, log_Printf, ret in H.
  destruct (procChannels_feeds rt s (Feeds s) stats_zero w) as [[[c st] w1] t1].
  exists c, st, w1, t1. split; [reflexivity |].
  destruct c.
  3: { inv H. rewrite app_nil_r. auto. }
  all: destruct (Store_CountProcessed (Store s) w1) as [lifetime w2];
    destruct (Store_Last (Store s) w2) as [[last [e|]] w3];
    inv H; (split; [reflexivity |]); exists lifetime; eexists;
    (split; [reflexivity |]); simpl; (split; [reflexivity |]);
    intros id k res Hin; simpl in Hin; intuition discriminate.
Qed.

End Feeds.

(** ** The driver *)

Section Driver.

Context {W : Type}.
Variable rt : Runtime W.
Variable s : Service W.

Lemma Do_feeds_run (fs : list FeedInfo) (w : W) :
  Do_feeds fs w
  = (tt, w, map (fun f => EvLog "[INFO] youtube feed %+v" [V (VFeed f)]) fs).
Proof.
  induction fs as [|f fs IH]; [reflexivity |].
  cbn [Do_feeds]. unfold bind, log_Printf. rewrite IH. reflexivity.
Qed.

(** A tick whose pass fails makes [Do] return the error, wrapped: no
    later signal is looked at. *)
Lemma Do_loop_fails w e w' tr sigs :
  procChannels rt s w = (Some e, w', tr) ->
  Do_loop rt s (Tick :: sigs) w
  = (Returned (Some (Wrapf e "failed to process channels" [])), w', tr).
Proof.
  intros H. cbn [Do_loop]. unfold bind, ret. rewrite H.
  rewrite app_nil_r. reflexivity.
Qed.

(** A tick whose pass succeeds is followed by the next signal. *)
Lemma Do_loop_goes_on w w1 t1 sigs :
  procChannels rt s w = (None, w1, t1) ->
  Do_loop rt s (Tick :: sigs) w
  = (let '(o, w2, t2) := Do_loop rt s sigs w1 in (o, w2, t1 ++ t2)).
Proof.
  intros H. cbn [Do_loop]. unfold bind. rewrite H. reflexivity.
Qed.

Lemma Do_fails w e w' tr sigs :
  0 < CheckDuration s ->
  procChannels rt s w = (Some e, w', tr) ->
  Do rt s sigs w
  = (Returned (Some (Wrapf e "failed to process channels" [])), w',
     EvLog "[INFO] starting youtube service" [] ::
     map (fun f => EvLog "[INFO] youtube feed %+v" [V (VFeed f)]) (Feeds s) ++ tr).
Proof.
  intros Hd H. unfold Do, bind, log_Printf, ret. rewrite Do_feeds_run.
  destruct (Z.leb_spec (CheckDuration s) 0) as [Hle | _]; [lia |].
  rewrite H. rewrite app_nil_r. reflexivity.
Qed.

End Driver.

(** * The claims *)

(** Finds [ev] in a trace that has been computed. *)
Ltac find_event := repeat (try (left; reflexivity); right).

(** ** Rendering a feed without entries *)

(** C1, as stated, fails.  One feed lists a new entry, which is downloaded
    and saved; the store then loads no entry for the feed.  [RSSFeed]
    returns the empty document and no error, and [procChannels] hands it
    to [RSSFileStore.Save]. *)
Lemma empty_document_published_counterexample :
  let tr := snd (procChannels (Mock.runtime Mock.empty_load)
                   (Mock.service Mock.empty_load [Mock.feed] 2) Mock.now0) in
  ~ (forall id k,
       In (EvStoreLoad id k ([], None)) tr ->
       forall doc res, ~ In (EvRSSFileStoreSave id doc res) tr).
Proof.
  intros tr H.
  apply (H "C1"%string 2 ltac:(vm_compute; find_event) EmptyString None).
  vm_compute. find_event.
Qed.

(** C1, amended.  For every feed whose store holds no retained entry
    ([Store.Load] returns no entry and no error), [RSSFeed] returns the
    empty document and no error, having called nothing but [Store.Load];
    and in every pass, a feed rendered so has the empty document handed to
    [RSSFileStore.Save]. *)
Theorem empty_document_rendered_and_published :
  forall (W : Type) (rt : Runtime W) (s : Service W),
    (forall fi w w1,
       Store_Load (Store s) (ID fi) (keep s fi) w = (([], None), w1) ->
       RSSFeed rt s fi w
       = ((EmptyString, None), w1, [EvStoreLoad (ID fi) (keep s fi) ([], None)])) /\
    (forall w r w' tr,
       procChannels rt s w = (r, w', tr) ->
       forall id k,
         In (EvStoreLoad id k ([], None)) tr ->
         exists res, In (EvRSSFileStoreSave id EmptyString res) tr).
Proof.
  intros W rt s. split.
  - intros fi w w1 H. apply RSSFeed_empty. exact H.
  - intros w r w' tr H id k Hin.
    apply procChannels_inv in H.
    destruct H as (c & st & w1 & t1 & Hf & H).
    assert (Hfeeds : In (EvStoreLoad id k ([], None)) t1 ->
                     exists res, In (EvRSSFileStoreSave id EmptyString res) tr).
    { intros Hin1.
      destruct (feeds_empty_published rt s _ _ _ _ _ _ _ Hf _ _ Hin1) as [res Hres].
      exists res. destruct c.
      - destruct H as (_ & n & t2 & -> & _). apply in_app_iff. auto.
      - destruct H as (_ & n & t2 & -> & _). apply in_app_iff. auto.
      - destruct H as (_ & _ & ->). exact Hres. }
    destruct c.
    + destruct H as (_ & n & t2 & -> & _ & Hno).
      apply in_app_iff in Hin as [Hin | Hin]; [auto |].
      destruct Hin as [Hin | [Hin | Hin]]; try discriminate.
      destruct (Hno _ _ _ Hin).
    + destruct H as (_ & n & t2 & -> & _ & Hno).
      apply in_app_iff in Hin as [Hin | Hin]; [auto |].
      destruct Hin as [Hin | [Hin | Hin]]; try discriminate.
      destruct (Hno _ _ _ Hin).
    + destruct H as (_ & _ & ->). auto.
Qed.

Lemma empty_document_rendered_and_published_witness :
  RSSFeed (Mock.runtime Mock.empty_load)
    (Mock.service Mock.empty_load [Mock.feed] 2) Mock.feed Mock.now0
  = ((EmptyString, None), Mock.now0, [EvStoreLoad "C1" 2 ([], None)]) /\
  exists res,
    In (EvRSSFileStoreSave "C1" EmptyString res)
       (snd (procChannels (Mock.runtime Mock.empty_load)
               (Mock.service Mock.empty_load [Mock.feed] 2) Mock.now0)).
Proof.
  destruct (empty_document_rendered_and_published Z
              (Mock.runtime Mock.empty_load)
              (Mock.service Mock.empty_load [Mock.feed] 2)) as [H1 H2].
  split.
  - apply (H1 Mock.feed Mock.now0 Mock.now0). reflexivity.
  - eapply (H2 Mock.now0 _ _ _).
    + vm_compute. reflexivity.
    + vm_compute. find_event.
Defined.

(** ** When a feed is rendered and published *)

(** C3, as stated, fails.  The new entry of the feed is downloaded and
    [Store.Save] stores it ([true], no error): the feed's retained set
    changed.  [RSSFeed] is invoked, but [Store.Load] fails, and nothing is
    handed to [RSSFileStore.Save]. *)
Lemma regenerated_iff_changed_counterexample :
  let tr := snd (procChannels (Mock.runtime Mock.failing_load)
                   (Mock.service Mock.failing_load [Mock.feed] 2) Mock.now0) in
  ~ ((exists e, In (EvStoreSave e (true, None)) tr) <->
     (exists k res, In (EvStoreLoad "C1" k res) tr) /\
     (exists doc res, In (EvRSSFileStoreSave "C1" doc res) tr)).
Proof.
  intros tr [H _].
  destruct H as (_ & doc & res & Hin).
  - eexists. vm_compute. find_event.
  - vm_compute in Hin.
    repeat (destruct Hin as [Hin | Hin]; [discriminate |]). exact Hin.
Qed.

(** C3, amended.  For every feed whose turn in a pass comes to its end
    (no [Store.Save] failed), [RSSFeed] is invoked if and only if some
    [Store.Save] of that turn returned without error; its result is
    handed to [RSSFileStore.Save], under the feed's identifier, if and
    only if in addition [RSSFeed] returned no error; otherwise a warning
    is logged and nothing is published. *)
Theorem rendered_iff_saved_published_iff_rendered :
  forall (W : Type) (rt : Runtime W) (s : Service W) fi st w c st' w' tr,
    procChannels_feed rt s fi st w = ((c, st'), w', tr) ->
    (forall e, c <> Return e) ->
    ((exists e ok, In (EvStoreSave e (ok, None)) tr) /\
     exists pre w1 doc rssErr w2 t_rss post,
       tr = pre ++ t_rss ++ post /\
       RSSFeed rt s fi w1 = ((doc, rssErr), w2, t_rss) /\
       (forall id k res, ~ In (EvStoreLoad id k res) pre) /\
       (forall id d res, ~ In (EvRSSFileStoreSave id d res) (pre ++ t_rss)) /\
       match rssErr with
       | None =>
           exists res,
             RSSFileStore_Save (RSSFileStore_ s) (ID fi) doc w2 = (res, w') /\
             post = EvRSSFileStoreSave (ID fi) doc res ::
                    match res with
                    | Some e => [EvLog "[WARN] failed to save rss for %s: %s"
                                   [V (VStr (Name fi)); E e]]
                    | None => []
                    end
       | Some e =>
           post = [EvLog "[WARN] failed to generate rss for %s: %s"
                     [V (VStr (Name fi)); E e]]
       end)
    \/
    ((forall e ok, ~ In (EvStoreSave e (ok, None)) tr) /\
     (forall id k res, ~ In (EvStoreLoad id k res) tr) /\
     (forall id d res, ~ In (EvRSSFileStoreSave id d res) tr)).
Proof.
  intros W rt s fi st w c st' w' tr H Hc. apply feed_inv in H.
  destruct H as (entries & gerr & w0 & _ & H). destruct gerr as [e|].
  { right. destruct H as (_ & _ & _ & ->).
    repeat split; intros; simpl; intuition discriminate. }
  destruct H as (cl & l & w1 & t_loop & t_rest & Hl & -> & H).
  pose proof (entries_events rt s fi _ _ _ _ _ _ _ _ _ Hl) as Hev.
  pose proof (entries_changed rt s fi _ _ _ _ _ _ _ _ _ Hl) as Hch.
  cbn [changed orb] in Hch.
  assert (Hrest : if changed l
                  then procChannels_changed rt s fi
                         (add_processed (allStats l) (processed_ l)) w1
                       = (st', w', t_rest)
                  else st' = add_processed (allStats l) (processed_ l) /\
                       w' = w1 /\ t_rest = []).
  { destruct cl; [apply H | apply H |].
    destruct H as [-> _]. exfalso. eapply Hc. reflexivity. }
  clear H. destruct (changed l).
  - left. symmetry in Hch. apply existsb_saved_In in Hch as (e & ok & Hin).
    split.
    { exists e, ok. right. right. apply in_app_iff. auto. }
    apply changed_inv in Hrest.
    destruct Hrest as (n & w2 & t1 & doc & rssErr & w3 & t2 & t3 & Ht & Hr & -> & _ & Hp).
    pose proof Ht as Ht'.
    apply removeOld_trace in Ht' as (files & rerr & rest & -> & _ & Hrest).
    pose proof Hr as Hr'.
    apply RSSFeed_trace in Hr' as (res & rest2 & -> & Hrest2 & _).
    match goal with
    | |- context [?g :: ?lg :: t_loop ++ _] =>
        exists (g :: lg :: t_loop ++
                EvStoreRemoveOld (ID fi) (int_add (keep s fi) 1) (files, rerr) :: rest)
    end.
    exists w2, doc, rssErr, w3, (EvStoreLoad (ID fi) (keep s fi) res :: rest2), t3.
    split.
    { cbn [app]. do 2 f_equal. rewrite <- app_assoc. reflexivity. }
    split; [exact Hr |]. split.
    { intros id k r0 Hi. destruct Hi as [Hi | [Hi | Hi]]; try discriminate.
      apply in_app_iff in Hi as [Hi | [Hi | Hi]]; try discriminate.
      - apply (forallb_In _ _ _ Hev) in Hi. discriminate.
      - apply (forallb_In _ _ _ Hrest) in Hi. discriminate. }
    split.
    { intros id d r0 Hi. apply in_app_iff in Hi as [Hi | Hi].
      - destruct Hi as [Hi | [Hi | Hi]]; try discriminate.
        apply in_app_iff in Hi as [Hi | [Hi | Hi]]; try discriminate.
        + apply (forallb_In _ _ _ Hev) in Hi. discriminate.
        + apply (forallb_In _ _ _ Hrest) in Hi. discriminate.
      - destruct Hi as [Hi | Hi]; try discriminate.
        apply (forallb_In _ _ _ Hrest2) in Hi. discriminate. }
    destruct rssErr; [apply Hp | exact Hp].
  - right. destruct Hrest as (_ & _ & ->). rewrite app_nil_r.
    repeat split.
    + intros e ok [Hi | [Hi | Hi]]; try discriminate.
      assert (Hs : existsb saved_event t_loop = true)
        by (apply existsb_saved_In; eauto).
      congruence.
    + intros id k res [Hi | [Hi | Hi]]; try discriminate.
      apply (forallb_In _ _ _ Hev) in Hi. discriminate.
    + intros id d res [Hi | [Hi | Hi]]; try discriminate.
      apply (forallb_In _ _ _ Hev) in Hi. discriminate.
Qed.

Lemma rendered_iff_saved_published_iff_rendered_witness :
  let run := procChannels_feed (Mock.runtime Mock.fresh)
               (Mock.service Mock.fresh [Mock.feed] 2) Mock.feed stats_zero
               Mock.now0 in
  fst (fst (fst run)) = Next /\
  (forall e, Next <> Return e) /\
  (exists e ok, In (EvStoreSave e (ok, None)) (snd run)) /\
  (exists doc res, In (EvRSSFileStoreSave "C1" doc res) (snd run)).
Proof.
  intros run.
  split; [reflexivity |]. split; [discriminate |].
  pose proof (rendered_iff_saved_published_iff_rendered Z
                (Mock.runtime Mock.fresh)
                (Mock.service Mock.fresh [Mock.feed] 2) Mock.feed stats_zero
                Mock.now0 Next (snd (fst (fst run))) (snd (fst run)) (snd run)
                eq_refl ltac:(discriminate)) as [H | H].
  - destruct H as (Hs & _). split; [exact Hs |].
    do 2 eexists. vm_compute. find_event.
  - destruct H as (_ & _ & H). exfalso.
    apply (H "C1"%string "<rss></rss>"%string None). vm_compute. find_event.
Defined.

(** ** Trimming *)

(** C7.  [removeOld], for a feed with effective keep count [keep], calls
    [Store.RemoveOld] with [keep+1] (the sum on [int], which is the sum
    unless [keep] is the largest [int]) and then [os.Remove] on every file
    the store returned, in order, and on nothing else, whatever error the
    store returned with the list and whatever each removal returned.
    This is what happens for every feed marked changed in a pass (some
    [Store.Save] of its turn returned without error, and the turn came to
    its end). *)
Theorem changed_feed_trimmed :
  forall (W : Type) (rt : Runtime W) (s : Service W) fi,
    (forall w n w' tr,
       removeOld rt s fi w = (n, w', tr) ->
       exists files rerr rest,
         tr = EvStoreRemoveOld (ID fi) (int_add (keep s fi) 1) (files, rerr) :: rest /\
         removals rest = files) /\
    (in_int (keep s fi + 1) -> int_add (keep s fi) 1 = keep s fi + 1) /\
    (forall st w c st' w' tr,
       procChannels_feed rt s fi st w = ((c, st'), w', tr) ->
       (forall e, c <> Return e) ->
       (exists e ok, In (EvStoreSave e (ok, None)) tr) ->
       exists pre files rerr post,
         tr = pre ++
              EvStoreRemoveOld (ID fi) (int_add (keep s fi) 1) (files, rerr) :: post /\
         removals pre = [] /\
         removals post = files).
Proof.
  intros W rt s fi. split.
  { intros w n w' tr H.
    apply removeOld_trace in H as (files & rerr & rest & -> & Hf & _). eauto. }
  split; [apply int_add_small |].
  intros st w c st' w' tr H Hc Hs.
  apply feed_inv in H.
  destruct H as (entries & gerr & w0 & _ & H). destruct gerr as [e|].
  { destruct H as (_ & _ & _ & ->). destruct Hs as (e0 & ok & Hin).
    simpl in Hin. intuition discriminate. }
  destruct H as (cl & l & w1 & t_loop & t_rest & Hl & -> & H).
  pose proof (entries_events rt s fi _ _ _ _ _ _ _ _ _ Hl) as Hev.
  pose proof (entries_changed rt s fi _ _ _ _ _ _ _ _ _ Hl) as Hch.
  cbn [changed orb] in Hch.
  assert (Hsaved : existsb saved_event t_loop = true \/
                   (exists e ok, In (EvStoreSave e (ok, None)) t_rest)).
  { destruct Hs as (e & ok & [Hin | [Hin | Hin]]); try discriminate.
    apply in_app_iff in Hin as [Hin | Hin].
    - left. apply existsb_saved_In. eauto.
    - right. eauto. }
  assert (Hrest : procChannels_changed rt s fi
                    (add_processed (allStats l) (processed_ l)) w1
                  = (st', w', t_rest)).
  { destruct cl.
    3: { destruct H as [-> _]. exfalso. eapply Hc. reflexivity. }
    all: destruct H as [_ H]; destruct (changed l); [exact H |];
      destruct H as (_ & _ & ->);
      destruct Hsaved as [Hx | (e & ok & [])]; congruence. }
  apply changed_inv in Hrest.
  destruct Hrest as (n & w2 & t1 & doc & rssErr & w3 & t2 & t3 & Ht & Hr & -> & _ & Hp).
  apply removeOld_trace in Ht as (files & rerr & rest & -> & Hfiles & _).
  apply RSSFeed_trace in Hr as (res & rest2 & -> & Hrest2 & _).
  match goal with
  | |- context [?g :: ?lg :: t_loop ++ _] => exists (g :: lg :: t_loop)
  end.
  exists files, rerr, (rest ++ (EvStoreLoad (ID fi) (keep s fi) res :: rest2) ++ t3).
  split; [cbn [app]; reflexivity |].
  split.
  - cbn [removals]. apply (removals_none entry_event); [reflexivity | exact Hev].
  - rewrite !removals_app, Hfiles. cbn [removals].
    rewrite (removals_none item_event _ ltac:(reflexivity) Hrest2).
    destruct rssErr as [e|].
    + destruct Hp as [_ ->]. cbn. rewrite app_nil_r. reflexivity.
    + destruct Hp as (r0 & _ & ->). destruct r0; cbn; rewrite app_nil_r; reflexivity.
Qed.

Lemma changed_feed_trimmed_witness :
  let rt := Mock.runtime Mock.trimming in
  let s := Mock.service Mock.trimming [Mock.feed] 2 in
  let files := ["/srv/yt/a.mp3"; "/srv/yt/b.mp3"; "/srv/yt/c.mp3"]%string in
  removeOld rt s Mock.feed Mock.now0
  = (2, Mock.now0,
     [EvStoreRemoveOld "C1" 3 (files, Some (Err "partial"));
      EvLog "[WARN] failed to remove some old meta data for %s, %v"
        [V (VStr "C1"); E (Err "partial")];
      EvRemove "/srv/yt/a.mp3" None;
      EvLog "[INFO] removed %s for %s (%s)"
        [V (VStr "/srv/yt/a.mp3"); V (VStr "C1"); V (VStr "My Show")];
      EvRemove "/srv/yt/b.mp3" (Some (Err "busy"));
      EvLog "[WARN] failed to remove file %s: %v"
        [V (VStr "/srv/yt/b.mp3"); E (Err "busy")];
      EvRemove "/srv/yt/c.mp3" None;
      EvLog "[INFO] removed %s for %s (%s)"
        [V (VStr "/srv/yt/c.mp3"); V (VStr "C1"); V (VStr "My Show")]]) /\
  let run := procChannels_feed rt s Mock.feed stats_zero Mock.now0 in
  fst (fst (fst run)) = Next /\
  (exists e ok, In (EvStoreSave e (ok, None)) (snd run)) /\
  exists pre files' rerr post,
    snd run = pre ++ EvStoreRemoveOld "C1" 3 (files', rerr) :: post /\
    removals pre = [] /\
    removals post = files'.
Proof.
  intros rt s files.
  destruct (changed_feed_trimmed Z rt s Mock.feed) as (H1 & _ & H2).
  split; [vm_compute; reflexivity |].
  intros run.
  assert (Hs : exists e ok, In (EvStoreSave e (ok, None)) (snd run)).
  { do 2 eexists. vm_compute. find_event. }
  split; [reflexivity |]. split; [exact Hs |].
  exact (H2 stats_zero Mock.now0 Next (snd (fst (fst run))) (snd (fst run))
           (snd run) eq_refl ltac:(discriminate) Hs).
Defined.

(** ** Duplicates, downloads and the fields of a saved entry *)

Section EntryClaims.

Context {W : Type}.
Variable rt : Runtime W.
Variable s : Service W.

Variables (fi : FeedInfo) (err : option error) (i : Z) (entry : Entry).
Variables (l : locals) (w : W) (c : ctl) (l' : locals) (w' : W).
Variable tr : list Event.
Hypothesis Hrun : procChannels_entry rt s fi err i entry l w = (c, l', w', tr).

Ltac cases := generalize Hrun; intros H; unfold procChannels_entry in H; run H; inv H.

Lemma entry_duplicate :
  (exists x, In (EvStoreExist entry (true, x)) tr) \/
  (exists ts, In (EvStoreCheckProcessed entry (true, ts, None)) tr) ->
  forall id f res, ~ In (EvDownloaderGet id f res) tr.
Proof.
  cases; intros Hdup id f res Hd; simpl in Hd;
    repeat (destruct Hd as [Hd | Hd]; [try discriminate |]);
    try (destruct Hd; fail).
  all: destruct Hdup as [(x & Hin) | (ts & Hin)]; simpl in Hin;
    repeat (destruct Hin as [Hin | Hin]; [discriminate |]); destruct Hin.
Qed.

Lemma entry_download_failed id f file derr :
  err = None ->
  In (EvDownloaderGet id f (file, Some derr)) tr ->
  c = Next /\
  processed_ l' = processed_ l /\
  ignored (allStats l') = int_add (ignored (allStats l)) 1 /\
  added (allStats l') = added (allStats l) /\
  skipped (allStats l') = skipped (allStats l) /\
  changed l' = changed l /\
  In (EvLog "[WARN] failed to download %s: %s" [V (VStr id); E derr]) tr /\
  forall e res, ~ In (EvStoreSave e res) tr.
Proof.
  intros ->. cases; intros Hd; simpl in Hd;
    try (exfalso; intuition (try discriminate; try congruence); fail).
  all: destruct Hd as [Hd | [Hd | [Hd | [Hd | Hd]]]]; try discriminate;
    try (destruct Hd as [Hd | Hd]; try discriminate); try (destruct Hd; fail);
    inv Hd; fields; repeat split; try reflexivity;
    try (simpl; intuition (try discriminate; try congruence); fail).
Qed.

Ltac prefix_before tu T :=
  lazymatch T with
  | tu ++ _ => constr:(@nil Event)
  | ?x :: ?r => let p := prefix_before tu r in constr:(x :: p)
  end.

Ltac suffix_after tu T :=
  lazymatch T with
  | tu ++ _ :: ?r => constr:(r)
  | _ :: ?r => suffix_after tu r
  end.

(** The entry given to [Store.Save] is the one lines 213-223 make of the
    listed entry and the downloaded file; the clock is not read before. *)
Lemma entry_saved_updated e' res :
  In (EvStoreSave e' res) tr ->
  exists pre file w1 w2 t_upd post,
    tr = pre ++ t_upd ++ EvStoreSave e' res :: post /\
    procChannels_updated rt fi entry file w1 = (e', w2, t_upd) /\
    (forall t, ~ In (EvNow t) pre).
Proof.
  generalize Hrun; intros H; unfold procChannels_entry in H.
  repeat (cbv beta iota zeta delta
            [bind call log_Printf ret makeFileName sha1.Write sha1.New] in H;
          match type of H with
          | context [match ?x with _ => _ end] => step_on x
          | context [if ?x then _ else _] => step_on x
          end).
  all: cbv beta iota zeta delta
         [bind call log_Printf ret makeFileName sha1.Write sha1.New] in H.
  all: inv H; cbn [app]; intros Hs;
    try (simpl in Hs; exfalso; intuition (try discriminate; try congruence); fail).
  all: match goal with
       | Hu : procChannels_updated rt fi entry ?file ?wa = (?e0, ?wb, ?tu)
         |- exists pre f w1 w2 t_upd post, ?T = _ /\ _ =>
           let p := prefix_before tu T in
           let q := suffix_after tu T in
           assert (Hnow : forall ev, In ev tu -> exists t, ev = EvNow t)
             by (clear - Hu; intros ev Hin;
                 unfold procChannels_updated, bind, call, ret in Hu;
                 destruct (time_Now rt wa) as [n1 wn1];
                 destruct (Sub n1 (Published (set_File entry file)) <? Hour * 24);
                 [destruct (time_Now rt wn1) as [n2 wn2] |];
                 inv Hu; simpl in Hin; intuition eauto);
           exists p, file, wa, wb, tu, q
       end.
  all: repeat (destruct Hs as [Hs | Hs]; [discriminate |]).
  all: apply in_app_iff in Hs as [Hs | Hs];
    [apply Hnow in Hs as [t Hs]; discriminate |].
  all: destruct Hs as [Hs | Hs];
    [| simpl in Hs; exfalso; intuition (try discriminate; try congruence)].
  all: inv Hs; split; [reflexivity |]; split; [assumption |].
  all: intros t Hn; simpl in Hn; intuition discriminate.
Qed.

Lemma updated_published (file : string) (w1 : W) e' w2 t_upd :
  procChannels_updated rt fi entry file w1 = (e', w2, t_upd) ->
  exists now,
    (now - Published entry < Hour * 24 /\
     exists now', t_upd = [EvNow now; EvNow now'] /\ Published e' = now') \/
    (Hour * 24 <= now - Published entry /\
     t_upd = [EvNow now] /\ Published e' = Published entry).
Proof.
  intros H. unfold procChannels_updated, bind, call, ret in H.
  destruct (time_Now rt w1) as [now wn1]. exists now.
  cbn [Published set_File] in H.
  rewrite (Sub_ltb _ _ _ day_is_duration) in H.
  destruct (Z.ltb_spec (now - Published entry) (Hour * 24)) as [Hlt | Hge].
  - destruct (time_Now rt wn1) as [now' wn2]. left. split; [exact Hlt |].
    exists now'.
    destruct (negb (Contains (Title (set_Published (set_File entry file) now'))
                      (Name fi))); inv H; auto.
  - right. split; [exact Hge |].
    destruct (negb (Contains (Title (set_File entry file)) (Name fi)));
      inv H; auto.
Qed.

End EntryClaims.

(** C5, as stated, fails.  [Store.CheckProcessed] returns [true] for the
    listed entry, together with an error: the entry is downloaded. *)
Lemma duplicate_not_downloaded_counterexample :
  let tr := snd (procChannels (Mock.runtime Mock.found_with_error)
                   (Mock.service Mock.found_with_error [Mock.feed] 2)
                   Mock.now0) in
  ~ (forall e x ts perr,
       In (EvStoreExist e (true, x)) tr \/
       In (EvStoreCheckProcessed e (true, ts, perr)) tr ->
       forall f res, ~ In (EvDownloaderGet (VideoID e) f res) tr).
Proof.
  intros tr H.
  apply (H Mock.V1 None 0 (Some (Err "db closed"))
           ltac:(right; vm_compute; find_event)
           "bc57a4f3d66f4f0f6f35d80001a5801ea5bdef2c"%string
           ("/srv/yt/V1.mp3"%string, None)).
  vm_compute. find_event.
Qed.

(** C5, amended.  For every entry for which [Store.Exist] returns [true],
    or for which [Store.CheckProcessed] returns [true] and no error,
    [Downloader.Get] is not invoked in the processing of that entry. *)
Theorem duplicate_not_downloaded :
  forall (W : Type) (rt : Runtime W) (s : Service W) fi err i entry l w c l' w' tr,
    procChannels_entry rt s fi err i entry l w = ((c, l'), w', tr) ->
    (exists x, In (EvStoreExist entry (true, x)) tr) \/
    (exists ts, In (EvStoreCheckProcessed entry (true, ts, None)) tr) ->
    forall id f res, ~ In (EvDownloaderGet id f res) tr.
Proof.
  intros W rt s fi err i entry l w c l' w' tr H.
  exact (entry_duplicate rt s fi err i entry l w c l' w' tr H).
Qed.

Lemma duplicate_not_downloaded_witness :
  let run := procChannels_entry (Mock.runtime Mock.failing_save)
               (Mock.service Mock.failing_save [Mock.feed] 2) Mock.feed None 0
               Mock.V1 Mock.l0 Mock.now0 in
  (exists x, In (EvStoreExist Mock.V1 (true, x)) (snd run)) /\
  forall id f res, ~ In (EvDownloaderGet id f res) (snd run).
Proof.
  intros run.
  assert (Hx : exists x, In (EvStoreExist Mock.V1 (true, x)) (snd run)).
  { exists None. vm_compute. find_event. }
  split; [exact Hx |].
  apply (duplicate_not_downloaded Z (Mock.runtime Mock.failing_save)
           (Mock.service Mock.failing_save [Mock.feed] 2) Mock.feed None 0
           Mock.V1 Mock.l0 Mock.now0 (fst (fst (fst run))) (snd (fst (fst run)))
           (snd (fst run)) (snd run) eq_refl (or_introl Hx)).
Defined.

(** ** The publication time of a saved entry *)

(** C8, as stated, fails.  The listed entry is dated ten days after the
    clock's time, which is not within 24 hours of it: its publication
    time is overwritten all the same. *)
Lemma published_kept_counterexample :
  let tr := snd (procChannels (Mock.runtime Mock.ahead)
                   (Mock.service Mock.ahead [Mock.feed] 2) Mock.now0) in
  In (EvNow Mock.now0) tr /\
  ~ (forall e' res,
       In (EvStoreSave e' res) tr ->
       (Z.abs (Mock.now0 - Published Mock.V3) < Hour * 24 ->
        exists now', In (EvNow now') tr /\ Published e' = now') /\
       (~ Z.abs (Mock.now0 - Published Mock.V3) < Hour * 24 ->
        Published e' = Published Mock.V3)).
Proof.
  intros tr. split; [vm_compute; find_event |].
  intros H.
  destruct (H (set_Title
                 (set_Published (set_File Mock.V3 "/srv/yt/V3.mp3") (Mock.now0 + 1))
                 "My Show: Episode 7")
              (true, None) ltac:(vm_compute; find_event)) as [_ H2].
  assert (Hfar : ~ Z.abs (Mock.now0 - Published Mock.V3) < Hour * 24)
    by (vm_compute; discriminate).
  specialize (H2 Hfar). vm_compute in H2. discriminate.
Qed.

(** C8, amended.  For every entry that was downloaded and is given to
    [Store.Save]: with [now] the clock's time read after the download, if
    less than 24 hours have passed from the original publication time to
    [now] (so also if that time is later than [now]) the publication time
    is overwritten with the clock's time, read once more; if 24 hours or
    more have passed it is kept.  A time 2 hours before [now] is
    overwritten, one 10 days before [now] is kept. *)
Theorem published_reset_when_recent :
  forall (W : Type) (rt : Runtime W) (s : Service W) fi err i entry l w c l' w' tr
         e' res,
    procChannels_entry rt s fi err i entry l w = ((c, l'), w', tr) ->
    In (EvStoreSave e' res) tr ->
    exists pre now mid post,
      tr = pre ++ EvNow now :: mid ++ EvStoreSave e' res :: post /\
      (forall t, ~ In (EvNow t) pre) /\
      ((now - Published entry < Hour * 24 /\
        exists now', mid = [EvNow now'] /\ Published e' = now') \/
       (Hour * 24 <= now - Published entry /\
        mid = [] /\ Published e' = Published entry)) /\
      (Published entry = now - 2 * Hour ->
       exists now', mid = [EvNow now'] /\ Published e' = now') /\
      (Published entry = now - 10 * (24 * Hour) ->
       mid = [] /\ Published e' = Published entry).
Proof.
  intros W rt s fi err i entry l w c l' w' tr e' res H Hs.
  destruct (entry_saved_updated rt s fi err i entry l w c l' w' tr H e' res Hs)
    as (pre & file & w1 & w2 & t_upd & post & -> & Hu & Hpre).
  destruct (updated_published rt fi entry file w1 e' w2 t_upd Hu) as [now Hn].
  assert (Hh : 0 < Hour) by (unfold Hour; lia).
  destruct Hn as [(Hlt & now' & -> & Hp) | (Hge & -> & Hp)].
  - exists pre, now, [EvNow now'], post.
    split; [reflexivity |]. split; [exact Hpre |].
    split; [left; eauto |]. split; [eauto |].
    intros Hold. exfalso. lia.
  - exists pre, now, [], post.
    split; [reflexivity |]. split; [exact Hpre |].
    split; [right; auto |]. split; [| auto].
    intros Hrecent. exfalso. lia.
Qed.

Lemma published_reset_when_recent_witness :
  let run := procChannels_entry (Mock.runtime Mock.fresh)
               (Mock.service Mock.fresh [Mock.feed] 2) Mock.feed None 0
               Mock.V2 Mock.l0 Mock.now0 in
  let e' := set_Title
              (set_Published (set_File Mock.V2 "/srv/yt/V2.mp3") (Mock.now0 + 1))
              "My Show: Episode 6" in
  In (EvStoreSave e' (true, None)) (snd run) /\
  Published Mock.V2 = Mock.now0 - 2 * Hour /\
  exists pre now mid post,
    snd run = pre ++ EvNow now :: mid ++ EvStoreSave e' (true, None) :: post /\
    (Published Mock.V2 = now - 2 * Hour ->
     exists now', mid = [EvNow now'] /\ Published e' = now').
Proof.
  intros run e'.
  assert (Hs : In (EvStoreSave e' (true, None)) (snd run))
    by (vm_compute; find_event).
  split; [exact Hs |]. split; [reflexivity |].
  destruct (published_reset_when_recent Z (Mock.runtime Mock.fresh)
              (Mock.service Mock.fresh [Mock.feed] 2) Mock.feed None 0
              Mock.V2 Mock.l0 Mock.now0 (fst (fst (fst run)))
              (snd (fst (fst run))) (snd (fst run)) (snd run) e' (true, None)
              eq_refl Hs)
    as (pre & now & mid & post & Htr & _ & _ & H2 & _).
  exists pre, now, mid, post. split; [exact Htr | exact H2].
Defined.

(** ** Failures of [Store.Save] and of the download *)

Lemma no_save_failed (tr : list Event) e ok serr :
  existsb save_failed_event tr = false ->
  ~ In (EvStoreSave e (ok, Some serr)) tr.
Proof.
  intros H Hin.
  assert (Ht : existsb save_failed_event tr = true)
    by (apply existsb_save_failed_In; eauto).
  congruence.
Qed.

(** C6.  If [Store.Save] returns an error in a pass, that call is the
    last event of the pass: no further entry or feed is processed, not
    even the closing log line is written; [procChannels] returns the
    error wrapped, and [Do] returns it wrapped once more, at the first
    pass as at a later tick, without looking at a later signal.  If
    [Downloader.Get] returns an error for an entry, the loop goes on to
    the next entry: the failure is logged, the entry is counted as
    ignored, and it is neither counted as handled nor added, nor is
    anything saved. *)
Theorem save_failure_fatal_download_failure_ignored :
  forall (W : Type) (rt : Runtime W) (s : Service W),
    (forall w r w' tr e ok serr,
       procChannels rt s w = (r, w', tr) ->
       In (EvStoreSave e (ok, Some serr)) tr ->
       let fatal := Wrapf serr "failed to save entry %+v" [VEntry e] in
       r = Some fatal /\
       (exists pre, tr = pre ++ [EvStoreSave e (ok, Some serr)]) /\
       (forall sigs,
          Do_loop rt s (Tick :: sigs) w
          = (Returned (Some (Wrapf fatal "failed to process channels" [])),
             w', tr)) /\
       (0 < CheckDuration s ->
        forall sigs,
          Do rt s sigs w
          = (Returned (Some (Wrapf fatal "failed to process channels" [])), w',
             EvLog "[INFO] starting youtube service" [] ::
             map (fun f => EvLog "[INFO] youtube feed %+v" [V (VFeed f)]) (Feeds s)
             ++ tr))) /\
    (forall fi i entry l w c l' w' tr id f file derr,
       procChannels_entry rt s fi None i entry l w = ((c, l'), w', tr) ->
       In (EvDownloaderGet id f (file, Some derr)) tr ->
       c = Next /\
       processed_ l' = processed_ l /\
       ignored (allStats l') = int_add (ignored (allStats l)) 1 /\
       added (allStats l') = added (allStats l) /\
       skipped (allStats l') = skipped (allStats l) /\
       changed l' = changed l /\
       In (EvLog "[WARN] failed to download %s: %s" [V (VStr id); E derr]) tr /\
       forall e res, ~ In (EvStoreSave e res) tr).
Proof.
  intros W rt s. split.
  - intros w r w' tr e ok serr H Hin fatal. subst fatal.
    pose proof H as Hinv. apply procChannels_inv in Hinv.
    destruct Hinv as (c & st & w1 & t1 & Hf & Hc).
    pose proof (feeds_return rt s _ _ _ _ _ _ _ Hf) as Hr. cbn beta iota in Hr.
    assert (Hr' : r = Some (Wrapf serr "failed to save entry %+v" [VEntry e]) /\
                  exists pre, tr = pre ++ [EvStoreSave e (ok, Some serr)]).
    { destruct c.
      - destruct Hc as (_ & n & t2 & -> & Ht2 & _). exfalso.
        apply in_app_iff in Hin as [Hin | [Hin | [Hin | Hin]]]; try discriminate.
        + exact (no_save_failed _ _ _ _ Hr Hin).
        + exact (no_save_failed _ _ _ _ Ht2 Hin).
      - destruct Hr.
      - destruct Hc as (-> & _ & ->).
        destruct Hr as (e0 & ok0 & serr0 & pre & -> & -> & Hpre).
        apply in_app_iff in Hin as [Hin | [Hin | []]].
        + destruct (no_save_failed _ _ _ _ Hpre Hin).
        + inv Hin. eauto. }
    destruct Hr' as [-> Hlast]. split; [reflexivity |]. split; [exact Hlast |].
    split.
    + intros sigs. apply Do_loop_fails. exact H.
    + intros Hd sigs. apply Do_fails; assumption.
  - intros fi i entry l w c l' w' tr id f file derr H Hin.
    exact (entry_download_failed rt s fi None i entry l w c l' w' tr H
             id f file derr eq_refl Hin).
Qed.

Lemma save_failure_fatal_download_failure_ignored_witness :
  let rt := Mock.runtime Mock.failing_save in
  let s := Mock.service Mock.failing_save [Mock.feed] 2 in
  let e := set_Title
             (set_Published (set_File Mock.V3 "/srv/yt/V3.mp3") (Mock.now0 + 1))
             "My Show: Episode 7" in
  let fatal := Wrapf (Err "disk full") "failed to save entry %+v" [VEntry e] in
  In (EvStoreSave e (false, Some (Err "disk full")))
     (snd (procChannels rt s Mock.now0)) /\
  fst (fst (procChannels rt s Mock.now0)) = Some fatal /\
  fst (fst (Do rt s [Tick; Tick] Mock.now0))
  = Returned (Some (Wrapf fatal "failed to process channels" [])) /\
  let run := procChannels_entry rt s Mock.feed None 1 Mock.V2 Mock.l0 Mock.now0 in
  In (EvDownloaderGet "V2" "c302a2df844281db0eee3d301129cbaaa85b27ef"
        (EmptyString, Some (Err "network"))) (snd run) /\
  fst (fst (fst run)) = Next /\
  processed_ (snd (fst (fst run))) = 0 /\
  ignored (allStats (snd (fst (fst run)))) = 1.
Proof.
  intros rt s e fatal.
  destruct (save_failure_fatal_download_failure_ignored Z rt s) as [H1 H2].
  assert (Hs : In (EvStoreSave e (false, Some (Err "disk full")))
                  (snd (procChannels rt s Mock.now0)))
    by (vm_compute; find_event).
  destruct (H1 Mock.now0 (fst (fst (procChannels rt s Mock.now0)))
              (snd (fst (procChannels rt s Mock.now0)))
              (snd (procChannels rt s Mock.now0))
              e false (Err "disk full") eq_refl Hs) as (Hr & _ & _ & Hdo).
  split; [exact Hs |]. split; [exact Hr |].
  split; [rewrite (Hdo eq_refl [Tick; Tick]); reflexivity |].
  intros run.
  assert (Hd : In (EvDownloaderGet "V2" "c302a2df844281db0eee3d301129cbaaa85b27ef"
                     (EmptyString, Some (Err "network"))) (snd run))
    by (vm_compute; find_event).
  destruct (H2 Mock.feed 1 Mock.V2 Mock.l0 Mock.now0 (fst (fst (fst run)))
              (snd (fst (fst run))) (snd (fst run)) (snd run)
              "V2"%string "c302a2df844281db0eee3d301129cbaaa85b27ef"%string
              EmptyString (Err "network") eq_refl Hd)
    as (Hc & Hp & Hi & _).
  split; [exact Hd |]. split; [exact Hc |]. split; [exact Hp |]. exact Hi.
Defined.

(** ** The bound on what is handled for a feed *)

(** C4, as stated, fails.  The global default is -1 and the feed has no
    override, so [keep] is -1; nothing is handled for the feed, and the
    count, 0, exceeds -1. *)
Lemma handled_at_most_keep_counterexample :
  let s := Mock.service Mock.fresh [Mock.feed] (-1) in
  let run := procChannels_entries (Mock.runtime Mock.fresh) s Mock.feed None 0
               [Mock.V1] Mock.l0 Mock.now0 in
  ~ (processed_ (snd (fst (fst run))) <= keep s Mock.feed).
Proof. vm_compute. intros H. apply H. reflexivity. Qed.

(** C4, amended.  For every feed processed in a pass, the count of
    entries handled for the feed never exceeds [keep] when [keep] is not
    negative, and is 0 when [keep] is 0 or negative; [keep] is the
    per-feed override if it is positive and the global default otherwise.
    When the loop over the feed's entries comes to its end, the count is
    what the feed has added to the entries counted as added and as
    skipped. *)
Theorem handled_at_most_keep :
  forall (W : Type) (rt : Runtime W) (s : Service W) fi err i es st w c l' w' tr,
    procChannels_entries rt s fi err i es
      {| allStats := st; changed := false; processed_ := 0 |} w
    = ((c, l'), w', tr) ->
    processed_ l' <= Z.max 0 (keep s fi) /\
    (keep s fi <= 0 -> processed_ l' = 0) /\
    keep s fi = (if Keep fi >? 0 then Keep fi else KeepPerChannel s) /\
    ((forall e, c <> Return e) ->
     int_add (added (allStats l')) (skipped (allStats l'))
     = int_add (int_add (added st) (skipped st)) (processed_ l')).
Proof.
  intros W rt s fi err i es st w c l' w' tr H.
  split.
  { eapply (entries_bound rt s fi err es); [exact H | | ];
      cbn [processed_]; unfold in_int, min_int, max_int; lia. }
  split.
  { intros Hk. destruct es as [|entry es].
    - inv H. reflexivity.
    - cbn [procChannels_entries] in H.
      unfold bind, procChannels_entry, ret in H. cbn [processed_ on_stats] in H.
      destruct (Z.geb_spec 0 (keep s fi)) as [_ | Hlt]; [| lia].
      inv H. reflexivity. }
  split; [reflexivity |].
  intros Hc.
  destruct (entries_balance rt s fi err es _ _ _ _ _ _ _ H Hc) as [Hb _].
  cbn [allStats processed_] in Hb. wrap_lia.
Qed.

Lemma handled_at_most_keep_witness :
  let s := Mock.service Mock.failing_exist [Mock.feed] 1 in
  let run := procChannels_entries (Mock.runtime Mock.failing_exist) s Mock.feed
               None 0 [Mock.V1; Mock.V2] Mock.l0 Mock.now0 in
  (forall e, fst (fst (fst run)) <> Return e) /\
  processed_ (snd (fst (fst run))) <= 1 /\
  added (allStats (snd (fst (fst run)))) = 1 /\
  skipped (allStats (snd (fst (fst run)))) = 0.
Proof.
  intros s run.
  assert (Hc : forall e, fst (fst (fst run)) <> Return e)
    by (intros e; vm_compute; discriminate).
  destruct (handled_at_most_keep Z (Mock.runtime Mock.failing_exist) s Mock.feed
              None 0 [Mock.V1; Mock.V2] stats_zero Mock.now0
              (fst (fst (fst run))) (snd (fst (fst run))) (snd (fst run))
              (snd run) eq_refl) as (Hb & _ & _ & Hsum).
  specialize (Hsum Hc).
  split; [exact Hc |]. split; [exact Hb |]. split; reflexivity.
Defined.

(** ** The run statistics *)

(** C10.  For every pass that returns no error, the run statistics that
    are logged at its end satisfy [processed = added + skipped], the sum
    being that of [int], which is the sum of the integers where it
    fits. *)
Theorem processed_is_added_plus_skipped :
  forall (W : Type) (rt : Runtime W) (s : Service W) w w' tr,
    procChannels rt s w = (None, w', tr) ->
    exists st lifetime,
      In (EvLog "[INFO] all channels processed - channels: %d, %s, lifetime: %d"
            [V (VInt (Z.of_nat (List.length (Feeds s)))); V (stats_String st);
             V (VInt lifetime)]) tr /\
      (exists w1 t1,
         procChannels_feeds rt s (Feeds s) stats_zero w = ((Next, st), w1, t1)) /\
      processed st = int_add (added st) (skipped st) /\
      (in_int (added st + skipped st) -> processed st = added st + skipped st).
Proof.
  intros W rt s w w' tr H. apply procChannels_inv in H.
  destruct H as (c & st & w1 & t1 & Hf & Hc).
  pose proof (feeds_return rt s _ _ _ _ _ _ _ Hf) as Hr. cbn beta iota in Hr.
  destruct c.
  - destruct Hc as (_ & lifetime & t2 & -> & _).
    exists st, lifetime. split.
    { apply in_app_iff. right. right. left. reflexivity. }
    split; [eauto |].
    assert (Hb : processed st = int_add (added st) (skipped st))
      by (apply (feeds_balanced rt s _ _ _ _ _ _ _ Hf);
          [discriminate | reflexivity]).
    split; [exact Hb |].
    intros Hi. rewrite Hb. apply int_add_small. exact Hi.
  - destruct Hr.
  - destruct Hc as (<- & _). destruct Hr as (? & ? & ? & ? & Hr & _).
    discriminate.
Qed.

Lemma processed_is_added_plus_skipped_witness :
  let run := procChannels (Mock.runtime Mock.failing_exist)
               (Mock.service Mock.failing_exist [Mock.feed] 2) Mock.now0 in
  fst (fst run) = None /\
  exists st lifetime,
    In (EvLog "[INFO] all channels processed - channels: %d, %s, lifetime: %d"
          [V (VInt 1); V (stats_String st); V (VInt lifetime)]) (snd run) /\
    processed st = int_add (added st) (skipped st).
Proof.
  intros run. split; [reflexivity |].
  destruct (processed_is_added_plus_skipped Z (Mock.runtime Mock.failing_exist)
              (Mock.service Mock.failing_exist [Mock.feed] 2) Mock.now0
              (snd (fst run)) (snd run) eq_refl)
    as (st & lifetime & Hlog & _ & Hbal & _).
  exists st, lifetime. split; [exact Hlog | exact Hbal].
Defined.

(** ** An error of the existence lookup *)

(** C2 against the code.  [Store.Exist] fails for both listed entries:
    for the first it returns [false] with the error, for the second
    [true] with the error.  Neither error is logged (the lines logged are
    those of the download of the first entry and the closing one), and
    the second entry is counted as a skipped duplicate and not
    downloaded.  The pass returns no error. *)
Theorem exist_error_not_logged :
  let run := procChannels (Mock.runtime Mock.failing_exist)
               (Mock.service Mock.failing_exist [Mock.feed] 2) Mock.now0 in
  fst (fst run) = None /\
  In (EvStoreExist Mock.V1 (false, Some (Err "db closed"))) (snd run) /\
  In (EvStoreExist Mock.V2 (true, Some (Err "db closed"))) (snd run) /\
  logged (snd run)
  = ["[INFO] got %d entries for %s, limit to %d";
     "[INFO] new entry [%d] %s, %s, %s";
     "[INFO] downloaded %s (%s) to %s, channel: %+v";
     "[INFO] saved %s (%s) to %s, channel: %+v";
     "[INFO] all channels processed - channels: %d, %s, lifetime: %d"]%string /\
  (forall id f res, In (EvDownloaderGet id f res) (snd run) -> id = "V1"%string) /\
  In (EvLog "[INFO] all channels processed - channels: %d, %s, lifetime: %d"
        [V (VInt 1);
         V (stats_String {| entries := 2; processed := 2; added := 1;
                            removed := 0; ignored := 0; skipped := 1 |});
         V (VInt 7)]) (snd run).
Proof.
  intros run.
  split; [reflexivity |].
  split; [vm_compute; find_event |].
  split; [vm_compute; find_event |].
  split; [vm_compute; reflexivity |].
  split; [| vm_compute; find_event].
  intros id f res Hin. vm_compute in Hin.
  repeat (destruct Hin as [Hin | Hin]; [try discriminate |]);
    [inv Hin; reflexivity | destruct Hin].
Qed.

(** In general: whatever error [Store.Exist] returns with [true], the
    entry is counted as skipped and handled, and nothing else happens: no
    line is logged, no download is attempted. *)
Lemma exist_true_with_any_error :
  forall (W : Type) (rt : Runtime W) (s : Service W) fi i entry l w exErr w1,
    (processed_ l >=? keep s fi) = false ->
    Store_Exist (Store s) entry w = ((true, exErr), w1) ->
    procChannels_entry rt s fi None i entry l w
    = ((Next, inc_processed (on_stats inc_skipped (on_stats inc_entries l))), w1,
       [EvStoreExist entry (true, exErr)]).
Proof.
  intros W rt s fi i entry l w exErr w1 Hk He.
  unfold procChannels_entry, bind, call, ret. cbn [processed_ on_stats].
  rewrite Hk, He. reflexivity.
Qed.

(** For comparison, the processed lookup: its error is logged, and the
    entry goes on to the download. *)
Lemma check_processed_error_logged :
  forall (W : Type) (rt : Runtime W) (s : Service W) fi i entry l w c l' w' tr
         found ts perr,
    procChannels_entry rt s fi None i entry l w = ((c, l'), w', tr) ->
    In (EvStoreCheckProcessed entry (found, ts, Some perr)) tr ->
    In (EvLog "[WARN] can't get processed status for %s, %+v"
          [V (VStr (VideoID entry)); V (VFeed fi)]) tr /\
    exists f res, In (EvDownloaderGet (VideoID entry) f res) tr.
Proof.
  intros W rt s fi i entry l w c l' w' tr found ts perr H Hin.
  unfold procChannels_entry in H. run H; inv H; simpl in Hin;
    repeat (destruct Hin as [Hin | Hin]; [try discriminate |]);
    try (destruct Hin; fail).
  all: split; [simpl; auto | do 2 eexists; simpl; auto 10].
Qed.

(** * Further properties of the service *)

(** ** What the processing of an entry does to the entry and the counters *)

Lemma prefix_app (a b : string) : prefix a (a ++ b) = true.
Proof.
  induction a as [|x a IH]; simpl.
  - destruct b; reflexivity.
  - destruct (ascii_dec x x); [exact IH | contradiction].
Qed.

(** [strings.Contains(a + b, a)]. *)
Lemma Contains_app (a b : string) : Contains (a ++ b) a = true.
Proof.
  assert (H : forall s sub, prefix sub s = true -> Contains s sub = true).
  { intros s sub Hp. destruct s; cbn [Contains]; rewrite Hp; reflexivity. }
  apply H, prefix_app.
Qed.

Lemma count_app (p : Event -> bool) (a b : list Event) :
  count p (a ++ b) = (count p a + count p b)%nat.
Proof. unfold count. rewrite filter_app, length_app. reflexivity. Qed.

Lemma count_none (p q : Event -> bool) (tr : list Event) :
  (forall ev, p ev = true -> q ev = false) ->
  forallb p tr = true -> count q tr = 0%nat.
Proof.
  intros Hpq. unfold count. induction tr as [|ev tr IH]; simpl; [reflexivity |].
  intros H. apply andb_true_iff in H as [Hev Htr].
  rewrite (Hpq ev Hev). auto.
Qed.

Section EntryFields.

Context {W : Type}.
Variable rt : Runtime W.
Variable s : Service W.

Variables (fi : FeedInfo) (i : Z) (entry : Entry).
Variables (l : locals) (w : W) (c : ctl) (l' : locals) (w' : W).
Variable tr : list Event.
Hypothesis Hrun : procChannels_entry rt s fi None i entry l w = (c, l', w', tr).

Ltac cases := generalize Hrun; intros H; unfold procChannels_entry in H; run H; inv H.

Ltac pick Hs :=
  simpl in Hs;
  repeat (destruct Hs as [Hs | Hs]; [try discriminate |]);
  try (destruct Hs; fail).

Lemma entry_saved_fields e' res :
  In (EvStoreSave e' res) tr ->
  In (EvDownloaderGet (VideoID entry)
        (hex_of_bytes (sha1.sum (bytes_of_string
           (ChannelID entry ++ "::" ++ VideoID entry))))
        (File e', None)) tr /\
  ChannelID e' = ChannelID entry /\
  VideoID e' = VideoID entry /\
  Link_Href e' = Link_Href entry /\
  Media_Description e' = Media_Description entry /\
  Author_Name e' = Author_Name entry /\
  Author_URI e' = Author_URI entry /\
  Title e' = (if Contains (Title entry) (Name fi)
              then Title entry
              else Name fi ++ ": " ++ Title entry)%string /\
  (forall e2 r2, In (EvStoreSetProcessed e2 r2) tr -> e2 = e').
Proof.
  cases; intros Hs; pick Hs; inv Hs.
  all: cbn [Title File ChannelID VideoID Link_Href Media_Description
            Author_Name Author_URI set_File set_Published set_Title] in *.
  all: repeat match goal with
         | Hn : negb ?b = _ |- _ =>
             destruct b; try discriminate Hn; clear Hn
         end.
  all: split; [find_event |]; do 7 (split; [reflexivity |]).
  all: intros e2 r2 Hp; pick Hp; inv Hp; reflexivity.
Qed.

Lemma entry_saved_ok e' ok :
  In (EvStoreSave e' (ok, None)) tr ->
  c = Next /\
  changed l' = true /\
  processed_ l' = int_add (processed_ l) 1 /\
  added (allStats l') = int_add (added (allStats l)) 1 /\
  skipped (allStats l') = skipped (allStats l) /\
  ignored (allStats l') = ignored (allStats l) /\
  (exists perr,
     In (EvStoreSetProcessed e' perr) tr /\
     forall x, perr = Some x ->
       In (EvLog "[WARN] failed to set processed status for %s: %v"
             [V (VStr (VideoID e')); E x]) tr) /\
  (ok = false ->
   In (EvLog "[WARN] attempt to save dup entry %+v" [V (VEntry e')]) tr).
Proof.
  cases; intros Hs; pick Hs; inv Hs; fields.
  all: cbn [VideoID set_File set_Published set_Title].
  all: do 6 (split; [reflexivity |]).
  all: split;
    [ eexists; split; [find_event | intros x Hx; inv Hx; find_event]
    | intros Hok; try discriminate Hok;
      try (subst ok; cbn [negb] in *; discriminate); find_event ].
Qed.

Lemma entry_duplicate_counted :
  (exists x, In (EvStoreExist entry (true, x)) tr) \/
  (exists ts, In (EvStoreCheckProcessed entry (true, ts, None)) tr) ->
  c = Next /\
  l' = inc_processed (on_stats inc_skipped (on_stats inc_entries l)) /\
  forall ev, In ev tr ->
    (exists res, ev = EvStoreExist entry res) \/
    (exists res, ev = EvStoreCheckProcessed entry res).
Proof.
  cases; intros Hdup;
    destruct Hdup as [(x & Hin) | (ts & Hin)]; pick Hin; inv Hin.
  all: repeat split.
  all: intros ev Hev; simpl in Hev; intuition eauto.
Qed.

Lemma entry_counts :
  wrap (added (allStats l') - Z.of_nat (count saved_event tr))
  = wrap (added (allStats l)) /\
  wrap (skipped (allStats l') - Z.of_nat (count duplicate_event tr))
  = wrap (skipped (allStats l)) /\
  wrap (ignored (allStats l') - Z.of_nat (count download_failed_event tr))
  = wrap (ignored (allStats l)) /\
  removed (allStats l') = removed (allStats l) /\
  count removed_event tr = 0%nat.
Proof.
  cases; fields;
    repeat (cbn [count filter saved_event duplicate_event
                 download_failed_event removed_event List.length];
            match goal with
            | |- context [match ?b with _ => _ end] => is_var b; destruct b
            end);
    cbn [count filter saved_event duplicate_event download_failed_event
         removed_event List.length];
    repeat split; try reflexivity; wrap_lia.
Qed.

Lemma entry_in_int :
  in_int (added (allStats l)) /\ in_int (skipped (allStats l)) /\
  in_int (ignored (allStats l)) /\ in_int (removed (allStats l)) ->
  in_int (added (allStats l')) /\ in_int (skipped (allStats l')) /\
  in_int (ignored (allStats l')) /\ in_int (removed (allStats l')).
Proof.
  cases; fields; intros (H1 & H2 & H3 & H4);
    (split; [| split; [| split]]); try assumption; apply wrap_in_int.
Qed.

End EntryFields.

(** ** The run statistics against what happened *)

Lemma count_removed_le (tr : list Event) :
  (count removed_event tr <= List.length (removals tr))%nat.
Proof.
  unfold count. induction tr as [|ev tr IH]; simpl; [lia |].
  destruct ev; simpl; try lia. destruct res; simpl; lia.
Qed.

Lemma count_cons (p : Event -> bool) (ev : Event) (tr : list Event) :
  count p (ev :: tr) = ((if p ev then 1 else 0) + count p tr)%nat.
Proof. unfold count. simpl. destruct (p ev); reflexivity. Qed.

Lemma count_nil (p : Event -> bool) : count p [] = 0%nat.
Proof. reflexivity. Qed.

Ltac counts :=
  repeat (rewrite count_app || rewrite count_cons || rewrite count_nil);
  cbn [saved_event duplicate_event download_failed_event removed_event].

Lemma entry_event_counts (tr : list Event) :
  forallb entry_event tr = true -> count removed_event tr = 0%nat.
Proof. apply count_none. intros []; simpl; congruence. Qed.

Lemma trim_event_counts (tr : list Event) :
  forallb trim_event tr = true ->
  count saved_event tr = 0%nat /\ count duplicate_event tr = 0%nat /\
  count download_failed_event tr = 0%nat.
Proof.
  intros H. repeat split; apply (count_none trim_event); try exact H;
    intros []; simpl; congruence.
Qed.

Lemma item_event_counts (tr : list Event) :
  forallb item_event tr = true ->
  count saved_event tr = 0%nat /\ count duplicate_event tr = 0%nat /\
  count download_failed_event tr = 0%nat /\ count removed_event tr = 0%nat.
Proof.
  intros H. repeat split; apply (count_none item_event); try exact H;
    intros []; simpl; congruence.
Qed.

Section Counts.

Context {W : Type}.
Variable rt : Runtime W.
Variable s : Service W.

Ltac turnE H :=
  apply entries_cons in H;
  destruct H as (c1 & l1 & w1 & t1 & He & H);
  destruct c1;
  [ destruct H as (t2 & Hr & ->) | destruct H as (-> & -> & -> & ->)
  | destruct H as (-> & -> & -> & ->) ].

Lemma entries_counts fi es :
  forall i l w c l' w' tr,
    procChannels_entries rt s fi None i es l w = (c, l', w', tr) ->
    wrap (added (allStats l') - Z.of_nat (count saved_event tr))
    = wrap (added (allStats l)) /\
    wrap (skipped (allStats l') - Z.of_nat (count duplicate_event tr))
    = wrap (skipped (allStats l)) /\
    wrap (ignored (allStats l') - Z.of_nat (count download_failed_event tr))
    = wrap (ignored (allStats l)) /\
    removed (allStats l') = removed (allStats l) /\
    count removed_event tr = 0%nat.
Proof.
  induction es as [|entry es IH]; intros i l w c l' w' tr H.
  - inv H. cbn. rewrite !Z.sub_0_r. auto.
  - turnE H;
      destruct (entry_counts rt s _ _ _ _ _ _ _ _ _ He) as (A1 & A2 & A3 & A4 & A5).
    + destruct (IH _ _ _ _ _ _ _ Hr) as (B1 & B2 & B3 & B4 & B5).
      rewrite !count_app, A5, B5, B4, A4.
      repeat split; try reflexivity; wrap_lia.
    + rewrite app_nil_r. auto.
    + rewrite app_nil_r. auto.
Qed.

Lemma entries_in_int fi es :
  forall i l w c l' w' tr,
    procChannels_entries rt s fi None i es l w = (c, l', w', tr) ->
    in_int (added (allStats l)) /\ in_int (skipped (allStats l)) /\
    in_int (ignored (allStats l)) /\ in_int (removed (allStats l)) ->
    in_int (added (allStats l')) /\ in_int (skipped (allStats l')) /\
    in_int (ignored (allStats l')) /\ in_int (removed (allStats l')).
Proof.
  induction es as [|entry es IH]; intros i l w c l' w' tr H Hi.
  - inv H. exact Hi.
  - turnE H; pose proof (entry_in_int rt s _ _ _ _ _ _ _ _ _ He Hi) as Hi1;
      eauto.
Qed.

Lemma removeOld_files_count fi files :
  forall n w n' w' tr,
    removeOld_files rt fi files n w = (n', w', tr) ->
    wrap (n' - Z.of_nat (count removed_event tr)) = wrap n /\
    (in_int n -> in_int n').
Proof.
  induction files as [|f files IH]; intros n w n' w' tr H.
  - inv H. cbn. rewrite Z.sub_0_r. auto.
  - cbn [removeOld_files] in H. unfold bind, call, log_Printf in H.
    destruct (os_Remove rt f w) as [[e|] w1].
    + destruct (removeOld_files rt fi files n w1) as [[n2 w2] t2] eqn:Hr.
      inv H. destruct (IH _ _ _ _ _ Hr) as [B1 B2].
      split; [| exact B2].
      cbn [app]. counts. exact B1.
    + destruct (removeOld_files rt fi files (int_add n 1) w1) as [[n2 w2] t2] eqn:Hr.
      inv H. destruct (IH _ _ _ _ _ Hr) as [B1 B2].
      split; [| intros _; apply B2, wrap_in_int].
      cbn [app]. counts. wrap_lia.
Qed.

Lemma removeOld_count fi w n w' tr :
  removeOld rt s fi w = (n, w', tr) ->
  n = wrap (Z.of_nat (count removed_event tr)) /\ in_int n.
Proof.
  intros H. unfold removeOld, bind, call, log_Printf, ret in H.
  destruct (Store_RemoveOld (Store s) (ID fi) (int_add (keep s fi) 1) w)
    as [[files rerr] w1].
  assert (H0 : in_int 0) by (unfold in_int, min_int, max_int; lia).
  destruct rerr as [e|];
    destruct (removeOld_files rt fi files 0 w1) as [[n2 w2] t2] eqn:Hr;
    inv H; destruct (removeOld_files_count _ _ _ _ _ _ _ Hr) as [B1 B2];
    specialize (B2 H0); cbn [app]; counts;
    (split; [wrap_lia | exact B2]).
Qed.

End Counts.

Section FeedCounts.

Context {W : Type}.
Variable rt : Runtime W.
Variable s : Service W.

Lemma changed_counts fi st w st' w' tr :
  procChannels_changed rt s fi st w = (st', w', tr) ->
  count saved_event tr = 0%nat /\ count duplicate_event tr = 0%nat /\
  count download_failed_event tr = 0%nat /\
  added st' = added st /\ skipped st' = skipped st /\ ignored st' = ignored st /\
  removed st' = int_add (removed st) (wrap (Z.of_nat (count removed_event tr))).
Proof.
  intros H. apply changed_inv in H.
  destruct H as (n & w1 & t1 & doc & rssErr & w2 & t2 & t3 & Ht & Hr & -> & -> & Hp).
  destruct (removeOld_count rt s _ _ _ _ _ Ht) as [Hn _].
  apply removeOld_trace in Ht as (files & rerr & rest & -> & _ & Hrest).
  apply RSSFeed_trace in Hr as (res & rest2 & -> & Hrest2 & _).
  destruct (trim_event_counts _ Hrest) as (T1 & T2 & T3).
  destruct (item_event_counts _ Hrest2) as (I1 & I2 & I3 & I4).
  assert (Hpub : count saved_event t3 = 0%nat /\ count duplicate_event t3 = 0%nat /\
                 count download_failed_event t3 = 0%nat /\
                 count removed_event t3 = 0%nat).
  { destruct rssErr as [e|].
    - destruct Hp as [_ ->]. repeat split.
    - destruct Hp as (r0 & _ & ->). destruct r0; repeat split. }
  destruct Hpub as (P1 & P2 & P3 & P4).
  cbn [removed add_removed added skipped ignored].
  counts. rewrite T1, T2, T3, I1, I2, I3, I4, P1, P2, P3, P4.
  repeat split. rewrite Hn. counts. do 3 f_equal. lia.
Qed.

Lemma feed_counts fi st w c st' w' tr :
  procChannels_feed rt s fi st w = ((c, st'), w', tr) ->
  (in_int (added st) /\ in_int (skipped st) /\
   in_int (ignored st) /\ in_int (removed st) ->
   in_int (added st') /\ in_int (skipped st') /\
   in_int (ignored st') /\ in_int (removed st')) /\
  wrap (added st' - Z.of_nat (count saved_event tr)) = wrap (added st) /\
  wrap (skipped st' - Z.of_nat (count duplicate_event tr)) = wrap (skipped st) /\
  wrap (ignored st' - Z.of_nat (count download_failed_event tr))
  = wrap (ignored st) /\
  wrap (removed st' - Z.of_nat (count removed_event tr)) = wrap (removed st).
Proof.
  intros H. apply feed_inv in H.
  destruct H as (entries & gerr & w0 & _ & H). destruct gerr as [e|].
  { destruct H as (_ & -> & _ & ->). cbn. rewrite !Z.sub_0_r. auto. }
  destruct H as (cl & l & w1 & t_loop & t_rest & Hl & -> & H).
  destruct (entries_counts rt s fi _ _ _ _ _ _ _ _ Hl) as (A1 & A2 & A3 & A4 & A5).
  pose proof (entries_in_int rt s fi _ _ _ _ _ _ _ _ Hl) as Hint.
  cbn [allStats] in A1, A2, A3, A4, Hint.
  assert (Hcase :
    (st' = allStats l /\ t_rest = []) \/
    (st' = add_processed (allStats l) (processed_ l) /\ t_rest = []) \/
    procChannels_changed rt s fi (add_processed (allStats l) (processed_ l)) w1
    = (st', w', t_rest)).
  { destruct cl.
    - destruct H as [_ H]. destruct (changed l); [auto |].
      destruct H as (-> & _ & ->). auto.
    - destruct H as [_ H]. destruct (changed l); [auto |].
      destruct H as (-> & _ & ->). auto.
    - destruct H as (_ & -> & _ & ->). auto. }
  clear H.
  counts.
  rewrite A5.
  destruct Hcase as [(-> & ->) | [(-> & ->) | Hch]].
  - counts.
    split; [exact Hint |]. repeat split; try wrap_lia.
  - counts. cbn [added skipped ignored removed add_processed].
    split; [exact Hint |]. repeat split; try wrap_lia.
  - destruct (changed_counts _ _ _ _ _ _ Hch) as (C1 & C2 & C3 & C4 & C5 & C6 & C7).
    cbn [added skipped ignored removed add_processed] in C4, C5, C6, C7.
    rewrite C1, C2, C3, C4, C5, C6, C7.
    split.
    { intros Hi. destruct (Hint Hi) as (I1 & I2 & I3 & I4).
      repeat split; try apply I1; try apply I2; try apply I3;
        apply wrap_in_int. }
    repeat split; try wrap_lia.
Qed.

Lemma feeds_counts fs :
  forall st w c st' w' tr,
    procChannels_feeds rt s fs st w = ((c, st'), w', tr) ->
    (in_int (added st) /\ in_int (skipped st) /\
     in_int (ignored st) /\ in_int (removed st) ->
     in_int (added st') /\ in_int (skipped st') /\
     in_int (ignored st') /\ in_int (removed st')) /\
    wrap (added st' - Z.of_nat (count saved_event tr)) = wrap (added st) /\
    wrap (skipped st' - Z.of_nat (count duplicate_event tr)) = wrap (skipped st) /\
    wrap (ignored st' - Z.of_nat (count download_failed_event tr))
    = wrap (ignored st) /\
    wrap (removed st' - Z.of_nat (count removed_event tr)) = wrap (removed st).
Proof.
  induction fs as [|fi fs IH]; intros st w c st' w' tr H.
  - inv H. cbn. rewrite !Z.sub_0_r. auto.
  - apply feeds_cons in H. destruct H as (c1 & st1 & w1 & t1 & He & H).
    destruct (feed_counts _ _ _ _ _ _ _ He) as (A0 & A1 & A2 & A3 & A4).
    destruct c1.
    + destruct H as (t2 & Hr & ->).
      destruct (IH _ _ _ _ _ _ Hr) as (B0 & B1 & B2 & B3 & B4).
      rewrite !count_app. split; [auto |]. repeat split; wrap_lia.
    + destruct H as (-> & -> & -> & ->). rewrite app_nil_r. auto.
    + destruct H as (-> & -> & -> & ->). rewrite app_nil_r. auto.
Qed.

End FeedCounts.

Section Pass.

Context {W : Type}.
Variable rt : Runtime W.
Variable s : Service W.

(** The end of a pass that did not return from the loop. *)
Lemma procChannels_tail w w' tr :
  procChannels rt s w = (None, w', tr) ->
  exists st w1 t1 lifetime last lerr,
    procChannels_feeds rt s (Feeds s) stats_zero w = ((Next, st), w1, t1) /\
    tr = t1 ++
         [EvStoreCountProcessed lifetime;
          EvLog "[INFO] all channels processed - channels: %d, %s, lifetime: %d"
            [V (VInt (Z.of_nat (List.length (Feeds s))));
             V (stats_String st); V (VInt lifetime)];
          EvStoreLast (last, lerr)] ++
         match lerr with
         | None => [EvLog "[INFO] last entry: %s" [V (VEntry last)]]
         | Some _ => []
         end.
Proof.
  intros H. unfold procChannels, bind, call, log_Printf, ret in H.
  destruct (procChannels_feeds rt s (Feeds s) stats_zero w)
    as [[[c st] w1] t1] eqn:Hf.
  pose proof (feeds_return rt s _ _ _ _ _ _ _ Hf) as Hr. cbn beta iota in Hr.
  destruct c.
  - destruct (Store_CountProcessed (Store s) w1) as [lifetime w2].
    destruct (Store_Last (Store s) w2) as [[last lerr] w3].
    exists st, w1, t1, lifetime, last, lerr. split; [reflexivity |].
    destruct lerr; inv H; reflexivity.
  - destruct Hr.
  - destruct Hr as (? & ? & ? & ? & -> & _). inv H.
Qed.

(** A pass returns an error only for a failed [Store.Save]. *)
Lemma procChannels_error w e w' tr :
  procChannels rt s w = (Some e, w', tr) ->
  exists entry ok serr pre,
    e = Wrapf serr "failed to save entry %+v" [VEntry entry] /\
    tr = pre ++ [EvStoreSave entry (ok, Some serr)].
Proof.
  intros H. apply procChannels_inv in H.
  destruct H as (c & st & w1 & t1 & Hf & Hc).
  pose proof (feeds_return rt s _ _ _ _ _ _ _ Hf) as Hr. cbn beta iota in Hr.
  destruct c.
  - destruct Hc as [Hc _]. discriminate.
  - destruct Hr.
  - destruct Hc as (<- & _ & ->).
    destruct Hr as (entry & ok & serr & pre & Hr & -> & _).
    inv Hr. exists entry, ok, serr, pre. split; reflexivity.
Qed.

End Pass.

(** X1.  In a pass that returns no error, the statistics logged at the
    end count what happened: [added] the calls of [Store.Save] that
    returned no error, [skipped] the lookups that found the entry,
    [ignored] the downloads that failed, [removed] the files [os.Remove]
    deleted. *)
Theorem statistics_count_the_events :
  forall (W : Type) (rt : Runtime W) (s : Service W) w w' tr,
    procChannels rt s w = (None, w', tr) ->
    exists st lifetime,
      In (EvLog "[INFO] all channels processed - channels: %d, %s, lifetime: %d"
            [V (VInt (Z.of_nat (List.length (Feeds s)))); V (stats_String st);
             V (VInt lifetime)]) tr /\
      added st = wrap (Z.of_nat (count saved_event tr)) /\
      skipped st = wrap (Z.of_nat (count duplicate_event tr)) /\
      ignored st = wrap (Z.of_nat (count download_failed_event tr)) /\
      removed st = wrap (Z.of_nat (count removed_event tr)).
Proof.
  intros W rt s w w' tr H. apply procChannels_tail in H.
  destruct H as (st & w1 & t1 & lifetime & last & lerr & Hf & ->).
  exists st, lifetime. split.
  { apply in_app_iff. right. right. left. reflexivity. }
  destruct (feeds_counts rt s _ _ _ _ _ _ _ Hf) as (Hi & A1 & A2 & A3 & A4).
  assert (H0 : in_int 0) by (unfold in_int, min_int, max_int; lia).
  destruct (Hi (conj H0 (conj H0 (conj H0 H0)))) as (I1 & I2 & I3 & I4).
  cbn [added skipped ignored removed stats_zero] in A1, A2, A3, A4.
  assert (Htail : forall p,
            p = saved_event \/ p = duplicate_event \/
            p = download_failed_event \/ p = removed_event ->
            count p
              (t1 ++
               [EvStoreCountProcessed lifetime;
                EvLog "[INFO] all channels processed - channels: %d, %s, lifetime: %d"
                  [V (VInt (Z.of_nat (List.length (Feeds s))));
                   V (stats_String st); V (VInt lifetime)];
                EvStoreLast (last, lerr)] ++
               match lerr with
               | None => [EvLog "[INFO] last entry: %s" [V (VEntry last)]]
               | Some _ => []
               end) = count p t1).
  { intros p Hp. rewrite !count_app.
    destruct Hp as [-> | [-> | [-> | ->]]]; destruct lerr; cbn; lia. }
  rewrite !Htail by auto.
  repeat split; wrap_lia.
Qed.

Lemma statistics_count_the_events_witness :
  let run := procChannels (Mock.runtime Mock.failing_exist)
               (Mock.service Mock.failing_exist [Mock.feed] 2) Mock.now0 in
  fst (fst run) = None /\
  count saved_event (snd run) = 1%nat /\
  count duplicate_event (snd run) = 1%nat /\
  exists st lifetime,
    In (EvLog "[INFO] all channels processed - channels: %d, %s, lifetime: %d"
          [V (VInt 1); V (stats_String st); V (VInt lifetime)]) (snd run) /\
    added st = 1 /\ skipped st = 1 /\ ignored st = 0 /\ removed st = 0.
Proof.
  intros run. split; [reflexivity |]. split; [reflexivity |].
  split; [reflexivity |].
  destruct (statistics_count_the_events Z (Mock.runtime Mock.failing_exist)
              (Mock.service Mock.failing_exist [Mock.feed] 2) Mock.now0
              (snd (fst run)) (snd run) eq_refl)
    as (st & lifetime & Hlog & H1 & H2 & H3 & H4).
  exists st, lifetime. split; [exact Hlog |].
  split; [exact H1 |]. split; [exact H2 |]. split; [exact H3 | exact H4].
Defined.

(** X2.  [removeOld] returns the number of files [os.Remove] deleted: at
    most the number of files the store returned, and never negative. *)
Theorem removeOld_counts_deleted_files :
  forall (W : Type) (rt : Runtime W) (s : Service W) fi w n w' tr,
    removeOld rt s fi w = (n, w', tr) ->
    exists files rerr,
      In (EvStoreRemoveOld (ID fi) (int_add (keep s fi) 1) (files, rerr)) tr /\
      n = wrap (Z.of_nat (count removed_event tr)) /\
      (count removed_event tr <= List.length files)%nat /\
      (Z.of_nat (List.length files) <= max_int ->
       n = Z.of_nat (count removed_event tr) /\
       0 <= n <= Z.of_nat (List.length files)).
Proof.
  intros W rt s fi w n w' tr H.
  destruct (removeOld_count rt s _ _ _ _ _ H) as [Hn _].
  pose proof (count_removed_le tr) as Hle.
  apply removeOld_trace in H as (files & rerr & rest & -> & Hf & _).
  cbn [removals] in Hle. rewrite Hf in Hle.
  exists files, rerr. split; [left; reflexivity |].
  split; [exact Hn |]. split; [exact Hle |].
  intros Hfit. rewrite Hn. rewrite wrap_small; [lia |].
  unfold in_int, min_int, max_int in *. lia.
Qed.

Lemma removeOld_counts_deleted_files_witness :
  let run := removeOld (Mock.runtime Mock.trimming)
               (Mock.service Mock.trimming [Mock.feed] 2) Mock.feed Mock.now0 in
  fst (fst run) = 2 /\
  exists files rerr,
    In (EvStoreRemoveOld "C1" 3 (files, rerr)) (snd run) /\
    (count removed_event (snd run) <= List.length files)%nat.
Proof.
  intros run.
  destruct (removeOld_counts_deleted_files Z (Mock.runtime Mock.trimming)
              (Mock.service Mock.trimming [Mock.feed] 2) Mock.feed Mock.now0
              (fst (fst run)) (snd (fst run)) (snd run) eq_refl)
    as (files & rerr & Hin & _ & Hle & _).
  split; [reflexivity |].
  exists files, rerr. split; [exact Hin | exact Hle].
Defined.

(** ** What makes a pass, and the driver, fail *)

Section SaveCalls.

Context {W : Type}.
Variable rt : Runtime W.
Variable s : Service W.

(** A [Store.Save] in the trace is a call of the store, with what it
    returned. *)
Lemma entry_save_called fi err i entry l w c l' w' tr e res :
  procChannels_entry rt s fi err i entry l w = (c, l', w', tr) ->
  In (EvStoreSave e res) tr ->
  exists w0 w1, Store_Save (Store s) e w0 = (res, w1).
Proof.
  intros H Hs. unfold procChannels_entry in H. run H; inv H; simpl in Hs;
    repeat (destruct Hs as [Hs | Hs]; [try discriminate |]);
    try (destruct Hs; fail); inv Hs; eauto.
Qed.

Lemma entries_save_called fi err es e res :
  forall i l w c l' w' tr,
    procChannels_entries rt s fi err i es l w = (c, l', w', tr) ->
    In (EvStoreSave e res) tr ->
    exists w0 w1, Store_Save (Store s) e w0 = (res, w1).
Proof.
  induction es as [|entry es IH]; intros i l w c l' w' tr H Hs.
  - inv H. destruct Hs.
  - apply entries_cons in H. destruct H as (c1 & l1 & w1 & t1 & He & H).
    destruct c1.
    + destruct H as (t2 & Hr & ->). apply in_app_iff in Hs as [Hs | Hs].
      * exact (entry_save_called _ _ _ _ _ _ _ _ _ _ _ _ He Hs).
      * exact (IH _ _ _ _ _ _ _ Hr Hs).
    + destruct H as (_ & _ & _ & ->). rewrite app_nil_r in Hs.
      exact (entry_save_called _ _ _ _ _ _ _ _ _ _ _ _ He Hs).
    + destruct H as (_ & _ & _ & ->). rewrite app_nil_r in Hs.
      exact (entry_save_called _ _ _ _ _ _ _ _ _ _ _ _ He Hs).
Qed.

Lemma feed_save_called fi st w c st' w' tr e res :
  procChannels_feed rt s fi st w = ((c, st'), w', tr) ->
  In (EvStoreSave e res) tr ->
  exists w0 w1, Store_Save (Store s) e w0 = (res, w1).
Proof.
  intros H Hs. apply feed_inv in H.
  destruct H as (entries & gerr & w0 & _ & H). destruct gerr as [x|].
  { destruct H as (_ & _ & _ & ->). simpl in Hs. intuition discriminate. }
  destruct H as (cl & l & w1 & t_loop & t_rest & Hl & -> & H).
  destruct Hs as [Hs | [Hs | Hs]]; try discriminate.
  apply in_app_iff in Hs as [Hs | Hs].
  { exact (entries_save_called _ _ _ _ _ _ _ _ _ _ _ _ Hl Hs). }
  exfalso.
  assert (Hrest : procChannels_changed rt s fi
                    (add_processed (allStats l) (processed_ l)) w1
                  = (st', w', t_rest)).
  { destruct cl.
    - destruct H as [_ H]. destruct (changed l); [exact H |].
      destruct H as (_ & _ & ->). destruct Hs.
    - destruct H as [_ H]. destruct (changed l); [exact H |].
      destruct H as (_ & _ & ->). destruct Hs.
    - destruct H as (_ & _ & _ & ->). destruct Hs. }
  apply changed_events in Hrest.
  apply (forallb_In _ _ _ Hrest) in Hs. discriminate.
Qed.

Lemma feeds_save_called fs e res :
  forall st w c st' w' tr,
    procChannels_feeds rt s fs st w = ((c, st'), w', tr) ->
    In (EvStoreSave e res) tr ->
    exists w0 w1, Store_Save (Store s) e w0 = (res, w1).
Proof.
  induction fs as [|fi fs IH]; intros st w c st' w' tr H Hs.
  - inv H. destruct Hs.
  - apply feeds_cons in H. destruct H as (c1 & st1 & w1 & t1 & He & H).
    destruct c1.
    + destruct H as (t2 & Hr & ->). apply in_app_iff in Hs as [Hs | Hs].
      * exact (feed_save_called _ _ _ _ _ _ _ _ _ He Hs).
      * exact (IH _ _ _ _ _ _ Hr Hs).
    + destruct H as (_ & _ & _ & ->). rewrite app_nil_r in Hs.
      exact (feed_save_called _ _ _ _ _ _ _ _ _ He Hs).
    + destruct H as (_ & _ & _ & ->). rewrite app_nil_r in Hs.
      exact (feed_save_called _ _ _ _ _ _ _ _ _ He Hs).
Qed.

Lemma pass_fails_on_save w e w' tr :
  procChannels rt s w = (Some e, w', tr) ->
  exists entry ok serr w0 w1,
    e = Wrapf serr "failed to save entry %+v" [VEntry entry] /\
    Store_Save (Store s) entry w0 = ((ok, Some serr), w1).
Proof.
  intros H. pose proof H as Hinv. apply procChannels_inv in Hinv.
  destruct Hinv as (c & st & w1 & t1 & Hf & Hc).
  pose proof (feeds_return rt s _ _ _ _ _ _ _ Hf) as Hr. cbn beta iota in Hr.
  destruct c.
  - destruct Hc as [Hc _]. discriminate.
  - destruct Hr.
  - destruct Hc as (<- & _ & ->).
    destruct Hr as (entry & ok & serr & pre & Hr & -> & _). inv Hr.
    destruct (feeds_save_called _ entry (ok, Some serr) _ _ _ _ _ _ Hf)
      as (w0 & w2 & Hcall).
    { apply in_app_iff. right. left. reflexivity. }
    exists entry, ok, serr, w0, w2. split; [reflexivity | exact Hcall].
Qed.

Lemma Do_loop_returns sigs :
  forall w o w' tr,
    Do_loop rt s sigs w = (o, w', tr) ->
    match o with
    | Returned r =>
        exists e, r = Some e /\
          (In (Done e) sigs \/
           exists entry ok serr w0 w1,
             e = Wrapf (Wrapf serr "failed to save entry %+v" [VEntry entry])
                   "failed to process channels" [] /\
             Store_Save (Store s) entry w0 = ((ok, Some serr), w1))
    | Panicked => False
    | Blocked => forall e, ~ In (Done e) sigs
    end.
Proof.
  induction sigs as [|sg sigs IH]; intros w o w' tr H.
  - inv H. intros e [].
  - destruct sg as [e|].
    + inv H. exists e. split; [reflexivity |]. left. left. reflexivity.
    + cbn [Do_loop] in H. unfold bind, ret in H.
      destruct (procChannels rt s w) as [[[e|] w1] t1] eqn:Hp.
      * inv H. exists (Wrapf e "failed to process channels" []).
        split; [reflexivity |]. right.
        destruct (pass_fails_on_save _ _ _ _ Hp)
          as (entry & ok & serr & w0 & w2 & -> & Hcall).
        exists entry, ok, serr, w0, w2. split; [reflexivity | exact Hcall].
      * destruct (Do_loop rt s sigs w1) as [[o2 w2] t2] eqn:Hl. inv H.
        specialize (IH _ _ _ _ Hl). destruct o.
        -- intros e [Hin | Hin]; [discriminate | exact (IH e Hin)].
        -- exact IH.
        -- destruct IH as (e & -> & [Hin | Hs]); exists e;
             (split; [reflexivity |]); [left; right; exact Hin | right; exact Hs].
Qed.

End SaveCalls.

(** X3.  A pass over the feeds fails only when [Store.Save] fails: the
    error it returns is that of a call of [Store.Save], wrapped; so with a
    store whose [Save] never returns an error the pass returns nil,
    whatever the listing, the lookups, the downloads, the processed
    markers, the trimming, the rendering and the publishing return. *)
Theorem pass_fails_only_when_save_fails :
  forall (W : Type) (rt : Runtime W) (s : Service W),
    (forall w e w' tr,
       procChannels rt s w = (Some e, w', tr) ->
       exists entry ok serr w0 w1,
         e = Wrapf serr "failed to save entry %+v" [VEntry entry] /\
         Store_Save (Store s) entry w0 = ((ok, Some serr), w1)) /\
    ((forall entry w0, snd (fst (Store_Save (Store s) entry w0)) = None) ->
     forall w, fst (fst (procChannels rt s w)) = None).
Proof.
  intros W rt s. split.
  - intros w e w' tr H. exact (pass_fails_on_save rt s w e w' tr H).
  - intros Hsave w.
    destruct (procChannels rt s w) as [[[e|] w'] tr] eqn:Hp; [| reflexivity].
    destruct (pass_fails_on_save rt s _ _ _ _ Hp)
      as (entry & ok & serr & w0 & w1 & _ & Hcall).
    specialize (Hsave entry w0). rewrite Hcall in Hsave. discriminate.
Qed.

Lemma pass_fails_only_when_save_fails_witness :
  let rt := Mock.runtime Mock.failing_load in
  let s := Mock.service Mock.failing_load [Mock.feed] 2 in
  (forall entry w0, snd (fst (Store_Save (Store s) entry w0)) = None) /\
  fst (fst (procChannels rt s Mock.now0)) = None /\
  In (EvStoreLoad "C1" 2 ([], Some (Err "bucket not found")))
     (snd (procChannels rt s Mock.now0)).
Proof.
  intros rt s.
  assert (Hsave : forall entry w0, snd (fst (Store_Save (Store s) entry w0)) = None)
    by (intros entry w0; reflexivity).
  split; [exact Hsave |].
  destruct (pass_fails_only_when_save_fails Z rt s) as [_ H].
  split; [exact (H Hsave Mock.now0) |].
  vm_compute. find_event.
Defined.

(** X4.  [Do] never returns nil.  It returns the error of the context
    when the cancellation is what comes next, or the error of a pass,
    wrapped, which is that of a failed [Store.Save]; it panics only on a
    check duration that is not positive; and as long as every pass
    succeeds and no cancellation comes it does not return. *)
Theorem Do_returns_an_error :
  forall (W : Type) (rt : Runtime W) (s : Service W) sigs w o w' tr,
    Do rt s sigs w = (o, w', tr) ->
    match o with
    | Returned r =>
        0 < CheckDuration s /\
        exists e, r = Some e /\
          (In (Done e) sigs \/
           exists entry ok serr w0 w1,
             e = Wrapf (Wrapf serr "failed to save entry %+v" [VEntry entry])
                   "failed to process channels" [] /\
             Store_Save (Store s) entry w0 = ((ok, Some serr), w1))
    | Panicked => CheckDuration s <= 0 /\ w' = w
    | Blocked => 0 < CheckDuration s /\ forall e, ~ In (Done e) sigs
    end.
Proof.
  intros W rt s sigs w o w' tr H.
  unfold Do, bind, log_Printf, ret in H. rewrite Do_feeds_run in H.
  destruct (Z.leb_spec (CheckDuration s) 0) as [Hle | Hlt].
  { inv H. auto. }
  destruct (procChannels rt s w) as [[[e|] w1] t1] eqn:Hp.
  - inv H. split; [exact Hlt |].
    exists (Wrapf e "failed to process channels" []).
    split; [reflexivity |]. right.
    destruct (pass_fails_on_save rt s _ _ _ _ Hp)
      as (entry & ok & serr & w0 & w2 & -> & Hcall).
    exists entry, ok, serr, w0, w2. split; [reflexivity | exact Hcall].
  - destruct (Do_loop rt s sigs w1) as [[o2 w2] t2] eqn:Hl. inv H.
    pose proof (Do_loop_returns rt s _ _ _ _ _ Hl) as Hr.
    destruct o; [auto | destruct Hr | auto].
Qed.

Lemma Do_returns_an_error_witness :
  let rt := Mock.runtime Mock.fresh in
  let s := Mock.service Mock.fresh [Mock.feed] 2 in
  fst (fst (Do rt s [Tick; Done (Err "context canceled"); Tick] Mock.now0))
  = Returned (Some (Err "context canceled")) /\
  fst (fst (Do rt s [Tick; Tick] Mock.now0)) = Blocked /\
  0 < CheckDuration s /\
  forall e, ~ In (Done e) [Tick; Tick].
Proof.
  intros rt s.
  split; [reflexivity |]. split; [reflexivity |].
  exact (Do_returns_an_error Z rt s [Tick; Tick] Mock.now0 Blocked
           (snd (fst (Do rt s [Tick; Tick] Mock.now0)))
           (snd (Do rt s [Tick; Tick] Mock.now0)) eq_refl).
Defined.

(** ** The entry that is saved *)

(** X5.  The title of an entry given to [Store.Save] is the listed title
    if that contains the name of the feed, and otherwise the listed title
    after the name of the feed and ": "; either way it contains the name
    of the feed. *)
Theorem saved_title_names_the_feed :
  forall (W : Type) (rt : Runtime W) (s : Service W) fi i entry l w c l' w' tr
         e' res,
    procChannels_entry rt s fi None i entry l w = ((c, l'), w', tr) ->
    In (EvStoreSave e' res) tr ->
    Title e' = (if Contains (Title entry) (Name fi)
                then Title entry
                else Name fi ++ ": " ++ Title entry)%string /\
    Contains (Title e') (Name fi) = true.
Proof.
  intros W rt s fi i entry l w c l' w' tr e' res H Hs.
  destruct (entry_saved_fields rt s fi i entry l w c l' w' tr H e' res Hs)
    as (_ & _ & _ & _ & _ & _ & _ & Ht & _).
  split; [exact Ht |]. rewrite Ht.
  destruct (Contains (Title entry) (Name fi)) eqn:Hc; [exact Hc |].
  apply Contains_app.
Qed.

Lemma saved_title_names_the_feed_witness :
  let run := procChannels_entry (Mock.runtime Mock.fresh)
               (Mock.service Mock.fresh [Mock.feed] 2) Mock.feed None 0
               Mock.V1 Mock.l0 Mock.now0 in
  let e' := set_Title (set_File Mock.V1 "/srv/yt/V1.mp3") "My Show: Episode 5" in
  In (EvStoreSave e' (true, None)) (snd run) /\
  Title e' = "My Show: Episode 5"%string /\
  Contains (Title e') "My Show" = true.
Proof.
  intros run e'.
  assert (Hs : In (EvStoreSave e' (true, None)) (snd run))
    by (vm_compute; find_event).
  split; [exact Hs |].
  exact (saved_title_names_the_feed Z (Mock.runtime Mock.fresh)
           (Mock.service Mock.fresh [Mock.feed] 2) Mock.feed 0 Mock.V1 Mock.l0
           Mock.now0 (fst (fst (fst run))) (snd (fst (fst run))) (snd (fst run))
           (snd run) e' (true, None) eq_refl Hs).
Defined.

(** X6.  An entry given to [Store.Save] is the listed entry with its
    identity, link, description and author untouched; its file is the
    one [Downloader.Get] returned, without error, for the entry's video
    and the file name made of its identity; and the processed marker is
    set for that entry as saved, and for no other. *)
Theorem saved_entry_is_the_downloaded_one :
  forall (W : Type) (rt : Runtime W) (s : Service W) fi i entry l w c l' w' tr
         e' res,
    procChannels_entry rt s fi None i entry l w = ((c, l'), w', tr) ->
    In (EvStoreSave e' res) tr ->
    In (EvDownloaderGet (VideoID entry)
          (hex_of_bytes (sha1.sum (bytes_of_string
             (ChannelID entry ++ "::" ++ VideoID entry))))
          (File e', None)) tr /\
    ChannelID e' = ChannelID entry /\
    VideoID e' = VideoID entry /\
    Link_Href e' = Link_Href entry /\
    Media_Description e' = Media_Description entry /\
    Author_Name e' = Author_Name entry /\
    Author_URI e' = Author_URI entry /\
    (forall e2 r2, In (EvStoreSetProcessed e2 r2) tr -> e2 = e').
Proof.
  intros W rt s fi i entry l w c l' w' tr e' res H Hs.
  destruct (entry_saved_fields rt s fi i entry l w c l' w' tr H e' res Hs)
    as (H1 & H2 & H3 & H4 & H5 & H6 & H7 & _ & H9).
  repeat split; assumption.
Qed.

Lemma saved_entry_is_the_downloaded_one_witness :
  let run := procChannels_entry (Mock.runtime Mock.fresh)
               (Mock.service Mock.fresh [Mock.feed] 2) Mock.feed None 0
               Mock.V1 Mock.l0 Mock.now0 in
  let e' := set_Title (set_File Mock.V1 "/srv/yt/V1.mp3") "My Show: Episode 5" in
  In (EvStoreSave e' (true, None)) (snd run) /\
  In (EvDownloaderGet "V1" "bc57a4f3d66f4f0f6f35d80001a5801ea5bdef2c"
        ("/srv/yt/V1.mp3"%string, None)) (snd run) /\
  forall e2 r2, In (EvStoreSetProcessed e2 r2) (snd run) -> e2 = e'.
Proof.
  intros run e'.
  assert (Hs : In (EvStoreSave e' (true, None)) (snd run))
    by (vm_compute; find_event).
  split; [exact Hs |].
  destruct (saved_entry_is_the_downloaded_one Z (Mock.runtime Mock.fresh)
              (Mock.service Mock.fresh [Mock.feed] 2) Mock.feed 0 Mock.V1
              Mock.l0 Mock.now0 (fst (fst (fst run))) (snd (fst (fst run)))
              (snd (fst run)) (snd run) e' (true, None) eq_refl Hs)
    as (H1 & _ & _ & _ & _ & _ & _ & H8).
  split; [exact H1 | exact H8].
Defined.

(** X7.  When [Store.Save] returns no error the entry counts as added and
    as handled and marks the feed changed, and the loop goes on, also
    when the store says the entry was not newly inserted and also when
    [Store.SetProcessed], which is called for the entry, fails: each of
    the two is logged as a warning and nothing more. *)
Theorem saved_entry_is_added :
  forall (W : Type) (rt : Runtime W) (s : Service W) fi i entry l w c l' w' tr
         e' ok,
    procChannels_entry rt s fi None i entry l w = ((c, l'), w', tr) ->
    In (EvStoreSave e' (ok, None)) tr ->
    c = Next /\
    changed l' = true /\
    processed_ l' = int_add (processed_ l) 1 /\
    added (allStats l') = int_add (added (allStats l)) 1 /\
    skipped (allStats l') = skipped (allStats l) /\
    ignored (allStats l') = ignored (allStats l) /\
    (exists perr,
       In (EvStoreSetProcessed e' perr) tr /\
       forall x, perr = Some x ->
         In (EvLog "[WARN] failed to set processed status for %s: %v"
               [V (VStr (VideoID e')); E x]) tr) /\
    (ok = false ->
     In (EvLog "[WARN] attempt to save dup entry %+v" [V (VEntry e')]) tr).
Proof.
  intros W rt s fi i entry l w c l' w' tr e' ok H Hs.
  exact (entry_saved_ok rt s fi i entry l w c l' w' tr H e' ok Hs).
Qed.

Lemma saved_entry_is_added_witness :
  let sc := Mock.with_Save Mock.fresh (fun _ => (false, None)) in
  let run := procChannels_entry (Mock.runtime sc)
               (Mock.service sc [Mock.feed] 2) Mock.feed None 0
               Mock.V1 Mock.l0 Mock.now0 in
  let e' := set_Title (set_File Mock.V1 "/srv/yt/V1.mp3") "My Show: Episode 5" in
  In (EvStoreSave e' (false, None)) (snd run) /\
  fst (fst (fst run)) = Next /\
  changed (snd (fst (fst run))) = true /\
  added (allStats (snd (fst (fst run)))) = 1 /\
  In (EvLog "[WARN] attempt to save dup entry %+v" [V (VEntry e')]) (snd run).
Proof.
  intros sc run e'.
  assert (Hs : In (EvStoreSave e' (false, None)) (snd run))
    by (vm_compute; find_event).
  split; [exact Hs |].
  destruct (saved_entry_is_added Z (Mock.runtime sc)
              (Mock.service sc [Mock.feed] 2) Mock.feed 0 Mock.V1
              Mock.l0 Mock.now0 (fst (fst (fst run))) (snd (fst (fst run)))
              (snd (fst run)) (snd run) e' false eq_refl Hs)
    as (H1 & H2 & _ & H4 & _ & _ & _ & H8).
  split; [exact H1 |]. split; [exact H2 |]. split; [exact H4 |].
  exact (H8 eq_refl).
Defined.

(** X8.  An entry that [Store.Exist] finds, or that
    [Store.CheckProcessed] finds without error, is counted as skipped and
    as handled, and the loop goes on; nothing but the lookups themselves
    is called for it, and nothing is logged. *)
Theorem duplicate_is_skipped :
  forall (W : Type) (rt : Runtime W) (s : Service W) fi i entry l w c l' w' tr,
    procChannels_entry rt s fi None i entry l w = ((c, l'), w', tr) ->
    (exists x, In (EvStoreExist entry (true, x)) tr) \/
    (exists ts, In (EvStoreCheckProcessed entry (true, ts, None)) tr) ->
    c = Next /\
    processed_ l' = int_add (processed_ l) 1 /\
    skipped (allStats l') = int_add (skipped (allStats l)) 1 /\
    added (allStats l') = added (allStats l) /\
    ignored (allStats l') = ignored (allStats l) /\
    changed l' = changed l /\
    forall ev, In ev tr ->
      (exists res, ev = EvStoreExist entry res) \/
      (exists res, ev = EvStoreCheckProcessed entry res).
Proof.
  intros W rt s fi i entry l w c l' w' tr H Hd.
  destruct (entry_duplicate_counted rt s fi i entry l w c l' w' tr H Hd)
    as (Hc & -> & Hev).
  repeat split; try assumption.
Qed.

Lemma duplicate_is_skipped_witness :
  let sc := Mock.with_CheckProcessed Mock.fresh (fun _ => (true, 5, None)) in
  let run := procChannels_entry (Mock.runtime sc)
               (Mock.service sc [Mock.feed] 2) Mock.feed None 0
               Mock.V1 Mock.l0 Mock.now0 in
  (exists ts, In (EvStoreCheckProcessed Mock.V1 (true, ts, None)) (snd run)) /\
  fst (fst (fst run)) = Next /\
  processed_ (snd (fst (fst run))) = 1 /\
  skipped (allStats (snd (fst (fst run)))) = 1.
Proof.
  intros sc run.
  assert (Hd : exists ts, In (EvStoreCheckProcessed Mock.V1 (true, ts, None)) (snd run))
    by (exists 5; vm_compute; find_event).
  split; [exact Hd |].
  destruct (duplicate_is_skipped Z (Mock.runtime sc)
              (Mock.service sc [Mock.feed] 2) Mock.feed 0 Mock.V1
              Mock.l0 Mock.now0 (fst (fst (fst run))) (snd (fst (fst run)))
              (snd (fst run)) (snd run) eq_refl (or_intror Hd))
    as (H1 & H2 & H3 & _).
  split; [exact H1 |]. split; [exact H2 | exact H3].
Defined.

(** ** A keep count that is not positive *)

(** X9.  With an effective keep count of 0 or less a feed is listed and
    nothing more: no lookup, no download, no [Store.Save]; the feed is not
    trimmed, rendered or published, and the counters of added, skipped,
    ignored and removed entries stay as they are. *)
Theorem nothing_kept_nothing_done :
  forall (W : Type) (rt : Runtime W) (s : Service W) fi st w c st' w' tr,
    keep s fi <= 0 ->
    procChannels_feed rt s fi st w = ((c, st'), w', tr) ->
    c = Next /\
    (exists res, Channel_Get (ChannelService_ s) (ID fi) (Type_ fi) w = (res, w') /\
       exists format args,
         tr = [EvChannelGet (ID fi) (Type_ fi) res; EvLog format args]) /\
    added st' = added st /\ skipped st' = skipped st /\
    ignored st' = ignored st /\ removed st' = removed st.
Proof.
  intros W rt s fi st w c st' w' tr Hk H. apply feed_inv in H.
  destruct H as (entries & gerr & w0 & Hg & H). destruct gerr as [e|].
  { destruct H as (-> & -> & -> & ->). split; [reflexivity |].
    split; [| auto]. eexists. split; [exact Hg |]. eauto. }
  destruct H as (cl & l & w1 & t_loop & t_rest & Hl & -> & H).
  assert (Hloop : cl <> Return None /\ (forall e, cl <> Return e) /\
                  changed l = false /\ w1 = w0 /\ t_loop = [] /\
                  added (allStats l) = added st /\
                  skipped (allStats l) = skipped st /\
                  ignored (allStats l) = ignored st /\
                  removed (allStats l) = removed st).
  { destruct entries as [|entry es].
    - inv Hl. repeat split; discriminate.
    - cbn [procChannels_entries] in Hl.
      unfold bind, procChannels_entry, ret in Hl. cbn [processed_ on_stats] in Hl.
      destruct (Z.geb_spec 0 (keep s fi)) as [_ | Hlt]; [| lia].
      inv Hl. repeat split; discriminate. }
  destruct Hloop as (_ & Hc & Hch & -> & -> & A1 & A2 & A3 & A4).
  rewrite Hch in H.
  assert (Hend : c = Next /\ st' = add_processed (allStats l) (processed_ l) /\
                 w' = w0 /\ t_rest = []).
  { destruct cl; [apply H | apply H | exfalso; eapply Hc; reflexivity]. }
  destruct Hend as (-> & -> & -> & ->).
  split; [reflexivity |]. split; [| auto].
  eexists. split; [exact Hg |]. eauto.
Qed.

Lemma nothing_kept_nothing_done_witness :
  let s := Mock.service Mock.fresh [Mock.feed] 0 in
  let run := procChannels_feed (Mock.runtime Mock.fresh) s Mock.feed stats_zero
               Mock.now0 in
  keep s Mock.feed <= 0 /\
  fst (fst (fst run)) = Next /\
  added (snd (fst (fst run))) = 0 /\
  List.length (snd run) = 2%nat.
Proof.
  intros s run.
  assert (Hk : keep s Mock.feed <= 0) by (vm_compute; discriminate).
  split; [exact Hk |].
  destruct (nothing_kept_nothing_done Z (Mock.runtime Mock.fresh) s Mock.feed
              stats_zero Mock.now0 (fst (fst (fst run))) (snd (fst (fst run)))
              (snd (fst run)) (snd run) Hk eq_refl)
    as (H1 & _ & H3 & _).
  split; [exact H1 |]. split; [exact H3 | reflexivity].
Defined.

(** ** Failures of rendering and of publishing *)

Section Render.

Context {W : Type}.
Variable rt : Runtime W.
Variable s : Service W.

Lemma RSSFeed_load_failed fi w doc rssErr w' tr id k es e :
  RSSFeed rt s fi w = ((doc, rssErr), w', tr) ->
  In (EvStoreLoad id k (es, Some e)) tr ->
  doc = EmptyString /\
  rssErr = Some (Wrapf e "failed to get channel entries" []) /\
  tr = [EvStoreLoad (ID fi) (keep s fi) (es, Some e)].
Proof.
  intros H Hin. pose proof H as Ht.
  apply RSSFeed_trace in Ht as (res & rest & -> & Hrest & _).
  destruct Hin as [Hin | Hin].
  2: { apply (forallb_In _ _ _ Hrest) in Hin. discriminate. }
  inv Hin.
  unfold RSSFeed, bind, call, ret in H.
  destruct (Store_Load (Store s) (ID fi) (keep s fi) w) as [[entries lerr] w1].
  destruct lerr as [x|].
  - inv H. auto.
  - exfalso. destruct entries as [|entry0 entries].
    + inv H.
    + destruct (RSSFeed_items rt s (entry0 :: entries) [] w1) as [[items w2] t2].
      destruct (time_Now rt w2) as [now w3].
      match type of H with
      | context [xml_MarshalIndent rt ?r ?a ?b] =>
          destruct (xml_MarshalIndent rt r a b) as [b0 [x|]]
      end; inv H.
Qed.

End Render.

(** X10.  A feed whose rendering fails because [Store.Load] fails, or
    whose publishing fails because [RSSFileStore.Save] fails, is dealt
    with by a warning in the log: the pass goes on to the next feed.  In
    the first case nothing is handed to [RSSFileStore.Save]. *)
Theorem render_and_publish_failures_are_logged :
  forall (W : Type) (rt : Runtime W) (s : Service W) fi st w c st' w' tr,
    procChannels_feed rt s fi st w = ((c, st'), w', tr) ->
    (forall id k es e,
       In (EvStoreLoad id k (es, Some e)) tr ->
       c = Next /\
       In (EvLog "[WARN] failed to generate rss for %s: %s"
             [V (VStr (Name fi));
              E (Wrapf e "failed to get channel entries" [])]) tr /\
       forall id' doc res, ~ In (EvRSSFileStoreSave id' doc res) tr) /\
    (forall id doc e,
       In (EvRSSFileStoreSave id doc (Some e)) tr ->
       c = Next /\
       In (EvLog "[WARN] failed to save rss for %s: %s"
             [V (VStr (Name fi)); E e]) tr).
Proof.
  intros W rt s fi st w c st' w' tr H.
  apply feed_inv in H.
  destruct H as (entries & gerr & w0 & _ & H). destruct gerr as [x|].
  { destruct H as (_ & _ & _ & ->). split.
    - intros id k es e Hin. simpl in Hin. intuition discriminate.
    - intros id doc e Hin. simpl in Hin. intuition discriminate. }
  destruct H as (cl & l & w1 & t_loop & t_rest & Hl & -> & H).
  pose proof (entries_events rt s fi _ _ _ _ _ _ _ _ _ Hl) as Hev.
  assert (Hrest : forall ev, changed_event ev = true -> entry_event ev = false ->
            In ev (EvChannelGet (ID fi) (Type_ fi) (entries, None) ::
                   EvLog "[INFO] got %d entries for %s, limit to %d"
                     [V (VInt (Z.of_nat (List.length entries)));
                      V (VStr (Name fi)); V (VInt (keep s fi))] ::
                   t_loop ++ t_rest) ->
            c = Next /\ In ev t_rest /\
            procChannels_changed rt s fi
              (add_processed (allStats l) (processed_ l)) w1
            = (st', w', t_rest)).
  { intros ev Hce Hee [Hin | [Hin | Hin]];
      [subst ev; discriminate | subst ev; discriminate |].
    apply in_app_iff in Hin as [Hin | Hin].
    { apply (forallb_In _ _ _ Hev) in Hin. congruence. }
    destruct cl.
    - destruct H as [-> H]. destruct (changed l); [auto |].
      destruct H as (_ & _ & ->). destruct Hin.
    - destruct H as [-> H]. destruct (changed l); [auto |].
      destruct H as (_ & _ & ->). destruct Hin.
    - destruct H as (_ & _ & _ & ->). destruct Hin. }
  assert (Hpub : forall ev, In ev t_rest ->
            In ev (EvChannelGet (ID fi) (Type_ fi) (entries, None) ::
                   EvLog "[INFO] got %d entries for %s, limit to %d"
                     [V (VInt (Z.of_nat (List.length entries)));
                      V (VStr (Name fi)); V (VInt (keep s fi))] ::
                   t_loop ++ t_rest)).
  { intros ev Hin. right. right. apply in_app_iff. auto. }
  split.
  - intros id k es e Hin.
    destruct (Hrest (EvStoreLoad id k (es, Some e)) eq_refl eq_refl Hin)
      as (-> & Hin' & Hch).
    split; [reflexivity |].
    apply changed_inv in Hch.
    destruct Hch as (n & w2 & t1 & doc & rssErr & w3 & t2 & t3 & Ht & Hr & -> & _ & Hp).
    apply removeOld_trace in Ht as (files & rerr & rest & -> & _ & Htrim).
    assert (Hin2 : In (EvStoreLoad id k (es, Some e)) t2).
    { apply in_app_iff in Hin' as [Hi | Hi].
      - destruct Hi as [Hi | Hi]; [discriminate |].
        apply (forallb_In _ _ _ Htrim) in Hi. discriminate.
      - apply in_app_iff in Hi as [Hi | Hi]; [exact Hi |].
        destruct rssErr as [x|].
        + destruct Hp as [_ ->]. destruct Hi as [Hi | []]. discriminate.
        + destruct Hp as (r0 & _ & ->). destruct r0; simpl in Hi;
            intuition discriminate. }
    destruct (RSSFeed_load_failed rt s _ _ _ _ _ _ _ _ _ _ Hr Hin2)
      as (-> & -> & ->).
    destruct Hp as [_ ->]. split.
    + apply Hpub. apply in_app_iff. right. right. left. reflexivity.
    + intros id' doc res [Hi | [Hi | Hi]]; try discriminate.
      apply in_app_iff in Hi as [Hi | Hi].
      { apply (forallb_In _ _ _ Hev) in Hi. discriminate. }
      apply in_app_iff in Hi as [Hi | Hi].
      { destruct Hi as [Hi | Hi]; [discriminate |].
        apply (forallb_In _ _ _ Htrim) in Hi. discriminate. }
      simpl in Hi. intuition discriminate.
  - intros id doc e Hin.
    destruct (Hrest (EvRSSFileStoreSave id doc (Some e)) eq_refl eq_refl Hin)
      as (-> & Hin' & Hch).
    split; [reflexivity |].
    apply changed_inv in Hch.
    destruct Hch as (n & w2 & t1 & doc0 & rssErr & w3 & t2 & t3 & Ht & Hr & -> & _ & Hp).
    apply removeOld_trace in Ht as (files & rerr & rest & -> & _ & Htrim).
    apply RSSFeed_trace in Hr as (res & rest2 & -> & Hitems & _).
    assert (Hin3 : In (EvRSSFileStoreSave id doc (Some e)) t3).
    { apply in_app_iff in Hin' as [Hi | Hi].
      - destruct Hi as [Hi | Hi]; [discriminate |].
        apply (forallb_In _ _ _ Htrim) in Hi. discriminate.
      - apply in_app_iff in Hi as [Hi | Hi]; [| exact Hi].
        destruct Hi as [Hi | Hi]; [discriminate |].
        apply (forallb_In _ _ _ Hitems) in Hi. discriminate. }
    apply Hpub. apply in_app_iff. right. apply in_app_iff. right.
    destruct rssErr as [x|].
    + destruct Hp as [_ ->]. destruct Hin3 as [Hi | []]. discriminate.
    + destruct Hp as (r0 & _ & ->). destruct r0 as [x|].
      * destruct Hin3 as [Hi | [Hi | []]]; [| discriminate].
        inv Hi. right. left. reflexivity.
      * destruct Hin3 as [Hi | []]. discriminate.
Qed.

Lemma render_and_publish_failures_are_logged_witness :
  let rt := Mock.runtime Mock.failing_load in
  let s := Mock.service Mock.failing_load [Mock.feed] 2 in
  let run := procChannels_feed rt s Mock.feed stats_zero Mock.now0 in
  In (EvStoreLoad "C1" 2 ([], Some (Err "bucket not found"))) (snd run) /\
  fst (fst (fst run)) = Next /\
  In (EvLog "[WARN] failed to generate rss for %s: %s"
        [V (VStr "My Show");
         E (Wrapf (Err "bucket not found") "failed to get channel entries" [])])
     (snd run).
Proof.
  intros rt s run.
  assert (Hin : In (EvStoreLoad "C1" 2 ([], Some (Err "bucket not found"))) (snd run))
    by (vm_compute; find_event).
  split; [exact Hin |].
  destruct (render_and_publish_failures_are_logged Z rt s Mock.feed stats_zero
              Mock.now0 (fst (fst (fst run))) (snd (fst (fst run)))
              (snd (fst run)) (snd run) eq_refl) as [H1 _].
  destruct (H1 _ _ _ _ Hin) as (Hc & Hlog & _).
  split; [exact Hc | exact Hlog].
Defined.

(** ** The document of a feed *)

Section Items.

Context {W : Type}.
Variable rt : Runtime W.
Variable s : Service W.

Lemma RSSFeed_items_built entries :
  forall items w items' w' tr,
    RSSFeed_items rt s entries items w = (items', w', tr) ->
    exists new,
      items' = items ++ new /\
      map GUID new = map (fun e => ChannelID e ++ "::" ++ VideoID e)%string entries /\
      map Item_Title new = map Title entries /\
      map Item_Description new = map Media_Description entries /\
      map Item_Link new = map Link_Href entries /\
      map Author new = map Author_Name entries /\
      map Item_PubDate new
      = map (fun e => time_Format rt (Published e) RFC822Z) entries /\
      map (fun it => URL (Item_Enclosure it)) new
      = map (fun e => RootURL s ++ "/" ++ path_Base rt (File e))%string entries /\
      map (fun it => Type__ (Item_Enclosure it)) new
      = map (fun _ => "audio/mpeg"%string) entries /\
      map (fun it => Length (Item_Enclosure it)) new = stat_sizes tr.
Proof.
  induction entries as [|entry entries IH]; intros items w items' w' tr H.
  - inv H. exists []. rewrite app_nil_r. repeat split.
  - cbn [RSSFeed_items] in H. unfold bind, call, log_Printf, ret in H.
    destruct (os_Stat rt (File entry) w) as [[size [e|]] w1];
      destruct (time_Now rt w1) as [now w2];
      match type of H with
      | context [RSSFeed_items rt s entries (items ++ [?it]) w2] =>
          destruct (RSSFeed_items rt s entries (items ++ [it]) w2)
            as [[it2 w3] t3] eqn:Hr;
          inv H;
          destruct (IH _ _ _ _ _ Hr)
            as (new & -> & G1 & G2 & G3 & G4 & G5 & G6 & G7 & G8 & G9);
          exists (it :: new)
      end;
      (split; [rewrite <- app_assoc; reflexivity |]);
      cbn [map app stat_sizes GUID Item_Title Item_Description Item_Link Author
           Item_PubDate Item_Enclosure URL Type__ Length];
      rewrite G1, G2, G3, G4, G5, G6, G7, G8, G9; repeat split.
Qed.

End Items.

(** X11.  A document that [RSSFeed] returns without error is the empty
    one when no entry was loaded; otherwise it is the XML of a feed that
    has one item for each loaded entry, in order: its identifier is the
    entry's channel and video joined by "::", its title, description,
    link, author and publication date are the entry's, its enclosure is
    the root URL and the base name of the entry's file, of type
    audio/mpeg, with the size [os.Stat] gave or 0 where [os.Stat] failed.
    The feed carries the name and the language of the feed's
    configuration, the publication date of the first entry, and as link
    the playlist's URL for a playlist and the first entry's author URI
    otherwise. *)
Theorem RSSFeed_renders_the_loaded_entries :
  forall (W : Type) (rt : Runtime W) (s : Service W) fi w doc w' tr,
    RSSFeed rt s fi w = ((doc, None), w', tr) ->
    exists entries rest,
      tr = EvStoreLoad (ID fi) (keep s fi) (entries, None) :: rest /\
      match entries with
      | [] => doc = EmptyString /\ rest = []
      | entry0 :: _ =>
          exists rss,
            xml_MarshalIndent rt rss "" "  " = (doc, None) /\
            Version rss = "2.0"%string /\
            Rss_Title rss = Name fi /\
            Rss_Description rss = "generated by feed-master"%string /\
            Rss_Language rss = Language fi /\
            Rss_Link rss
            = (if String.eqb (Type_ fi) FTPlaylist
               then "https://www.youtube.com/playlist?list=" ++ ID fi
               else Author_URI entry0)%string /\
            Rss_PubDate rss = time_Format rt (Published entry0) RFC822Z /\
            map GUID (ItemList rss)
            = map (fun e => ChannelID e ++ "::" ++ VideoID e)%string entries /\
            map Item_Title (ItemList rss) = map Title entries /\
            map Item_Description (ItemList rss) = map Media_Description entries /\
            map Item_Link (ItemList rss) = map Link_Href entries /\
            map Author (ItemList rss) = map Author_Name entries /\
            map Item_PubDate (ItemList rss)
            = map (fun e => time_Format rt (Published e) RFC822Z) entries /\
            map (fun it => URL (Item_Enclosure it)) (ItemList rss)
            = map (fun e => RootURL s ++ "/" ++ path_Base rt (File e))%string
                entries /\
            map (fun it => Type__ (Item_Enclosure it)) (ItemList rss)
            = map (fun _ => "audio/mpeg"%string) entries /\
            map (fun it => Length (Item_Enclosure it)) (ItemList rss)
            = stat_sizes rest
      end.
Proof.
  intros W rt s fi w doc w' tr H. unfold RSSFeed, bind, call, ret in H.
  destruct (Store_Load (Store s) (ID fi) (keep s fi) w) as [[entries lerr] w1].
  destruct lerr as [e|]; [inv H |].
  exists entries. destruct entries as [|entry0 entries].
  { inv H. exists []. auto. }
  destruct (RSSFeed_items rt s (entry0 :: entries) [] w1) as [[items w2] t2] eqn:Hi.
  destruct (time_Now rt w2) as [now w3].
  destruct (RSSFeed_items_built rt s _ _ _ _ _ _ Hi)
    as (new & Hnew & G1 & G2 & G3 & G4 & G5 & G6 & G7 & G8 & G9).
  cbn [app] in Hnew. subst items.
  assert (Hpub : match new with
                 | item0 :: _ => Item_PubDate item0
                 | [] => EmptyString
                 end = time_Format rt (Published entry0) RFC822Z).
  { destruct new as [|item0 new]; [discriminate G1 |]. inv G6. reflexivity. }
  assert (Hsizes : stat_sizes (t2 ++ [EvNow now]) = stat_sizes t2).
  { clear. induction t2 as [|ev t2 IH]; [reflexivity |].
    destruct ev; cbn [app stat_sizes]; try exact IH.
    destruct res as [size [x|]]; cbn [stat_sizes]; rewrite IH; reflexivity. }
  match type of H with
  | context [xml_MarshalIndent rt ?r ?a ?b] =>
      destruct (xml_MarshalIndent rt r a b) as [b0 [x|]] eqn:Hm; [inv H |];
      inv H; eexists; split; [reflexivity |]; exists r
  end.
  split; [exact Hm |].
  destruct (String.eqb (Type_ fi) FTPlaylist);
    cbn [Version Rss_Title Rss_Description Rss_Language Rss_Link Rss_PubDate
         ItemList set_Rss_Link];
    rewrite ?app_nil_r; cbn [app]; rewrite Hpub, Hsizes; repeat split;
    assumption.
Qed.

Lemma RSSFeed_renders_the_loaded_entries_witness :
  let rt := Mock.runtime Mock.fresh in
  let s := Mock.service Mock.fresh [Mock.feed] 2 in
  let run := RSSFeed rt s Mock.feed Mock.now0 in
  fst (fst run) = ("<rss></rss>"%string, None) /\
  exists entries rest,
    snd run = EvStoreLoad "C1" 2 (entries, None) :: rest /\
    entries = [Mock.V1] /\
    stat_sizes rest = [1024].
Proof.
  intros rt s run.
  split; [reflexivity |].
  destruct (RSSFeed_renders_the_loaded_entries Z rt s Mock.feed Mock.now0
              "<rss></rss>"%string (snd (fst run)) (snd run) eq_refl)
    as (entries & rest & Htr & _).
  exists entries, rest. split; [exact Htr |].
  vm_compute in Htr. inv Htr. split; reflexivity.
Defined.

(** ** How much is done for a feed in a pass *)

Section Handled.

Context {W : Type}.
Variable rt : Runtime W.
Variable s : Service W.
Variable fi : FeedInfo.
Hypothesis Hkeep : keep s fi <= max_int.

Lemma entry_handled i entry l w c l' w' tr :
  procChannels_entry rt s fi None i entry l w = (c, l', w', tr) ->
  0 <= processed_ l ->
  processed_ l'
  = processed_ l
    + Z.of_nat (count duplicate_event tr + count downloaded_event tr).
Proof.
  intros H Hp. unfold procChannels_entry in H. run H; inv H; fields;
    try (apply geb_false in Heqb; fields);
    repeat (rewrite count_cons || rewrite count_nil);
    cbn [duplicate_event downloaded_event];
    repeat match goal with
      | |- context [match ?b with _ => _ end] => is_var b; destruct b
      end;
    wrap_lia.
Qed.

Lemma entries_handled es :
  forall i l w c l' w' tr,
    procChannels_entries rt s fi None i es l w = (c, l', w', tr) ->
    0 <= processed_ l ->
    processed_ l'
    = processed_ l
      + Z.of_nat (count duplicate_event tr + count downloaded_event tr).
Proof.
  induction es as [|entry es IH]; intros i l w c l' w' tr H Hp.
  - inv H. cbn. lia.
  - apply entries_cons in H. destruct H as (c1 & l1 & w1 & t1 & He & H).
    pose proof (entry_handled _ _ _ _ _ _ _ _ He Hp) as H1.
    destruct c1.
    + destruct H as (t2 & Hr & ->).
      assert (Hp1 : 0 <= processed_ l1) by lia.
      pose proof (IH _ _ _ _ _ _ _ Hr Hp1) as H2.
      rewrite !count_app. lia.
    + destruct H as (_ & -> & _ & ->). rewrite app_nil_r. exact H1.
    + destruct H as (_ & -> & _ & ->). rewrite app_nil_r. exact H1.
Qed.

End Handled.

(** X12.  In the turn of a feed, the entries found by a lookup and the
    entries downloaded are together at most [keep] (none when [keep] is
    not positive), however many entries the listing returns: this is the
    count the loop keeps of the entries it handled. *)
Theorem at_most_keep_found_or_downloaded :
  forall (W : Type) (rt : Runtime W) (s : Service W) fi i es st w c l' w' tr,
    keep s fi <= max_int ->
    procChannels_entries rt s fi None i es
      {| allStats := st; changed := false; processed_ := 0 |} w
    = ((c, l'), w', tr) ->
    Z.of_nat (count duplicate_event tr + count downloaded_event tr)
    = processed_ l' /\
    Z.of_nat (count duplicate_event tr + count downloaded_event tr)
    <= Z.max 0 (keep s fi).
Proof.
  intros W rt s fi i es st w c l' w' tr Hk H.
  pose proof (entries_handled rt s fi Hk es _ _ _ _ _ _ _ H) as Hh.
  cbn [processed_] in Hh. specialize (Hh ltac:(lia)).
  assert (H0 : in_int 0) by (unfold in_int, min_int, max_int; lia).
  assert (Hm : 0 <= Z.max 0 (keep s fi)) by lia.
  destruct (entries_bound rt s fi None es _ _ _ _ _ _ _ H H0 Hm) as [_ Hb].
  lia.
Qed.

Lemma at_most_keep_found_or_downloaded_witness :
  let s := Mock.service Mock.fresh [Mock.feed] 2 in
  let run := procChannels_entries (Mock.runtime Mock.fresh) s Mock.feed None 0
               [Mock.V1; Mock.V2; Mock.V3] Mock.l0 Mock.now0 in
  keep s Mock.feed <= max_int /\
  count downloaded_event (snd run) = 2%nat /\
  Z.of_nat (count duplicate_event (snd run) + count downloaded_event (snd run))
  <= 2.
Proof.
  intros s run.
  assert (Hk : keep s Mock.feed <= max_int) by (vm_compute; discriminate).
  split; [exact Hk |]. split; [reflexivity |].
  destruct (at_most_keep_found_or_downloaded Z (Mock.runtime Mock.fresh) s
              Mock.feed 0 [Mock.V1; Mock.V2; Mock.V3] stats_zero Mock.now0
              (fst (fst (fst run))) (snd (fst (fst run))) (snd (fst run))
              (snd run) Hk eq_refl) as [_ H].
  exact H.
Defined.

(** ** A listing that fails *)

(** X13.  A feed whose listing fails is passed over: the failure is
    logged as a warning, nothing else is called for the feed, the run
    statistics are untouched, and the pass goes on to the next feed. *)
Theorem failed_listing_skips_the_feed :
  forall (W : Type) (rt : Runtime W) (s : Service W) fi st w c st' w' tr
         id ty es e,
    procChannels_feed rt s fi st w = ((c, st'), w', tr) ->
    In (EvChannelGet id ty (es, Some e)) tr ->
    c = Next /\
    st' = st /\
    tr = [EvChannelGet (ID fi) (Type_ fi) (es, Some e);
          EvLog "[WARN] failed to get channel entries for %s: %s"
            [V (VStr (ID fi)); E e]].
Proof.
  intros W rt s fi st w c st' w' tr id ty es e H Hin.
  pose proof H as Hinv. apply feed_inv in Hinv.
  destruct Hinv as (entries & gerr & w0 & _ & Hinv). destruct gerr as [x|].
  - destruct Hinv as (-> & -> & _ & ->).
    destruct Hin as [Hin | [Hin | []]]; [| discriminate].
    inv Hin. auto.
  - exfalso.
    destruct Hinv as (cl & l & w1 & t_loop & t_rest & Hl & -> & Hc).
    destruct Hin as [Hin | [Hin | Hin]]; try discriminate.
    apply in_app_iff in Hin as [Hin | Hin].
    + apply (forallb_In _ _ _ (entries_events rt s fi _ _ _ _ _ _ _ _ _ Hl)) in Hin.
      discriminate.
    + assert (Hrest : procChannels_changed rt s fi
                        (add_processed (allStats l) (processed_ l)) w1
                      = (st', w', t_rest)).
      { destruct cl.
        - destruct Hc as [_ Hc]. destruct (changed l); [exact Hc |].
          destruct Hc as (_ & _ & ->). destruct Hin.
        - destruct Hc as [_ Hc]. destruct (changed l); [exact Hc |].
          destruct Hc as (_ & _ & ->). destruct Hin.
        - destruct Hc as (_ & _ & _ & ->). destruct Hin. }
      apply changed_events in Hrest.
      apply (forallb_In _ _ _ Hrest) in Hin. discriminate.
Qed.

Lemma failed_listing_skips_the_feed_witness :
  let sc := Mock.with_Get Mock.fresh (fun _ => ([], Some (Err "timeout"))) in
  let run := procChannels_feed (Mock.runtime sc)
               (Mock.service sc [Mock.feed] 2) Mock.feed stats_zero Mock.now0 in
  In (EvChannelGet "C1" "channel" ([], Some (Err "timeout"))) (snd run) /\
  fst (fst (fst run)) = Next /\
  snd (fst (fst run)) = stats_zero.
Proof.
  intros sc run.
  assert (Hin : In (EvChannelGet "C1" "channel" ([], Some (Err "timeout"))) (snd run))
    by (vm_compute; find_event).
  split; [exact Hin |].
  destruct (failed_listing_skips_the_feed Z (Mock.runtime sc)
              (Mock.service sc [Mock.feed] 2) Mock.feed stats_zero Mock.now0
              (fst (fst (fst run))) (snd (fst (fst run))) (snd (fst run))
              (snd run) _ _ _ _ eq_refl Hin) as (H1 & H2 & _).
  split; [exact H1 | exact H2].
Defined.
